(** * LightNVM core (drivers/md/lightnvm/core.c): a shallow embedding

    The host-side flash translation layer of [core.c] is embedded as
    functions over an explicit device state [nvmd].  Pointers of the C code
    are indices into the arrays that own the objects ([blocks], [pools],
    [aps], [bios], [maps]); a null pointer is [None].  Kernel assertions are
    kept: [BUG_ON] aborts the computation, [WARN_ON] leaves a record in the
    kernel log and goes on.  Spin locks are not modelled: every function is
    run to completion on its own. *)

From Stdlib Require Import ZArith List Lia Bool.
From stdpp Require Import base list.
Import ListNotations.

Local Open Scope Z_scope.

(** ** Machine integers *)

(** [unsigned int] *)
Definition u32 (z : Z) : Z := z mod 2 ^ 32.
(** [sector_t], [unsigned long] *)
Definition u64 (z : Z) : Z := z mod 2 ^ 64.
(** [int], the payload of an [atomic_t] *)
Definition s32 (z : Z) : Z := (z + 2 ^ 31) mod 2 ^ 32 - 2 ^ 31.

(** ** Bitmaps (linux/bitmap.h, asm/bitops.h) *)

Definition BITS_PER_LONG : Z := 64.
Definition BITS_TO_LONGS (nbits : Z) : Z :=
  (nbits + BITS_PER_LONG - 1) / BITS_PER_LONG.

(** [bitmap_zero(dst, nbits)] clears the longs that hold the first [nbits]
    bits. *)
Definition bitmap_zero (dst : Z) (nbits : Z) : Z :=
  let len := BITS_TO_LONGS nbits * BITS_PER_LONG in
  Z.shiftl (Z.shiftr dst len) len.

(** [test_and_set_bit(nr, addr)]: the old value of the bit and the bitmap
    with the bit set. *)
Definition test_and_set_bit (nr : Z) (bm : Z) : bool * Z :=
  (Z.testbit bm nr, Z.setbit bm nr).

(** [bitmap_weight(src, nbits)]: how many of the first [nbits] bits are
    set. *)
Fixpoint bitmap_weight_nat (bm : Z) (nbits : nat) : Z :=
  match nbits with
  | O => 0
  | S k => bitmap_weight_nat bm k + (if Z.testbit bm (Z.of_nat k) then 1 else 0)
  end.

Definition bitmap_weight (bm : Z) (nbits : Z) : Z :=
  bitmap_weight_nat bm (Z.to_nat nbits).

(** ** Data structures (declared in lightnvm.h)

    The header itself is not embedded.  The records below have the fields
    core.c reads and writes, under the integer types its code implies: [sector_t] addresses, [unsigned int] cursors and counters,
    [atomic_t] where the code uses the atomic operations. *)

(** [struct nvm_addr]: a forward entry, and the handle handed to a bio. *)
Record nvm_addr := mk_addr {
  addr : Z;                      (* sector_t *)
  block : option nat;            (* struct nvm_block * *)
  private : option Z             (* void * *)
}.

(** [struct nvm_rev_addr]: a reverse entry. *)
Record nvm_rev_addr := mk_rev {
  rv_addr : Z;                   (* sector_t addr *)
  rv_trans_map : option nat      (* struct nvm_addr *trans_map *)
}.

(** A host page of the staging buffer. *)
Definition page := list Z.

(** [struct nvm_block] *)
Record nvm_block := mk_block {
  blk_id : Z;
  blk_pool : nat;                (* struct nvm_pool *pool *)
  blk_ap : option nat;           (* struct nvm_ap *ap *)
  next_page : Z;                 (* unsigned int *)
  next_offset : Z;               (* unsigned int *)
  nr_invalid_pages : Z;          (* unsigned int *)
  invalid_pages : Z;             (* bitmap of nr_host_pages_in_blk bits *)
  data : option (list page);     (* struct page *data *)
  data_size : Z;                 (* atomic_t *)
  data_cmnt_size : Z;            (* atomic_t *)
  gc_running : Z                 (* atomic_t *)
}.

(** [struct nvm_pool]; the three list heads hold block pointers.  A block
    has one [list] node, which is on [free_list] or on [used_list], and one
    [prio] node. *)
Record nvm_pool := mk_pool {
  pool_id : Z;
  free_list : list nat;
  used_list : list nat;
  prio_list : list nat;
  nr_free_blocks : Z;            (* unsigned int *)
  waiting_bios : list nat;       (* struct bio_list *)
  is_active : Z;                 (* atomic_t *)
  cur_bio : option nat
}.

(** [struct nvm_ap] *)
Record nvm_ap := mk_ap {
  ap_pool : nat;
  ap_cur : option nat;
  ap_gc_cur : option nat;
  t_read : Z;
  t_write : Z;
  io_accesses : Z * Z            (* indexed by bio_data_dir: READ, WRITE *)
}.

(** ** Requests (linux/bio.h) and their wrapper *)

(** What a [void *] of a bio can hold. *)
Inductive void_ptr (T : Type) :=
| PtrNull
| PtrCookie (c : Z)
| PtrObj (o : T).
Arguments PtrNull {T}.
Arguments PtrCookie {T} c.
Arguments PtrObj {T} o.

(** The functions a [bi_end_io] pointer can name. *)
Inductive end_io_fn :=
| EndIoUpstream (f : Z)
| EndIoNvmRead                   (* nvm_end_read_bio *)
| EndIoNvmWrite.                 (* nvm_end_write_bio *)

(** [struct per_bio_data] *)
#[warnings="-register-all"]
Inductive per_bio_data := mk_pbd {
  pb_bi_end_io : option end_io_fn;
  pb_bi_private : void_ptr per_bio_data;
  pb_start_tv : Z;               (* struct timespec, in ns *)
  pb_ap : option nat;
  pb_addr : option nvm_addr;
  pb_l_addr : Z;
  pb_event : option Z;           (* struct completion * *)
  pb_orig_bio : option nat;
  pb_trans_map : option nat
}.

(** A [struct bio_vec] either carries a page of the upstream request or
    points into the staging buffer of a block. *)
Inductive bio_vec :=
| BvPage (bytes : page)
| BvBlockData (blk : nat) (idx : Z).

(** [struct bio] *)
Record bio := mk_bio {
  bi_sector : Z;
  bi_rw : Z;
  bi_bdev : option Z;
  bi_end_io : option end_io_fn;
  bi_private : void_ptr per_bio_data;
  bi_io_vec : list bio_vec
}.

(** ** The kernel log and the ways a call can abort *)

Inductive warn_site :=
| WarnInvalidTwice               (* invalidate_block_page *)
| WarnCurNotFull                 (* nvm_set_ap_cur *)
| WarnGcNoBlock                  (* nvm_alloc_addr_from_ap *)
| WarnLongWait.                  (* nvm_endio *)

Inductive event :=
| EvWarn (w : warn_site)
| EvDmerr
| EvShowPool (pool : nat)
| EvShowAllPools
| EvGcKick
| EvBioEndio (b : nat) (err : Z)
| EvCallEndIo (f : end_io_fn) (b : nat) (err : Z)
| EvSubmitBio (rw : Z) (b : nat)
| EvQueueWork (pool : nat)
| EvComplete (c : Z)
| EvUdelay (us : Z)
| EvBioPut (b : nat).

Inductive bug_site :=
| BugLaddr | BugPaddr            (* nvm_update_map *)
| BugNoBlock                     (* nvm_reset_block, __nvm_alloc_phys_addr,
                                    nvm_set_ap_cur *)
| BugNoPool                      (* nvm_pool_get_block *)
| BugNoData                      (* nvm_pool_get_block *)
| BugNoAp                        (* nvm_set_ap_cur *)
| BugLookup                      (* nvm_lookup_ltop_map *)
| BugGcWrite.                    (* nvm_write_bio *)

Inductive fault :=
| BugOn (b : bug_site)
| NullDeref                      (* a null or dangling pointer is followed *)
| BadIndex                       (* an array is indexed outside its bounds *)
| DivideError                    (* division by zero *)
| Blocked.                       (* the call waits for ever *)

(** ** The device state, [struct nvmd] *)

Record nvmd := mk_nvmd {
  nr_pages : Z;
  nr_host_pages_in_blk : Z;
  nr_aps : Z;
  config_flags : Z;
  next_write_ap : Z;             (* atomic_t, the round-robin cursor *)
  blocks : list nvm_block;
  pools : list nvm_pool;
  aps : list nvm_ap;
  (* the translation maps: [maps !! 0] is [nvmd->trans_map], the others are
     the shadow maps handed in by their owners *)
  maps : list (list nvm_addr);
  rev_trans_map : list nvm_rev_addr;
  bios : list bio;               (* every live request *)
  deferred_bios : list nat;
  (* mempools: how many elements are left, and for [per_bio_pool] the stale
     contents of each *)
  addr_pool : nat;
  block_page_pool : nat;
  per_bio_pool : list per_bio_data;
  (* logical addresses whose lock is held *)
  locked_addrs : list Z;
  (* what the next calls of getnstimeofday will read, in ns *)
  clock : list Z;
  klog : list event              (* newest first *)
}.

Definition trans_map : nat := 0%nat.

(** Field updates, written [set_f v s] for the assignment [s->f = v]. *)

Definition set_next_write_ap (v : Z) (s : nvmd) : nvmd :=
  mk_nvmd (nr_pages s) (nr_host_pages_in_blk s) (nr_aps s) (config_flags s)
    v (blocks s) (pools s) (aps s) (maps s) (rev_trans_map s) (bios s)
    (deferred_bios s) (addr_pool s) (block_page_pool s) (per_bio_pool s)
    (locked_addrs s) (clock s) (klog s).

Definition set_blocks (v : list nvm_block) (s : nvmd) : nvmd :=
  mk_nvmd (nr_pages s) (nr_host_pages_in_blk s) (nr_aps s) (config_flags s)
    (next_write_ap s) v (pools s) (aps s) (maps s) (rev_trans_map s) (bios
    s) (deferred_bios s) (addr_pool s) (block_page_pool s) (per_bio_pool s)
    (locked_addrs s) (clock s) (klog s).

Definition set_pools (v : list nvm_pool) (s : nvmd) : nvmd :=
  mk_nvmd (nr_pages s) (nr_host_pages_in_blk s) (nr_aps s) (config_flags s)
    (next_write_ap s) (blocks s) v (aps s) (maps s) (rev_trans_map s) (bios
    s) (deferred_bios s) (addr_pool s) (block_page_pool s) (per_bio_pool s)
    (locked_addrs s) (clock s) (klog s).

Definition set_aps (v : list nvm_ap) (s : nvmd) : nvmd :=
  mk_nvmd (nr_pages s) (nr_host_pages_in_blk s) (nr_aps s) (config_flags s)
    (next_write_ap s) (blocks s) (pools s) v (maps s) (rev_trans_map s)
    (bios s) (deferred_bios s) (addr_pool s) (block_page_pool s)
    (per_bio_pool s) (locked_addrs s) (clock s) (klog s).

Definition set_maps (v : list (list nvm_addr)) (s : nvmd) : nvmd :=
  mk_nvmd (nr_pages s) (nr_host_pages_in_blk s) (nr_aps s) (config_flags s)
    (next_write_ap s) (blocks s) (pools s) (aps s) v (rev_trans_map s) (bios
    s) (deferred_bios s) (addr_pool s) (block_page_pool s) (per_bio_pool s)
    (locked_addrs s) (clock s) (klog s).

Definition set_rev_trans_map (v : list nvm_rev_addr) (s : nvmd) : nvmd :=
  mk_nvmd (nr_pages s) (nr_host_pages_in_blk s) (nr_aps s) (config_flags s)
    (next_write_ap s) (blocks s) (pools s) (aps s) (maps s) v (bios s)
    (deferred_bios s) (addr_pool s) (block_page_pool s) (per_bio_pool s)
    (locked_addrs s) (clock s) (klog s).

Definition set_bios (v : list bio) (s : nvmd) : nvmd :=
  mk_nvmd (nr_pages s) (nr_host_pages_in_blk s) (nr_aps s) (config_flags s)
    (next_write_ap s) (blocks s) (pools s) (aps s) (maps s) (rev_trans_map
    s) v (deferred_bios s) (addr_pool s) (block_page_pool s) (per_bio_pool
    s) (locked_addrs s) (clock s) (klog s).

Definition set_deferred_bios (v : list nat) (s : nvmd) : nvmd :=
  mk_nvmd (nr_pages s) (nr_host_pages_in_blk s) (nr_aps s) (config_flags s)
    (next_write_ap s) (blocks s) (pools s) (aps s) (maps s) (rev_trans_map
    s) (bios s) v (addr_pool s) (block_page_pool s) (per_bio_pool s)
    (locked_addrs s) (clock s) (klog s).

Definition set_addr_pool (v : nat) (s : nvmd) : nvmd :=
  mk_nvmd (nr_pages s) (nr_host_pages_in_blk s) (nr_aps s) (config_flags s)
    (next_write_ap s) (blocks s) (pools s) (aps s) (maps s) (rev_trans_map
    s) (bios s) (deferred_bios s) v (block_page_pool s) (per_bio_pool s)
    (locked_addrs s) (clock s) (klog s).

Definition set_block_page_pool (v : nat) (s : nvmd) : nvmd :=
  mk_nvmd (nr_pages s) (nr_host_pages_in_blk s) (nr_aps s) (config_flags s)
    (next_write_ap s) (blocks s) (pools s) (aps s) (maps s) (rev_trans_map
    s) (bios s) (deferred_bios s) (addr_pool s) v (per_bio_pool s)
    (locked_addrs s) (clock s) (klog s).

Definition set_per_bio_pool (v : list per_bio_data) (s : nvmd) : nvmd :=
  mk_nvmd (nr_pages s) (nr_host_pages_in_blk s) (nr_aps s) (config_flags s)
    (next_write_ap s) (blocks s) (pools s) (aps s) (maps s) (rev_trans_map
    s) (bios s) (deferred_bios s) (addr_pool s) (block_page_pool s) v
    (locked_addrs s) (clock s) (klog s).

Definition set_locked_addrs (v : list Z) (s : nvmd) : nvmd :=
  mk_nvmd (nr_pages s) (nr_host_pages_in_blk s) (nr_aps s) (config_flags s)
    (next_write_ap s) (blocks s) (pools s) (aps s) (maps s) (rev_trans_map
    s) (bios s) (deferred_bios s) (addr_pool s) (block_page_pool s)
    (per_bio_pool s) v (clock s) (klog s).

Definition set_clock (v : list Z) (s : nvmd) : nvmd :=
  mk_nvmd (nr_pages s) (nr_host_pages_in_blk s) (nr_aps s) (config_flags s)
    (next_write_ap s) (blocks s) (pools s) (aps s) (maps s) (rev_trans_map
    s) (bios s) (deferred_bios s) (addr_pool s) (block_page_pool s)
    (per_bio_pool s) (locked_addrs s) v (klog s).

Definition set_klog (v : list event) (s : nvmd) : nvmd :=
  mk_nvmd (nr_pages s) (nr_host_pages_in_blk s) (nr_aps s) (config_flags s)
    (next_write_ap s) (blocks s) (pools s) (aps s) (maps s) (rev_trans_map
    s) (bios s) (deferred_bios s) (addr_pool s) (block_page_pool s)
    (per_bio_pool s) (locked_addrs s) (clock s) v.

(** ** The monad of kernel code: state, and an abort on a fault *)

Inductive result (A : Type) :=
| Ok (a : A) (s : nvmd)
| Oops (f : fault).
Arguments Ok {A} a s.
Arguments Oops {A} f.

Definition M (A : Type) : Type := nvmd -> result A.

Definition ret {A} (a : A) : M A := fun s => Ok a s.
Definition bind {A B} (m : M A) (k : A -> M B) : M B :=
  fun s => match m s with Ok a s' => k a s' | Oops f => Oops f end.
Definition oops {A} (f : fault) : M A := fun _ => Oops f.
Definition get : M nvmd := fun s => Ok s s.
Definition modify (f : nvmd -> nvmd) : M unit := fun s => Ok tt (f s).

Declare Scope kern_scope.
Delimit Scope kern_scope with kern.
Notation "x <- m ;; k" := (bind m (fun x => k))
  (at level 100, m at next level, right associativity) : kern_scope.
Notation "m ;;; k" := (bind m (fun _ => k))
  (at level 100, right associativity) : kern_scope.
Local Open Scope kern_scope.

Definition printk (e : event) : M unit :=
  modify (fun s => set_klog (e :: klog s) s).

(** [BUG_ON(c)] and [WARN_ON(c)] *)
Definition BUG_ON (c : bool) (site : bug_site) : M unit :=
  if c then oops (BugOn site) else ret tt.
Definition WARN_ON (c : bool) (site : warn_site) : M unit :=
  if c then printk (EvWarn site) else ret tt.

(** [a[i]] for an index of a C integer type. *)
Definition nthZ {A} (l : list A) (i : Z) : option A :=
  if i <? 0 then None else l !! Z.to_nat i.

(** Following a pointer: [deref f p] reads the object [p] points to in the
    array [f] of the state. *)
Definition deref {A} (f : nvmd -> list A) (p : option nat) : M A :=
  fun s => match p with
           | None => Oops NullDeref
           | Some i => match f s !! i with
                       | Some x => Ok x s
                       | None => Oops NullDeref
                       end
           end.

Definition store_block (i : nat) (b : nvm_block) : M unit :=
  modify (fun s => set_blocks (<[i := b]> (blocks s)) s).
Definition store_pool (i : nat) (p : nvm_pool) : M unit :=
  modify (fun s => set_pools (<[i := p]> (pools s)) s).
Definition store_ap (i : nat) (a : nvm_ap) : M unit :=
  modify (fun s => set_aps (<[i := a]> (aps s)) s).
Definition store_bio (i : nat) (b : bio) : M unit :=
  modify (fun s => set_bios (<[i := b]> (bios s)) s).

(** Field updates of blocks, pools and append points. *)

Definition set_blk_ap (v : option nat) (b : nvm_block) : nvm_block :=
  mk_block (blk_id b) (blk_pool b) v (next_page b) (next_offset b)
    (nr_invalid_pages b) (invalid_pages b) (data b) (data_size b)
    (data_cmnt_size b) (gc_running b).

Definition set_cursor (pg off : Z) (b : nvm_block) : nvm_block :=
  mk_block (blk_id b) (blk_pool b) (blk_ap b) pg off
    (nr_invalid_pages b) (invalid_pages b) (data b) (data_size b)
    (data_cmnt_size b) (gc_running b).

Definition set_invalid (nr bm : Z) (b : nvm_block) : nvm_block :=
  mk_block (blk_id b) (blk_pool b) (blk_ap b) (next_page b) (next_offset b)
    nr bm (data b) (data_size b) (data_cmnt_size b) (gc_running b).

Definition set_data (v : option (list page)) (b : nvm_block) : nvm_block :=
  mk_block (blk_id b) (blk_pool b) (blk_ap b) (next_page b) (next_offset b)
    (nr_invalid_pages b) (invalid_pages b) v (data_size b)
    (data_cmnt_size b) (gc_running b).

Definition set_data_size (v : Z) (b : nvm_block) : nvm_block :=
  mk_block (blk_id b) (blk_pool b) (blk_ap b) (next_page b) (next_offset b)
    (nr_invalid_pages b) (invalid_pages b) (data b) v
    (data_cmnt_size b) (gc_running b).

Definition set_data_cmnt_size (v : Z) (b : nvm_block) : nvm_block :=
  mk_block (blk_id b) (blk_pool b) (blk_ap b) (next_page b) (next_offset b)
    (nr_invalid_pages b) (invalid_pages b) (data b) (data_size b)
    v (gc_running b).

Definition set_lists (fl ul : list nat) (nr : Z) (p : nvm_pool) : nvm_pool :=
  mk_pool (pool_id p) fl ul (prio_list p) nr (waiting_bios p) (is_active p)
    (cur_bio p).

Definition set_prio_list (v : list nat) (p : nvm_pool) : nvm_pool :=
  mk_pool (pool_id p) (free_list p) (used_list p) v (nr_free_blocks p)
    (waiting_bios p) (is_active p) (cur_bio p).

Definition set_waiting (w : list nat) (act : Z) (cur : option nat)
    (p : nvm_pool) : nvm_pool :=
  mk_pool (pool_id p) (free_list p) (used_list p) (prio_list p)
    (nr_free_blocks p) w act cur.

Definition set_ap_cur (v : option nat) (a : nvm_ap) : nvm_ap :=
  mk_ap (ap_pool a) v (ap_gc_cur a) (t_read a) (t_write a) (io_accesses a).

Definition set_ap_gc_cur (v : option nat) (a : nvm_ap) : nvm_ap :=
  mk_ap (ap_pool a) (ap_cur a) v (t_read a) (t_write a) (io_accesses a).

Definition set_io_accesses (v : Z * Z) (a : nvm_ap) : nvm_ap :=
  mk_ap (ap_pool a) (ap_cur a) (ap_gc_cur a) (t_read a) (t_write a) v.

(** ** What core.c takes from lightnvm.h

    The header itself is not embedded.  Its constants, and the inline
    helpers of which only the result matters to core.c, are parameters of
    the development. *)
Record lightnvm_h := mk_h {
  LTOP_EMPTY : Z;
  LTOP_POISON : Z;
  NR_HOST_PAGES_IN_FLASH_PAGE : Z;
  NR_PHY_IN_LOG : Z;
  NVM_OPT_NO_WAITS : Z;
  NVM_OPT_POOL_SERIALIZE : Z;
  NVM_WRITE_SUCCESS : Z;
  NVM_WRITE_DEFERRED : Z;
  DM_MAPIO_SUBMITTED : Z;
  REQ_SYNC : Z;
  (* static inline helpers; the first two read the block and, through its
     pool, nr_host_pages_in_blk of the device *)
  block_is_full : Z -> nvm_block -> bool;
  block_to_addr : Z -> nvm_block -> Z;
  block_to_ap : nvmd -> nvm_block -> nat;
  get_next_ap : M nat
}.

(** Modelled from the spec: [nvm_lock_addr] and [nvm_unlock_addr], the
    per-logical-address lock of lightnvm.h.  Taking a lock that is held
    waits for its release, which never comes while one call runs alone. *)
Definition nvm_lock_addr (l_addr : Z) : M unit :=
  s <- get ;;
  if existsb (Z.eqb l_addr) (locked_addrs s) then oops Blocked
  else modify (set_locked_addrs (l_addr :: locked_addrs s)).

Definition nvm_unlock_addr (l_addr : Z) : M unit :=
  modify (fun s =>
    set_locked_addrs
      (List.filter (fun a => negb (a =? l_addr)) (locked_addrs s)) s).

(** Modelled from the spec: [nvm_gc_kick], the signal to the garbage
    collector, and the diagnostic dumps [show_pool] and [show_all_pools]. *)
Definition nvm_gc_kick : M unit := printk EvGcKick.
Definition show_pool (pool : nat) : M unit := printk (EvShowPool pool).
Definition show_all_pools : M unit := printk EvShowAllPools.

(** Kernel constants (linux/fs.h). *)
Definition READ : Z := 0.
Definition WRITE : Z := 1.
Definition bio_data_dir (b : bio) : Z := Z.land (bi_rw b) 1.

(** [mempool_alloc] on each of the three pools.  The address pool and the
    pool of staging buffers are asked with [GFP_ATOMIC]: when exhausted they
    give the null pointer, [false] or [None]. *)
Definition mempool_alloc_addr : M bool :=
  s <- get ;;
  match addr_pool s with
  | O => ret false
  | S n => modify (set_addr_pool n) ;;; ret true
  end.
Definition mempool_free_addr : M unit :=
  modify (fun s => set_addr_pool (S (addr_pool s)) s).

Definition mempool_alloc_block_pages : M (option (list page)) :=
  s <- get ;;
  match block_page_pool s with
  | O => ret None
  | S n =>
      modify (set_block_page_pool n) ;;;
      ret (Some (replicate (Z.to_nat (nr_host_pages_in_blk s)) []))
  end.
Definition mempool_free_block_pages : M unit :=
  modify (fun s => set_block_page_pool (S (block_page_pool s)) s).

(** The pool of wrappers is asked with [GFP_NOIO]: the call sleeps until an
    element is given back and never gives the null pointer, so on an empty
    pool it waits. *)
Definition mempool_alloc_pbd : M (option per_bio_data) :=
  s <- get ;;
  match per_bio_pool s with
  | [] => oops Blocked
  | pb :: rest => modify (set_per_bio_pool rest) ;;; ret (Some pb)
  end.
Definition mempool_free_pbd (pb : per_bio_data) : M unit :=
  modify (fun s => set_per_bio_pool (pb :: per_bio_pool s) s).

(** ** The functions of core.c *)

Section Core.

Context (h : lightnvm_h).

(** The members of [nvmd->type], the strategy table, that core.c calls. *)
Variable type_alloc_phys_addr : option (nat -> M unit).
Variable type_lookup_ltop : Z -> M (option nvm_addr).
Variable type_map_ltop : Z -> Z -> nat -> option Z -> M (option nvm_addr).
Variable type_defer_bio : nat -> option nat -> M unit.
Variable type_bio_wait_add : list nat -> nat -> option Z -> list nat.
Variable type_endio : option (nat -> per_bio_data -> Z -> M Z).

(** [invalidate_block_page] *)
Definition invalidate_block_page (p : nvm_addr) : M unit :=
  s <- get ;;
  (if nr_host_pages_in_blk s =? 0 then oops DivideError else ret tt) ;;;
  let page_offset := u32 (addr p mod nr_host_pages_in_blk s) in
  blk <- deref blocks (block p) ;;
  let '(was_set, bm) := test_and_set_bit page_offset (invalid_pages blk) in
  WARN_ON was_set WarnInvalidTwice ;;;
  match block p with
  | Some b =>
      store_block b (set_invalid (u32 (nr_invalid_pages blk + 1)) bm blk)
  | None => oops NullDeref
  end.

(** [nvm_update_map] *)
Definition nvm_update_map (l_addr : Z) (p : nvm_addr) (is_gc : Z)
    (tm : nat) : M unit :=
  s <- get ;;
  BUG_ON (nr_pages s <=? l_addr) BugLaddr ;;;
  BUG_ON (nr_pages s <=? addr p) BugPaddr ;;;
  map <- deref maps (Some tm) ;;
  match nthZ map l_addr with
  | None => oops BadIndex
  | Some gp =>
      (match block gp with
       | Some _ =>
           invalidate_block_page gp ;;;
           s1 <- get ;;
           match nthZ (rev_trans_map s1) (addr gp) with
           | None => oops BadIndex
           | Some r =>
               modify (set_rev_trans_map
                         (<[Z.to_nat (addr gp) :=
                              mk_rev (LTOP_POISON h) (rv_trans_map r)]>
                            (rev_trans_map s1)))
           end
       | None => ret tt
       end) ;;;
      s2 <- get ;;
      map2 <- deref maps (Some tm) ;;
      modify (set_maps
                (<[tm := <[Z.to_nat l_addr :=
                             mk_addr (addr p) (block p) (private gp)]> map2]>
                   (maps s2))) ;;;
      s3 <- get ;;
      match nthZ (rev_trans_map s3) (addr p) with
      | None => oops BadIndex
      | Some _ =>
          modify (set_rev_trans_map
                    (<[Z.to_nat (addr p) := mk_rev l_addr (Some tm)]>
                       (rev_trans_map s3)))
      end
  end.

(** [nvm_reset_block]; the pool of the block is followed before the
    assertion on the block is reached. *)
Definition nvm_reset_block (block : option nat) : M unit :=
  blk <- deref blocks block ;;
  _ <- deref pools (Some (blk_pool blk)) ;;
  s <- get ;;
  BUG_ON (negb (bool_decide (is_Some block))) BugNoBlock ;;;
  match block with
  | Some b =>
      store_block b
        (mk_block (blk_id blk) (blk_pool blk) None 0 0 0
           (bitmap_zero (invalid_pages blk) (nr_host_pages_in_blk s))
           (data blk) 0 0 0)
  | None => oops NullDeref
  end.

(** [nvm_pool_get_block].  The block taken is the head of [free_list], so
    [list_move_tail] unlinks it there and leaves the tail. *)
Definition nvm_pool_get_block (pool : option nat) (is_gc : Z)
    : M (option nat) :=
  pl <- deref pools pool ;;
  s <- get ;;
  BUG_ON (negb (bool_decide (is_Some pool))) BugNoPool ;;;
  match pool, free_list pl with
  | None, _ => oops NullDeref
  | Some pi, [] =>
      printk EvDmerr ;;; show_pool pi ;;; ret None
  | Some pi, block :: rest =>
      if (is_gc =? 0) && (nr_free_blocks pl <? nr_aps s) then ret None
      else
        store_pool pi
          (set_lists rest (used_list pl ++ [block])
             (u32 (nr_free_blocks pl - 1)) pl) ;;;
        nvm_reset_block (Some block) ;;;
        d <- mempool_alloc_block_pages ;;
        blk <- deref blocks (Some block) ;;
        store_block block (set_data d blk) ;;;
        BUG_ON (negb (bool_decide (is_Some d))) BugNoData ;;;
        ret (Some block)
  end.

(** [list_del] on the [list] node of a block: the node leaves the list it
    is on, whichever that is. *)
Definition list_del (block : nat) (l : list nat) : list nat :=
  List.filter (fun x => negb (Nat.eqb x block)) l.

(** [nvm_pool_put_block] *)
Definition nvm_pool_put_block (block : option nat) : M unit :=
  blk <- deref blocks block ;;
  match block with
  | None => oops NullDeref
  | Some b =>
      modify (fun s =>
        set_pools
          (map (fun p => set_lists (list_del b (free_list p))
                           (list_del b (used_list p)) (nr_free_blocks p) p)
               (pools s)) s) ;;;
      pl <- deref pools (Some (blk_pool blk)) ;;
      store_pool (blk_pool blk)
        (set_lists (free_list pl ++ [b]) (used_list pl)
           (u32 (nr_free_blocks pl + 1)) pl)
  end.

(** [__nvm_alloc_phys_addr]; [ps] is the optional [nvm_page_special_fn]. *)
Definition __nvm_alloc_phys_addr (block : option nat)
    (ps : option (nvmd -> Z -> bool)) : M Z :=
  BUG_ON (negb (bool_decide (is_Some block))) BugNoBlock ;;;
  blk <- deref blocks block ;;
  _ <- deref pools (Some (blk_pool blk)) ;;
  s <- get ;;
  if block_is_full h (nr_host_pages_in_blk s) blk then ret (LTOP_EMPTY h)
  else
    let refused :=
      (next_offset blk =? NR_HOST_PAGES_IN_FLASH_PAGE h) &&
      match ps with
      | Some f => negb (f s (u32 (next_page blk + 1)))
      | None => false
      end in
    if refused then ret (LTOP_EMPTY h)
    else
      let '(pg, off) :=
        if next_offset blk =? NR_HOST_PAGES_IN_FLASH_PAGE h
        then (u32 (next_page blk + 1), 0)
        else (next_page blk, next_offset blk) in
      let a := u64 (block_to_addr h (nr_host_pages_in_blk s) blk
                    + u32 (pg * NR_HOST_PAGES_IN_FLASH_PAGE h) + off) in
      match block with
      | None => oops NullDeref
      | Some b =>
          store_block b (set_cursor pg (u32 (off + 1)) blk) ;;;
          match type_alloc_phys_addr with
          | Some hook => hook b
          | None => ret tt
          end ;;;
          ret a
      end.

Definition nvm_alloc_phys_addr_special (block : option nat)
    (ps : option (nvmd -> Z -> bool)) : M Z :=
  __nvm_alloc_phys_addr block ps.

Definition nvm_alloc_phys_addr (block : option nat) : M Z :=
  __nvm_alloc_phys_addr block None.

(** [nvm_set_ap_cur] *)
Definition nvm_set_ap_cur (ap : option nat) (block : option nat) : M unit :=
  BUG_ON (negb (bool_decide (is_Some ap))) BugNoAp ;;;
  BUG_ON (negb (bool_decide (is_Some block))) BugNoBlock ;;;
  a <- deref aps ap ;;
  match ap, block with
  | Some ai, Some bi =>
      match ap_cur a with
      | Some c =>
          cb <- deref blocks (Some c) ;;
          s <- get ;;
          WARN_ON (negb (block_is_full h (nr_host_pages_in_blk s) cb))
            WarnCurNotFull ;;;
          store_block c (set_blk_ap None cb)
      | None => ret tt
      end ;;;
      store_ap ai (set_ap_cur block a) ;;;
      nb <- deref blocks block ;;
      store_block bi (set_blk_ap ap nb)
  | _, _ => oops NullDeref
  end.

(** The GC branch of [nvm_alloc_addr_from_ap]: the address and the block
    with which control reaches [finished]. *)
Definition alloc_addr_gc (ap : option nat) (ai : nat) (pool : option nat)
    : M (Z * option nat) :=
  a1 <- deref aps ap ;;
  p_addr <- nvm_alloc_phys_addr (ap_gc_cur a1) ;;
  if p_addr =? LTOP_EMPTY h then
    p_block <- nvm_pool_get_block pool 1 ;;
    a2 <- deref aps ap ;;
    store_ap ai (set_ap_gc_cur p_block a2) ;;;
    (* ap->gc_cur->ap = ap *)
    gb <- deref blocks p_block ;;
    match p_block with
    | None =>
        show_all_pools ;;; printk EvDmerr ;;; ret (p_addr, None)
    | Some gi =>
        store_block gi (set_blk_ap ap gb) ;;;
        p_addr' <- nvm_alloc_phys_addr p_block ;;
        ret (p_addr', p_block)
    end
  else ret (p_addr, ap_gc_cur a1).

(** [nvm_alloc_addr_from_ap] *)
Definition nvm_alloc_addr_from_ap (ap : option nat) (is_gc : Z)
    : M (option nvm_addr) :=
  a <- deref aps ap ;;
  match ap with
  | None => oops NullDeref
  | Some ai =>
      got <- mempool_alloc_addr ;;
      if negb got then ret None
      else
        let p_block := ap_cur a in
        cb <- deref blocks p_block ;;
        let pool := Some (blk_pool cb) in
        p_addr <- nvm_alloc_phys_addr p_block ;;
        r <- (if p_addr =? LTOP_EMPTY h then
                nb <- nvm_pool_get_block pool 0 ;;
                match nb with
                | None =>
                    if negb (is_gc =? 0) then alloc_addr_gc ap ai pool
                    else ret (p_addr, None)
                | Some _ =>
                    nvm_set_ap_cur ap nb ;;;
                    p_addr' <- nvm_alloc_phys_addr nb ;;
                    ret (p_addr', nb)
                end
              else ret (p_addr, p_block)) ;;
        let '(p_addr, p_block) := r in
        (* finished: *)
        if p_addr =? LTOP_EMPTY h then mempool_free_addr ;;; ret None
        else
          (match p_block with
           | None => WARN_ON (negb (is_gc =? 0)) WarnGcNoBlock
           | Some _ => ret tt
           end) ;;;
          ret (Some (mk_addr p_addr p_block None))
  end.

(** [nvm_lookup_ltop_map] and [nvm_lookup_ltop] *)
Definition nvm_lookup_ltop_map (l_addr : Z) (tm : nat) (priv : option Z)
    : M (option nvm_addr) :=
  s <- get ;;
  BUG_ON (negb ((0 <=? l_addr) && (l_addr <? nr_pages s))) BugLookup ;;;
  got <- mempool_alloc_addr ;;
  if negb got then ret None
  else
    map <- deref maps (Some tm) ;;
    match nthZ map l_addr with
    | None => oops BadIndex
    | Some gp =>
        running <- match block gp with
                   | Some _ =>
                       blk <- deref blocks (block gp) ;;
                       ret (negb (gc_running blk =? 0))
                   | None => ret false
                   end ;;
        if running : bool then mempool_free_addr ;;; ret None
        else ret (Some (mk_addr (addr gp) (block gp) priv))
    end.

Definition nvm_lookup_ltop (l_addr : Z) : M (option nvm_addr) :=
  nvm_lookup_ltop_map l_addr trans_map None.

(** The survey of [nvm_map_ltop_rr] for a GC write: the first pool among
    those with the most free blocks. *)
Definition max_free_pool (ps : list nvm_pool) : option nvm_pool :=
  match ps with
  | [] => None
  | p0 :: _ =>
      Some (fold_left
              (fun m p =>
                 if nr_free_blocks p >? nr_free_blocks m then p else m)
              ps p0)
  end.

(** [nvm_map_ltop_rr] *)
Definition nvm_map_ltop_rr (l_addr : Z) (is_gc : Z) (tm : nat)
    (priv : option Z) : M (option nvm_addr) :=
  ap <- (if is_gc =? 0 then get_next_ap h
         else
           s <- get ;;
           match max_free_pool (pools s) with
           | None => oops NullDeref
           | Some mf =>
               if pool_id mf <? 0 then oops BadIndex
               else ret (Z.to_nat (pool_id mf))
           end) ;;
  p <- nvm_alloc_addr_from_ap (Some ap) is_gc ;;
  match p with
  | Some pa => nvm_update_map l_addr pa is_gc tm
  | None => ret tt
  end ;;;
  ret p.

(** *** Requests *)

Definition set_bi_private (v : void_ptr per_bio_data) (b : bio) : bio :=
  mk_bio (bi_sector b) (bi_rw b) (bi_bdev b) (bi_end_io b) v (bi_io_vec b).
Definition set_bi_sector (v : Z) (b : bio) : bio :=
  mk_bio v (bi_rw b) (bi_bdev b) (bi_end_io b) (bi_private b) (bi_io_vec b).
Definition set_bi_io_vec (v : list bio_vec) (b : bio) : bio :=
  mk_bio (bi_sector b) (bi_rw b) (bi_bdev b) (bi_end_io b) (bi_private b) v.

(** [alloc_init_pbd]: the wrapper keeps what its memory held, but for the
    two fields saved from the bio. *)
Definition alloc_init_pbd (bio : nat) : M (option per_bio_data) :=
  pbo <- mempool_alloc_pbd ;;
  match pbo with
  | None => printk EvDmerr ;;; ret None
  | Some pb =>
      b <- deref bios (Some bio) ;;
      let pb' := mk_pbd (bi_end_io b) (bi_private b) (pb_start_tv pb)
                   (pb_ap pb) (pb_addr pb) (pb_l_addr pb) (pb_event pb)
                   (pb_orig_bio pb) (pb_trans_map pb) in
      store_bio bio (set_bi_private (PtrObj pb') b) ;;;
      ret (Some pb')
  end.

Definition free_pbd (pb : per_bio_data) : M unit := mempool_free_pbd pb.

(** [exit_pbd] *)
Definition exit_pbd (pb : per_bio_data) (bio : nat) : M unit :=
  b <- deref bios (Some bio) ;;
  store_bio bio
    (mk_bio (bi_sector b) (bi_rw b) (bi_bdev b) (pb_bi_end_io pb)
       (pb_bi_private pb) (bi_io_vec b)).

(** [nvm_defer_bio] *)
Definition nvm_defer_bio (bio : nat) (priv : option nat) : M unit :=
  modify (fun s => set_deferred_bios (deferred_bios s ++ [bio]) s).

(** [submit_bio] of the block layer and [bio_endio]. *)
Definition submit_bio (rw : Z) (bio : nat) : M unit :=
  printk (EvSubmitBio rw bio).
Definition bio_endio (bio : nat) (err : Z) : M unit :=
  printk (EvBioEndio bio err).

(** [nvm_delayed_bio_submit], the worker of a serialized pool. *)
Definition nvm_delayed_bio_submit (pool : nat) : M unit :=
  pl <- deref pools (Some pool) ;;
  match waiting_bios pl with
  | [] =>
      store_pool pool (set_waiting [] (s32 (is_active pl - 1)) None pl)
  | bio :: rest =>
      store_pool pool (set_waiting rest (is_active pl) (Some bio) pl) ;;;
      b <- deref bios (Some bio) ;;
      match bi_private b with
      | PtrObj pb =>
          s <- get ;;
          match clock s with
          | [] => oops Blocked
          | now :: later =>
              modify (set_clock later) ;;;
              store_bio bio
                (set_bi_private
                   (PtrObj (mk_pbd (pb_bi_end_io pb) (pb_bi_private pb) now
                              (pb_ap pb) (pb_addr pb) (pb_l_addr pb)
                              (pb_event pb) (pb_orig_bio pb)
                              (pb_trans_map pb))) b) ;;;
              submit_bio (bi_rw b) bio
          end
      | _ => oops NullDeref
      end
  end.

(** [zero_fill_bio]: every page the request refers to is cleared, also
    when it is a page of a staging buffer. *)
Definition zero_page (pg : page) : page := map (fun _ => 0) pg.

Fixpoint zero_fill_vecs (vs : list bio_vec) : M (list bio_vec) :=
  match vs with
  | [] => ret []
  | BvPage bytes :: rest =>
      rest' <- zero_fill_vecs rest ;;
      ret (BvPage (zero_page bytes) :: rest')
  | BvBlockData bi idx :: rest =>
      blk <- deref blocks (Some bi) ;;
      match data blk with
      | None => oops NullDeref
      | Some d =>
          match nthZ d idx with
          | None => oops BadIndex
          | Some pg =>
              store_block bi
                (set_data (Some (<[Z.to_nat idx := zero_page pg]> d)) blk) ;;;
              rest' <- zero_fill_vecs rest ;;
              ret (BvBlockData bi idx :: rest')
          end
      end
  end.

Definition zero_fill_bio (bio : nat) : M unit :=
  b <- deref bios (Some bio) ;;
  vs <- zero_fill_vecs (bi_io_vec b) ;;
  b' <- deref bios (Some bio) ;;
  store_bio bio (set_bi_io_vec vs b').

(** [nvm_fill_bio_and_end] *)
Definition nvm_fill_bio_and_end (bio : nat) : M unit :=
  zero_fill_bio bio ;;; bio_endio bio 0.

(** The pacing loop of [nvm_endio], from [wait_longer] on: it reads the
    clock until [dev_wait] microseconds have passed since [start_tv]. *)
Fixpoint wait_longer (start_tv dev_wait : Z) (ticks : list Z) : M unit :=
  match ticks with
  | [] => oops Blocked
  | end_tv :: later =>
      modify (set_clock later) ;;;
      let diff := u64 (Z.quot (end_tv - start_tv) 1000) in
      if dev_wait >? diff then
        let total_wait := u64 (dev_wait - diff) in
        WARN_ON (total_wait >? 1500) WarnLongWait ;;;
        (if total_wait >? 10 then printk (EvUdelay 5) else ret tt) ;;;
        wait_longer start_tv dev_wait later
      else ret tt
  end.

(** [nvm_endio], in the three steps of its body.  First the accounting of
    a completed write, which also picks [dev_wait]. *)
Definition endio_account (b : bio) (block : option nat) (a : nvm_ap)
    : M Z :=
  let pool := ap_pool a in
  if bio_data_dir b =? WRITE then
    blk <- deref blocks block ;;
    s <- get ;;
    let cmnt := s32 (data_cmnt_size blk + 1) in
    let data_cnt := u32 cmnt in
    match block with
    | None => oops NullDeref
    | Some bi =>
        store_block bi (set_data_cmnt_size cmnt blk) ;;;
        (if data_cnt =? nr_host_pages_in_blk s then
           (match data blk with
            | Some _ => mempool_free_block_pages
            | None => ret tt
            end) ;;;
           store_block bi (set_data None (set_data_cmnt_size cmnt blk)) ;;;
           pl <- deref pools (Some pool) ;;
           store_pool pool (set_prio_list (prio_list pl ++ [bi]) pl)
         else ret tt) ;;;
        ret (t_write a)
    end
  else ret (t_read a).

(** Then the hook of the strategy table and the device wait. *)
Definition endio_pace (bio : nat) (pb : per_bio_data) (dev_wait : Z)
    : M unit :=
  dev_wait <- match type_endio with
              | Some hook => hook bio pb dev_wait
              | None => ret dev_wait
              end ;;
  s <- get ;;
  if (Z.land (config_flags s) (NVM_OPT_NO_WAITS h) =? 0)
     && negb (dev_wait =? 0)
  then wait_longer (pb_start_tv pb) dev_wait (clock s)
  else ret tt.

(** Last the hand-over to the next waiter of a serialized pool and the
    completion of the request. *)
Definition endio_finish (bi : nat) (b : bio) (pb : per_bio_data)
    (pool : nat) (err : Z) : M unit :=
  s <- get ;;
  (if negb (Z.land (config_flags s) (NVM_OPT_POOL_SERIALIZE h) =? 0)
   then
     pl <- deref pools (Some pool) ;;
     store_pool pool (set_waiting (waiting_bios pl) (is_active pl) None pl) ;;;
     printk (EvQueueWork pool)
   else ret tt) ;;;
  (* Finish up *)
  exit_pbd pb bi ;;;
  match pb_bi_end_io pb with
  | Some f => printk (EvCallEndIo f bi err)
  | None => ret tt
  end ;;;
  match pb_orig_bio pb with
  | Some ob => bio_endio ob err
  | None => ret tt
  end ;;;
  match pb_event pb with
  | Some ev =>
      printk (EvComplete ev) ;;;
      if bio_data_dir b =? READ then ret tt else mempool_free_addr
  | None => mempool_free_addr
  end ;;;
  free_pbd pb.

Definition nvm_endio (bio : nat) (err : Z) : M unit :=
  b <- deref bios (Some bio) ;;
  match bi_private b with
  | PtrObj pb =>
      match pb_addr pb with
      | None => oops NullDeref
      | Some p =>
          a <- deref aps (pb_ap pb) ;;
          nvm_unlock_addr (pb_l_addr pb) ;;;
          dev_wait <- endio_account b (block p) a ;;
          endio_pace bio pb dev_wait ;;;
          endio_finish bio b pb (ap_pool a) err
      end
  | _ => oops NullDeref
  end.

Definition nvm_end_read_bio (bio : nat) (err : Z) : M unit :=
  nvm_endio bio err.

Definition nvm_end_write_bio (bio : nat) (err : Z) : M unit :=
  nvm_endio bio err ;;; printk (EvBioPut bio).

(** [nvm_bio_wait_add], the default [bio_wait_add] of the strategy table. *)
Definition nvm_bio_wait_add (bl : list nat) (bio : nat) (p_private : option Z)
    : list nat :=
  bl ++ [bio].

(** [nvm_submit_bio] *)
Definition nvm_submit_bio (p : nvm_addr) (l_addr : Z) (rw : Z) (bio : nat)
    (orig_bio : option nat) (sync : option Z) (tm : nat) : M unit :=
  blk <- deref blocks (block p) ;;
  s <- get ;;
  let ap := block_to_ap h s blk in
  a <- deref aps (Some ap) ;;
  let pool := ap_pool a in
  pbo <- alloc_init_pbd bio ;;
  match pbo with
  | None => oops NullDeref
  | Some pb0 =>
      let pb := mk_pbd (pb_bi_end_io pb0) (pb_bi_private pb0)
                  (pb_start_tv pb0) (Some ap) (Some p) l_addr sync orig_bio
                  (Some tm) in
      b <- deref bios (Some bio) ;;
      let rw' := Z.lor (Z.lor (bi_rw b) rw)
                   (match sync with Some _ => REQ_SYNC h | None => 0 end) in
      let b' := mk_bio (bi_sector b) rw' (bi_bdev b)
                  (Some (if rw =? WRITE then EndIoNvmWrite else EndIoNvmRead))
                  (PtrObj pb) (bi_io_vec b) in
      store_bio bio b' ;;;
      store_ap ap
        (set_io_accesses
           (if bio_data_dir b' =? READ
            then (u64 (fst (io_accesses a) + 1), snd (io_accesses a))
            else (fst (io_accesses a), u64 (snd (io_accesses a) + 1))) a) ;;;
      s1 <- get ;;
      if negb (Z.land (config_flags s1) (NVM_OPT_POOL_SERIALIZE h) =? 0) then
        pl <- deref pools (Some pool) ;;
        let waiting := type_bio_wait_add (waiting_bios pl) bio (private p) in
        if negb (s32 (is_active pl + 1) =? 1) then
          store_pool pool (set_waiting waiting (is_active pl) (cur_bio pl) pl)
        else
          match waiting with
          | [] =>
              store_pool pool
                (set_waiting waiting (is_active pl) (cur_bio pl) pl)
          | _ :: _ =>
              store_pool pool
                (set_waiting waiting (s32 (is_active pl + 1)) (cur_bio pl)
                   pl) ;;;
              printk (EvQueueWork pool)
          end
      else submit_bio rw' bio
  end.

(** [nvm_read_bio] *)
Definition nvm_read_bio (bio : nat) : M Z :=
  b <- deref bios (Some bio) ;;
  (if NR_PHY_IN_LOG h =? 0 then oops DivideError else ret tt) ;;;
  let l_addr := bi_sector b / NR_PHY_IN_LOG h in
  nvm_lock_addr l_addr ;;;
  po <- type_lookup_ltop l_addr ;;
  match po with
  | None =>
      nvm_unlock_addr l_addr ;;;
      nvm_defer_bio bio None ;;;
      nvm_gc_kick ;;;
      ret (DM_MAPIO_SUBMITTED h)
  | Some p =>
      b1 <- deref bios (Some bio) ;;
      store_bio bio
        (set_bi_sector
           (u64 (addr p * NR_PHY_IN_LOG h + bi_sector b1 mod NR_PHY_IN_LOG h))
           b1) ;;;
      match block p with
      | None =>
          b2 <- deref bios (Some bio) ;;
          store_bio bio (set_bi_sector 0 b2) ;;;
          nvm_fill_bio_and_end bio ;;;
          mempool_free_addr ;;;
          nvm_unlock_addr l_addr ;;;
          ret (DM_MAPIO_SUBMITTED h)
      | Some _ =>
          nvm_submit_bio p l_addr READ bio None None trans_map ;;;
          ret (DM_MAPIO_SUBMITTED h)
      end
  end.

(** [nvm_bv_copy]: the page of the request goes to its slot of the staging
    buffer; the result is the new [data_size]. *)
Definition nvm_bv_copy (p : nvm_addr) (bv : option bio_vec) : M Z :=
  blk <- deref blocks (block p) ;;
  _ <- deref pools (Some (blk_pool blk)) ;;
  s <- get ;;
  (if nr_host_pages_in_blk s =? 0 then oops DivideError else ret tt) ;;;
  let idx := u32 (addr p mod nr_host_pages_in_blk s) in
  src <- match bv with
         | None => oops NullDeref
         | Some (BvPage bytes) => ret bytes
         | Some (BvBlockData bi i) =>
             sb <- deref blocks (Some bi) ;;
             match data sb with
             | None => oops NullDeref
             | Some d => match nthZ d i with
                         | Some pg => ret pg
                         | None => oops BadIndex
                         end
             end
         end ;;
  match block p, data blk with
  | Some bi, Some d =>
      match nthZ d idx with
      | None => oops BadIndex
      | Some dst =>
          let dst' := src ++ drop (length src) dst in
          let size := s32 (data_size blk + 1) in
          store_block bi
            (set_data_size size
               (set_data (Some (<[Z.to_nat idx := dst']> d)) blk)) ;;;
          ret size
      end
  | _, _ => oops NullDeref
  end.

(** [nvm_write_init_bio]; [bio_alloc] hands out a fresh request, and the
    pages attached to it are slots of the staging buffer. *)
Definition nvm_write_init_bio (bio : nat) (p : nvm_addr) : M nat :=
  s <- get ;;
  let issue_bio := length (bios s) in
  modify (set_bios
            (bios s ++ [mk_bio (u64 (addr p * NR_PHY_IN_LOG h)) 0 (Some 0)
                          None PtrNull []])) ;;;
  b <- deref bios (Some bio) ;;
  size <- nvm_bv_copy p (head (bi_io_vec b)) ;;
  match block p with
  | None => oops NullDeref
  | Some bi =>
      let vecs :=
        map (fun i =>
               BvBlockData bi
                 (u32 (size - NR_HOST_PAGES_IN_FLASH_PAGE h + Z.of_nat i)))
            (seq 0 (Z.to_nat (NR_HOST_PAGES_IN_FLASH_PAGE h))) in
      ib <- deref bios (Some issue_bio) ;;
      store_bio issue_bio (set_bi_io_vec vecs ib) ;;;
      ret issue_bio
  end.

(** [nvm_write_bio] *)
Definition nvm_write_bio (bio : nat) (is_gc : Z) (priv : option Z)
    (sync : option Z) (tm : nat) (complete_bio : Z) : M Z :=
  b <- deref bios (Some bio) ;;
  (if NR_PHY_IN_LOG h =? 0 then oops DivideError else ret tt) ;;;
  let l_addr := bi_sector b / NR_PHY_IN_LOG h in
  po <- type_map_ltop l_addr is_gc tm priv ;;
  match po with
  | None =>
      BUG_ON (negb (is_gc =? 0)) BugGcWrite ;;;
      nvm_unlock_addr l_addr ;;;
      type_defer_bio bio (Some tm) ;;;
      nvm_gc_kick ;;;
      ret (NVM_WRITE_DEFERRED h)
  | Some p =>
      issue_bio <- nvm_write_init_bio bio p ;;
      nvm_submit_bio p l_addr WRITE issue_bio
        (if negb (complete_bio =? 0) then Some bio else None) sync tm ;;;
      ret (NVM_WRITE_SUCCESS h)
  end.

(** [nvm_deferred_bio_submit]: the list is taken whole, then walked; the
    two entry points are those of the strategy table. *)
Variable type_write_bio : nat -> M Z.
Variable type_read_bio : nat -> M Z.

Fixpoint deferred_walk (l : list nat) : M unit :=
  match l with
  | [] => ret tt
  | bio :: next =>
      b <- deref bios (Some bio) ;;
      (if bio_data_dir b =? WRITE then type_write_bio bio
       else type_read_bio bio) ;;;
      deferred_walk next
  end.

Definition nvm_deferred_bio_submit : M unit :=
  s <- get ;;
  modify (set_deferred_bios []) ;;;
  deferred_walk (deferred_bios s).

End Core.

(** ** Conditions and invariants the statements use *)

(** The counter of a block agrees with its bitmap. *)
Definition invalid_pages_counted (s : nvmd) (blk : nvm_block) : Prop :=
  bitmap_weight (invalid_pages blk) (nr_host_pages_in_blk s)
  = nr_invalid_pages blk.

(** The write cursor stays within a flash page. *)
Definition cursor_in_flash_page (h : lightnvm_h) (blk : nvm_block) : Prop :=
  0 <= next_offset blk <= NR_HOST_PAGES_IN_FLASH_PAGE h.

(** Every pool counts its free list. *)
Definition pool_counted (pl : nvm_pool) : Prop :=
  Z.of_nat (length (free_list pl)) = nr_free_blocks pl.

Definition pools_counted (s : nvmd) : Prop := Forall pool_counted (pools s).

(** What is asked of an [alloc_phys_addr] hook: it returns, and it leaves
    the blocks as they are. *)
Definition hook_keeps_blocks (hook : option (nat -> M unit)) : Prop :=
  match hook with
  | None => True
  | Some f => forall b s, exists s', f b s = Ok tt s' /\ blocks s' = blocks s
  end.

(** What is asked of an [endio] hook of the strategy table: it settles the
    device wait and leaves the state alone. *)
Definition hook_sets_wait (hook : option (nat -> per_bio_data -> Z -> M Z))
    (bio : nat) (pb : per_bio_data) (d d' : Z) : Prop :=
  match hook with
  | None => d' = d
  | Some f => forall s, f bio pb d s = Ok d' s
  end.

(** The device wait [d] of a request ends: waits are off, or there is none
    to do, or the clock gets that far. *)
Definition paced (h : lightnvm_h) (s : nvmd) (pb : per_bio_data) (d : Z)
    : Prop :=
  Z.land (config_flags s) (NVM_OPT_NO_WAITS h) <> 0 \/ d = 0 \/
  Exists (fun t => d <= u64 (Z.quot (t - pb_start_tv pb) 1000)) (clock s).

(** Two states with the same blocks and the same GC candidates. *)
Definition same_blocks_prio (s s' : nvmd) : Prop :=
  blocks s' = blocks s /\
  prio_list <$> pools s' = prio_list <$> pools s /\
  config_flags s' = config_flags s.

(** What lies beside the translation maps, forward and reverse: every
    other field of the device. *)
Definition beside_maps (s : nvmd) :=
  (nr_pages s, nr_host_pages_in_blk s, nr_aps s, config_flags s,
   next_write_ap s, blocks s, pools s, aps s, bios s, deferred_bios s,
   addr_pool s, block_page_pool s, per_bio_pool s, locked_addrs s, clock s,
   klog s).

(** A request that carries pages of its own, as those of the upstream
    layers do; and such a page zero-filled. *)
Definition own_page (v : bio_vec) : Prop :=
  match v with
  | BvPage _ => True
  | BvBlockData _ _ => False
  end.

Definition zero_vec (v : bio_vec) : bio_vec :=
  match v with
  | BvPage bytes => BvPage (zero_page bytes)
  | BvBlockData b i => BvBlockData b i
  end.

(** ** An instance of the header *)

(** Modelled from the spec: [block_is_full], absent with lightnvm.h, is true
    when [next_page] has reached the page count of the block. *)
Definition block_is_full_of (per_flash_page : Z) (in_blk : Z) (b : nvm_block)
    : bool :=
  in_blk / per_flash_page <=? next_page b.

(** Modelled from the spec: [block_to_addr], absent with lightnvm.h; the
    addresses of a block fall within its range, taken here to start at the
    rank of the block times its size. *)
Definition block_to_addr_of (in_blk : Z) (b : nvm_block) : Z :=
  blk_id b * in_blk.

(** Modelled from the spec: [block_to_ap], absent with lightnvm.h; append
    points and pools go one to one, so the append point of a block is that
    of its pool. *)
Definition block_to_ap_of (s : nvmd) (b : nvm_block) : nat := blk_pool b.

(** Modelled from the spec: [get_next_ap], absent with lightnvm.h, steps a
    round-robin cursor over the append points. *)
Definition get_next_ap_of : M nat :=
  fun s =>
    if nr_aps s =? 0 then Oops DivideError
    else
      let n := s32 (next_write_ap s + 1) in
      Ok (Z.to_nat (u32 n mod nr_aps s)) (set_next_write_ap n s).

(** A header for a device whose flash page is one host page of eight
    sectors: [LTOP_EMPTY] is all ones, the option flags are bits 0 and 1,
    the two write results are 0 and 1. *)
Definition example_h : lightnvm_h :=
  mk_h (2 ^ 64 - 1) 3551376191 1 8 1 2 0 1 0 16
    (block_is_full_of 1) block_to_addr_of block_to_ap_of get_next_ap_of.

(** ** Example devices *)

(** A device of two pools of four blocks of eight host pages, waits off;
    append point 0 writes block 0 and keeps block 1 for the collector,
    append point 1 has blocks 4 and 5; nothing is written yet. *)
Definition fresh_block (id : Z) (pool : nat) : nvm_block :=
  mk_block id pool None 0 0 0 0 None 0 0 0.
Definition open_block (id : Z) (pool : nat) : nvm_block :=
  mk_block id pool (Some pool) 0 0 0 0 (Some (replicate 8 [])) 0 0 0.
Definition stale_pbd : per_bio_data :=
  mk_pbd None PtrNull 0 None None 0 None None None.

Definition example_dev : nvmd :=
  mk_nvmd 64 8 2 1 0
    [open_block 0 0; open_block 1 0; fresh_block 2 0; fresh_block 3 0;
     open_block 4 1; open_block 5 1; fresh_block 6 1; fresh_block 7 1]
    [mk_pool 0 [2; 3]%nat [0; 1]%nat [] 2 [] 0 None;
     mk_pool 1 [6; 7]%nat [4; 5]%nat [] 2 [] 0 None]
    [mk_ap 0 (Some 0%nat) (Some 1%nat) 25 500 (0, 0);
     mk_ap 1 (Some 4%nat) (Some 5%nat) 25 500 (0, 0)]
    [replicate 64 (mk_addr 0 None None)]
    (replicate 64 (mk_rev 0 None))
    [] [] 4 4 [stale_pbd; stale_pbd] [] [] [].

(** The same with page 3 of block 0 invalid. *)
Definition example_dev_invalid3 : nvmd :=
  set_blocks
    (<[0%nat := set_invalid 1 8 (open_block 0 0)]> (blocks example_dev))
    example_dev.

(** With the free blocks of pool 0 all taken, and with one left. *)
Definition example_dev_empty : nvmd :=
  set_pools
    (<[0%nat := mk_pool 0 [] [0; 1; 2; 3]%nat [] 0 [] 0 None]>
       (pools example_dev))
    example_dev.

Definition example_dev_low : nvmd :=
  set_pools
    (<[0%nat := mk_pool 0 [3]%nat [0; 1; 2]%nat [] 1 [] 0 None]>
       (pools example_dev))
    example_dev.

(** With no staging buffer left in the mempool. *)
Definition example_dev_no_buffer : nvmd := set_block_page_pool 0 example_dev.

(** With nothing left for pool 0: no free block, and both blocks of its
    append point written to the end. *)
Definition example_dev_exhausted : nvmd :=
  set_blocks
    (<[1%nat := set_cursor 8 0 (open_block 1 0)]>
       (<[0%nat := set_cursor 8 0 (open_block 0 0)]> (blocks example_dev)))
    example_dev_empty.

(** After logical page 3 was written to physical page 5 of block 0; and the
    same with that page marked invalid all the same. *)
Definition example_dev_written : nvmd :=
  set_rev_trans_map
    (<[5%nat := mk_rev 3 (Some trans_map)]> (rev_trans_map example_dev))
    (set_maps
       [<[3%nat := mk_addr 5 (Some 0%nat) None]>
          (replicate 64 (mk_addr 0 None None))]
       (set_blocks
          (<[0%nat := set_cursor 5 1 (open_block 0 0)]> (blocks example_dev))
          example_dev)).

Definition example_dev_stale : nvmd :=
  set_blocks
    (<[0%nat := set_invalid 1 32 (set_cursor 5 1 (open_block 0 0))]>
       (blocks example_dev_written))
    example_dev_written.

(** With a read of logical page 5 pending. *)
Definition example_read : bio :=
  mk_bio 43 0 None (Some (EndIoUpstream 7)) (PtrCookie 9) [BvPage [1; 2; 3]].

Definition example_dev_read : nvmd := set_bios [example_read] example_dev.

(** With the write of logical page 7 to physical page 7 of block 0 in
    flight, [cmnt] writes of the block being complete. *)
Definition example_pbd : per_bio_data :=
  mk_pbd (Some (EndIoUpstream 7)) (PtrCookie 9) 0 (Some 0%nat)
    (Some (mk_addr 7 (Some 0%nat) None)) 7 None None (Some trans_map).

Definition example_issue : bio :=
  mk_bio 56 1 (Some 0) (Some EndIoNvmWrite) (PtrObj example_pbd)
    [BvBlockData 0 7].

Definition example_dev_inflight (cmnt : Z) (flags : Z) (ticks : list Z)
    : nvmd :=
  mk_nvmd 64 8 2 flags 0
    (<[0%nat := set_data_cmnt_size cmnt
                  (set_data_size 8 (set_cursor 7 1 (open_block 0 0)))]>
       (blocks example_dev))
    (pools example_dev) (aps example_dev) (maps example_dev)
    (rev_trans_map example_dev) [example_issue] [] 3 4 [stale_pbd] [7]
    ticks [].

(** With a host write of logical page 5 pending, its lock held by the
    caller, and append point 0 next in turn; then the same with block 0
    written to the end and a single free block left in pool 0; and the same
    with no address handle left. *)
Definition example_write : bio :=
  mk_bio 43 1 None (Some (EndIoUpstream 7)) (PtrCookie 9) [BvPage [1; 2; 3]].

Definition example_dev_write : nvmd :=
  set_locked_addrs [5]
    (set_next_write_ap 1 (set_bios [example_write] example_dev)).

Definition example_dev_write_low : nvmd :=
  set_blocks
    (<[0%nat := set_cursor 8 0 (open_block 0 0)]> (blocks example_dev))
    (set_pools (pools example_dev_low) example_dev_write).

Definition example_dev_write_nomem : nvmd :=
  set_addr_pool 0 example_dev_write.

(** ** Further conditions *)

(** A hook of the strategy table that leaves the state alone. *)
Definition hook_inert (hook : option (nat -> M unit)) : Prop :=
  match hook with
  | None => True
  | Some f => forall b s, f b s = Ok tt s
  end.

(** What lies beside the blocks, pools and append points of a device, the
    kernel log and the mempool of staging buffers: the part of the state
    that block allocation has no business with. *)
Definition beside_blocks (s : nvmd) :=
  (nr_pages s, nr_host_pages_in_blk s, nr_aps s, config_flags s,
   next_write_ap s, maps s, rev_trans_map s, bios s, deferred_bios s,
   per_bio_pool s, locked_addrs s, clock s).

(** What lies beside the pools: every other field of the device. *)
Definition beside_pools (s : nvmd) :=
  (nr_pages s, nr_host_pages_in_blk s, nr_aps s, config_flags s,
   next_write_ap s, blocks s, aps s, maps s, rev_trans_map s, bios s,
   deferred_bios s, addr_pool s, block_page_pool s, per_bio_pool s,
   locked_addrs s, clock s, klog s).

(** ** Further example devices *)

(** The example device with block 0, the current block of append point 0,
    written to the end. *)
Definition example_dev_full0 : nvmd :=
  set_blocks
    (<[0%nat := set_cursor 8 0 (open_block 0 0)]> (blocks example_dev))
    example_dev.

(** [get_next_ap] moves the round-robin cursor and nothing else. *)
Definition get_next_ap_steps (h : lightnvm_h) : Prop :=
  forall s a s1,
    get_next_ap h s = Ok a s1 -> s1 = set_next_write_ap (next_write_ap s1) s.

(** With logical page 3 at physical page 5 of block 0: a read of that page
    pending, and the same read in flight, its lock held. *)
Definition example_read3 : bio :=
  mk_bio 27 0 None (Some (EndIoUpstream 7)) (PtrCookie 9) [BvPage [1; 2; 3]].

Definition example_dev_read3 : nvmd :=
  set_bios [example_read3] example_dev_written.

Definition example_pbd_read : per_bio_data :=
  mk_pbd (Some (EndIoUpstream 7)) (PtrCookie 9) 0 (Some 0%nat)
    (Some (mk_addr 5 (Some 0%nat) None)) 3 None None (Some trans_map).

Definition example_issue_read : bio :=
  mk_bio 43 0 None (Some EndIoNvmRead) (PtrObj example_pbd_read)
    [BvPage [1; 2; 3]].

Definition example_dev_reading : nvmd :=
  set_locked_addrs [3]
    (set_addr_pool 3
       (set_per_bio_pool [stale_pbd]
          (set_bios [example_issue_read] example_dev_written))).

(** A read that has to wait for the garbage collector: the request reads a
    page that lies in a block being collected, and nobody holds the lock on
    its logical address. *)
Definition read_waits (h : lightnvm_h) (s : nvmd) (bio : nat) : Prop :=
  exists b fwd gp bi blk,
    bios s !! bio = Some b /\
    bio_data_dir b = READ /\
    0 <= bi_sector b /\
    bi_sector b / NR_PHY_IN_LOG h < nr_pages s /\
    existsb (Z.eqb (bi_sector b / NR_PHY_IN_LOG h)) (locked_addrs s) = false /\
    maps s !! trans_map = Some fwd /\
    nthZ fwd (bi_sector b / NR_PHY_IN_LOG h) = Some gp /\
    block gp = Some bi /\
    blocks s !! bi = Some blk /\
    gc_running blk <> 0.

(** The example device with block 0 being collected, and a read of logical
    page 3, which lies in that block, pending. *)
Definition example_dev_gc : nvmd :=
  set_blocks
    (<[0%nat := mk_block 0 0 (Some 0%nat) 5 1 0 0 (Some (replicate 8 [])) 0
                  0 1]> (blocks example_dev_read3))
    example_dev_read3.

Definition example_dev_gc_deferred : nvmd :=
  set_deferred_bios [0%nat] example_dev_gc.

(** A device that serializes its pools, waits off, with logical page 3 at
    physical page 5 of block 0 and its lock held for the read pending as
    request 0; pool 0 has [act] requests accounted for, the list [waiting]
    in its queue and [cur] at the device.  The clock reads 1000 next. *)
Definition example_dev_serial (act : Z) (waiting : list nat)
    (cur : option nat) : nvmd :=
  mk_nvmd 64 8 2 3 0
    (blocks example_dev_read3)
    (<[0%nat := mk_pool 0 [2; 3]%nat [0; 1]%nat [] 2 waiting act cur]>
       (pools example_dev))
    (aps example_dev) (maps example_dev_read3)
    (rev_trans_map example_dev_read3)
    [example_read3; example_issue_read] [] 3 4 [stale_pbd] [3] [1000] [].

(** What lies beside the clock and the kernel log. *)
Definition beside_clock (s : nvmd) :=
  (nr_pages s, nr_host_pages_in_blk s, nr_aps s, config_flags s,
   next_write_ap s, blocks s, pools s, aps s, maps s, rev_trans_map s,
   bios s, deferred_bios s, addr_pool s, block_page_pool s, per_bio_pool s,
   locked_addrs s).

(** What a request in flight holds of the device, with the translation maps
    and the deferred list. *)
Definition held (s : nvmd) :=
  (locked_addrs s, bios s, per_bio_pool s, addr_pool s, maps s,
   rev_trans_map s, deferred_bios s).

(** The reverse map agrees with a forward map: every logical address that
    the forward map sends to a page of a block is what the reverse map has
    for that page. *)
Definition maps_consistent (s : nvmd) (tm : nat) : Prop :=
  forall fwd l e,
    maps s !! tm = Some fwd ->
    nthZ fwd l = Some e ->
    is_Some (block e) ->
    nthZ (rev_trans_map s) (addr e) = Some (mk_rev l (Some tm)).

(** The page is not yet the target of any translation of a forward map. *)
Definition page_unmapped (s : nvmd) (tm : nat) (a : Z) : Prop :=
  forall fwd l e,
    maps s !! tm = Some fwd ->
    nthZ fwd l = Some e ->
    is_Some (block e) ->
    addr e <> a.

(** Every pool of the list counts its free list, within 32 bits. *)
Definition counted_pools (ps : list nvm_pool) : Prop :=
  Forall pool_counted ps /\ Forall (fun pl => nr_free_blocks pl < 2 ^ 32) ps.
(** * Properties *)

(** Unfolding of the monad and of the accessors built on it. *)
Ltac kern :=
  unfold bind, ret, get, modify, oops, printk, BUG_ON, WARN_ON, deref,
    store_block, store_pool, store_ap, store_bio in *.

(** Exposes the fields of a state built by field updates. *)
Ltac fields :=
  unfold set_next_write_ap, set_blocks, set_pools, set_aps, set_maps,
    set_rev_trans_map, set_bios, set_deferred_bios, set_addr_pool,
    set_block_page_pool, set_per_bio_pool, set_locked_addrs, set_clock,
    set_klog in *; cbn in *.

(** ** Bitmaps *)

Lemma bitmap_weight_nat_bound (bm : Z) (n : nat) :
  0 <= bitmap_weight_nat bm n <= Z.of_nat n.
Proof.
  induction n as [|k IH]; simpl; [lia|].
  destruct (Z.testbit bm (Z.of_nat k)); lia.
Qed.

Lemma bitmap_weight_nat_setbit_high (bm : Z) (k : Z) (n : nat) :
  Z.of_nat n <= k ->
  bitmap_weight_nat (Z.setbit bm k) n = bitmap_weight_nat bm n.
Proof.
  induction n as [|m IH]; intros Hk; simpl; [reflexivity|].
  rewrite IH by lia.
  rewrite Z.setbit_neq by lia. reflexivity.
Qed.

Lemma bitmap_weight_nat_setbit (bm : Z) (k : Z) (n : nat) :
  0 <= k < Z.of_nat n ->
  bitmap_weight_nat (Z.setbit bm k) n =
  bitmap_weight_nat bm n + (if Z.testbit bm k then 0 else 1).
Proof.
  induction n as [|m IH]; intros Hk; [lia|].
  cbn [bitmap_weight_nat].
  destruct (Z.eq_dec k (Z.of_nat m)) as [->|Hne].
  - rewrite bitmap_weight_nat_setbit_high by lia.
    rewrite Z.setbit_eq by lia.
    destruct (Z.testbit bm (Z.of_nat m)); lia.
  - rewrite IH by lia.
    rewrite Z.setbit_neq by lia. lia.
Qed.

Lemma bitmap_weight_setbit (bm k n : Z) :
  0 <= k < n ->
  bitmap_weight (Z.setbit bm k) n =
  bitmap_weight bm n + (if Z.testbit bm k then 0 else 1).
Proof.
  intros Hk. unfold bitmap_weight.
  apply bitmap_weight_nat_setbit. lia.
Qed.

Lemma bitmap_weight_bound (bm n : Z) :
  0 <= n -> 0 <= bitmap_weight bm n <= n.
Proof.
  intros Hn. unfold bitmap_weight.
  pose proof (bitmap_weight_nat_bound bm (Z.to_nat n)). lia.
Qed.

Lemma bitmap_weight_nat_clear (bm : Z) (n : nat) :
  (forall k, 0 <= k < Z.of_nat n -> Z.testbit bm k = false) ->
  bitmap_weight_nat bm n = 0.
Proof.
  induction n as [|m IH]; intros Hclr; simpl; [reflexivity|].
  rewrite IH by (intros; apply Hclr; lia).
  rewrite Hclr by lia. reflexivity.
Qed.

Lemma bitmap_weight_zero (bm n : Z) :
  bitmap_weight (bitmap_zero bm n) n = 0.
Proof.
  unfold bitmap_weight. apply bitmap_weight_nat_clear.
  intros k Hk. unfold bitmap_zero.
  apply Z.shiftl_spec_low.
  unfold BITS_TO_LONGS, BITS_PER_LONG.
  assert (Hn : 0 < n) by lia.
  rewrite Z2Nat.id in Hk by lia.
  pose proof (Z.div_mod (n + 64 - 1) 64 ltac:(lia)) as Hdm.
  pose proof (Z.mod_pos_bound (n + 64 - 1) 64 ltac:(lia)).
  lia.
Qed.

Lemma u32_small (z : Z) : 0 <= z < 2 ^ 32 -> u32 z = z.
Proof. intros Hz. unfold u32. apply Z.mod_small. exact Hz. Qed.

(** ** Invalidation and reset of a block *)

Lemma invalidate_block_page_run (s : nvmd) (b : nat) (blk : nvm_block)
    (p : nvm_addr) :
  blocks s !! b = Some blk ->
  block p = Some b ->
  0 < nr_host_pages_in_blk s < 2 ^ 32 ->
  let off := addr p mod nr_host_pages_in_blk s in
  invalidate_block_page p s =
  Ok tt (set_blocks
           (<[b := set_invalid (u32 (nr_invalid_pages blk + 1))
                     (Z.setbit (invalid_pages blk) off) blk]> (blocks s))
           (if Z.testbit (invalid_pages blk) off
            then set_klog (EvWarn WarnInvalidTwice :: klog s) s else s)).
Proof.
  intros Hb Hp Hn off.
  unfold invalidate_block_page. kern.
  destruct (Z.eqb_spec (nr_host_pages_in_blk s) 0) as [E|_]; [lia|].
  rewrite Hp, Hb.
  rewrite u32_small.
  2:{ pose proof (Z.mod_pos_bound (addr p) (nr_host_pages_in_blk s)). lia. }
  unfold test_and_set_bit. fold off.
  destruct (Z.testbit (invalid_pages blk) off); reflexivity.
Qed.

(** C8: [popcount(invalid_pages) = nr_invalid_pages], counted over the
    [nr_host_pages_in_blk] bits of the block, is kept by
    [invalidate_block_page] on a page that is not yet invalid, and holds
    after [nvm_reset_block]; invalidating a page that is invalid already is
    reported through [WARN_ON]. *)
Theorem invalid_pages_counted_preserved (s : nvmd) (b : nat)
    (blk : nvm_block) :
  blocks s !! b = Some blk ->
  (forall p : nvm_addr,
      block p = Some b ->
      0 < nr_host_pages_in_blk s < 2 ^ 32 ->
      invalid_pages_counted s blk ->
      Z.testbit (invalid_pages blk) (addr p mod nr_host_pages_in_blk s)
      = false ->
      exists s' blk',
        invalidate_block_page p s = Ok tt s' /\
        blocks s' !! b = Some blk' /\
        invalid_pages_counted s' blk' /\
        klog s' = klog s)
  /\ (is_Some (pools s !! blk_pool blk) ->
      exists s' blk',
        nvm_reset_block (Some b) s = Ok tt s' /\
        blocks s' !! b = Some blk' /\
        invalid_pages_counted s' blk')
  /\ (forall p : nvm_addr,
      block p = Some b ->
      0 < nr_host_pages_in_blk s < 2 ^ 32 ->
      Z.testbit (invalid_pages blk) (addr p mod nr_host_pages_in_blk s)
      = true ->
      exists s',
        invalidate_block_page p s = Ok tt s' /\
        klog s' = EvWarn WarnInvalidTwice :: klog s).
Proof.
  intros Hb.
  assert (Hlt : (b < length (blocks s))%nat) by (eapply lookup_lt_Some; eauto).
  split; [|split].
  - intros p Hp Hn Hinv Hclear.
    rewrite (invalidate_block_page_run s b blk p Hb Hp Hn).
    cbv zeta. rewrite Hclear.
    eexists _, _. split; [reflexivity|].
    split; [cbn; apply list_lookup_insert_eq; exact Hlt|].
    split; [|reflexivity].
    unfold invalid_pages_counted in *. cbn.
    pose proof (Z.mod_pos_bound (addr p) (nr_host_pages_in_blk s)
                  ltac:(lia)) as Hoff.
    rewrite bitmap_weight_setbit by exact Hoff.
    rewrite Hclear.
    pose proof (bitmap_weight_setbit (invalid_pages blk) _ _ Hoff) as Hw.
    rewrite Hclear in Hw.
    pose proof (bitmap_weight_bound
                  (Z.setbit (invalid_pages blk)
                     (addr p mod nr_host_pages_in_blk s))
                  (nr_host_pages_in_blk s) ltac:(lia)) as Hbd.
    pose proof (bitmap_weight_bound (invalid_pages blk)
                  (nr_host_pages_in_blk s) ltac:(lia)).
    rewrite u32_small by lia. lia.
  - intros [pl Hpl].
    unfold nvm_reset_block. kern. rewrite Hb, Hpl. cbn.
    eexists _, _. split; [reflexivity|].
    split; [cbn; apply list_lookup_insert_eq; exact Hlt|].
    unfold invalid_pages_counted. cbn. apply bitmap_weight_zero.
  - intros p Hp Hn Hset.
    rewrite (invalidate_block_page_run s b blk p Hb Hp Hn).
    cbv zeta. rewrite Hset.
    eexists. split; reflexivity.
Qed.

Lemma invalid_pages_counted_preserved_witness :
  (exists s' blk',
      invalidate_block_page (mk_addr 3 (Some 0%nat) None) example_dev
      = Ok tt s' /\
      blocks s' !! 0%nat = Some blk' /\
      invalid_pages_counted s' blk' /\
      klog s' = klog example_dev)
  /\ (exists s' blk',
      nvm_reset_block (Some 0%nat) example_dev_invalid3 = Ok tt s' /\
      blocks s' !! 0%nat = Some blk' /\
      invalid_pages_counted s' blk')
  /\ (exists s',
      invalidate_block_page (mk_addr 3 (Some 0%nat) None) example_dev_invalid3
      = Ok tt s' /\
      klog s' = EvWarn WarnInvalidTwice :: klog example_dev_invalid3).
Proof.
  split; [|split].
  - apply (invalid_pages_counted_preserved example_dev 0 (open_block 0 0)
             eq_refl);
      [reflexivity | cbn; lia | reflexivity | reflexivity].
  - apply (invalid_pages_counted_preserved example_dev_invalid3 0
             (set_invalid 1 8 (open_block 0 0)) eq_refl).
    eexists; reflexivity.
  - apply (invalid_pages_counted_preserved example_dev_invalid3 0
             (set_invalid 1 8 (open_block 0 0)) eq_refl);
      [reflexivity | cbn; lia | reflexivity].
Defined.

(** ** The write cursor of a block *)

Lemma alloc_phys_addr_run (h : lightnvm_h) (hook : option (nat -> M unit))
    (ps : option (nvmd -> Z -> bool)) (s : nvmd) (b : nat) (blk : nvm_block) :
  blocks s !! b = Some blk ->
  is_Some (pools s !! blk_pool blk) ->
  hook_keeps_blocks hook ->
  exists a s',
    __nvm_alloc_phys_addr h hook (Some b) ps s = Ok a s' /\
    ((a = LTOP_EMPTY h /\ s' = s) \/
     (block_is_full h (nr_host_pages_in_blk s) blk = false /\
      blocks s' =
      <[b := if next_offset blk =? NR_HOST_PAGES_IN_FLASH_PAGE h
             then set_cursor (u32 (next_page blk + 1)) (u32 (0 + 1)) blk
             else set_cursor (next_page blk) (u32 (next_offset blk + 1)) blk]>
        (blocks s))).
Proof.
  intros Hb [pl Hpl] Hhook.
  unfold __nvm_alloc_phys_addr. kern. cbn. rewrite Hb, Hpl.
  destruct (block_is_full h (nr_host_pages_in_blk s) blk) eqn:Hfull.
  { eexists _, _. split; [reflexivity|]. left. split; reflexivity. }
  destruct ((next_offset blk =? NR_HOST_PAGES_IN_FLASH_PAGE h) &&
            match ps with
            | Some f => negb (f s (u32 (next_page blk + 1)))
            | None => false
            end) eqn:Href.
  { eexists _, _. split; [reflexivity|]. left. split; reflexivity. }
  destruct (next_offset blk =? NR_HOST_PAGES_IN_FLASH_PAGE h) eqn:Hsat.
  - destruct hook as [f|]; cbn in *.
    + match goal with |- context [f b ?s1] =>
        destruct (Hhook b s1) as (s2 & Hrun & Hsame); rewrite Hrun end.
      eexists _, _. split; [reflexivity|]. right.
      split; [reflexivity|]. rewrite Hsame. reflexivity.
    + eexists _, _. split; [reflexivity|]. right. split; reflexivity.
  - destruct hook as [f|]; cbn in *.
    + match goal with |- context [f b ?s1] =>
        destruct (Hhook b s1) as (s2 & Hrun & Hsame); rewrite Hrun end.
      eexists _, _. split; [reflexivity|]. right.
      split; [reflexivity|]. rewrite Hsame. reflexivity.
    + eexists _, _. split; [reflexivity|]. right. split; reflexivity.
Qed.

(** Whatever the size of a flash page, the allocation that takes its last
    host page leaves [next_offset] at that size. *)
Lemma alloc_phys_addr_fills_flash_page (h : lightnvm_h)
    (hook : option (nat -> M unit)) (s : nvmd) (b : nat) (blk : nvm_block) :
  blocks s !! b = Some blk ->
  is_Some (pools s !! blk_pool blk) ->
  hook_keeps_blocks hook ->
  0 < NR_HOST_PAGES_IN_FLASH_PAGE h < 2 ^ 32 ->
  block_is_full h (nr_host_pages_in_blk s) blk = false ->
  next_offset blk = NR_HOST_PAGES_IN_FLASH_PAGE h - 1 ->
  exists a s' blk',
    nvm_alloc_phys_addr h hook (Some b) s = Ok a s' /\
    blocks s' !! b = Some blk' /\
    next_offset blk' = NR_HOST_PAGES_IN_FLASH_PAGE h.
Proof.
  intros Hb [pl Hpl] Hhook Hnr Hfull Hoff.
  assert (Hlt : (b < length (blocks s))%nat) by (eapply lookup_lt_Some; eauto).
  unfold nvm_alloc_phys_addr, __nvm_alloc_phys_addr. kern. cbn.
  rewrite Hb, Hpl, Hfull.
  destruct (next_offset blk =? NR_HOST_PAGES_IN_FLASH_PAGE h) eqn:E;
    [apply Z.eqb_eq in E; lia|].
  cbn.
  destruct hook as [f|]; cbn in *.
  - match goal with |- context [f b ?s1] =>
      destruct (Hhook b s1) as (s2 & Hr & Hsame); rewrite Hr end.
    eexists _, _, _. split; [reflexivity|].
    rewrite Hsame. cbn.
    split; [apply list_lookup_insert_eq; exact Hlt|].
    cbn. rewrite u32_small by lia. lia.
  - eexists _, _, _. split; [reflexivity|]. cbn.
    split; [apply list_lookup_insert_eq; exact Hlt|].
    cbn. rewrite u32_small by lia. lia.
Qed.

(** C2, as amended: [nvm_reset_block] and every [__nvm_alloc_phys_addr]
    leave [0 <= next_offset <= NR_HOST_PAGES_IN_FLASH_PAGE]; an allocation
    either leaves the block as it is, or steps [next_offset] alone while it
    is below that size, or, when it has reached it, steps [next_page] and
    restarts [next_offset]. *)
Theorem cursor_in_flash_page_preserved (h : lightnvm_h)
    (hook : option (nat -> M unit)) (ps : option (nvmd -> Z -> bool))
    (s : nvmd) (b : nat) (blk : nvm_block) :
  blocks s !! b = Some blk ->
  is_Some (pools s !! blk_pool blk) ->
  hook_keeps_blocks hook ->
  0 < NR_HOST_PAGES_IN_FLASH_PAGE h < 2 ^ 32 ->
  cursor_in_flash_page h blk ->
  (exists a s' blk',
      __nvm_alloc_phys_addr h hook (Some b) ps s = Ok a s' /\
      blocks s' !! b = Some blk' /\
      cursor_in_flash_page h blk' /\
      (blk' = blk \/
       (next_offset blk < NR_HOST_PAGES_IN_FLASH_PAGE h /\
        next_page blk' = next_page blk /\
        next_offset blk' = next_offset blk + 1) \/
       (next_offset blk = NR_HOST_PAGES_IN_FLASH_PAGE h /\
        next_page blk' = u32 (next_page blk + 1) /\
        next_offset blk' = 1)))
  /\ (exists s' blk',
      nvm_reset_block (Some b) s = Ok tt s' /\
      blocks s' !! b = Some blk' /\
      next_page blk' = 0 /\ next_offset blk' = 0 /\
      cursor_in_flash_page h blk').
Proof.
  intros Hb Hpl Hhook Hnr [Hlo Hhi].
  assert (Hlt : (b < length (blocks s))%nat) by (eapply lookup_lt_Some; eauto).
  split.
  - destruct (alloc_phys_addr_run h hook ps s b blk Hb Hpl Hhook)
      as (a & s' & Hrun & [[Ha ->]|[_ Hblocks]]).
    + exists a, s, blk. repeat split; try assumption. left. reflexivity.
    + exists a, s'. eexists. split; [exact Hrun|].
      rewrite Hblocks.
      split; [apply list_lookup_insert_eq; exact Hlt|].
      destruct (Z.eqb_spec (next_offset blk) (NR_HOST_PAGES_IN_FLASH_PAGE h))
        as [E|E]; unfold cursor_in_flash_page; cbn.
      * rewrite !u32_small by lia. split; [lia|]. right. right. lia.
      * rewrite !u32_small by lia. split; [lia|]. right. left. lia.
  - destruct Hpl as [pl Hpl].
    unfold nvm_reset_block. kern. rewrite Hb, Hpl. cbn.
    eexists _, _. split; [reflexivity|].
    split; [cbn; apply list_lookup_insert_eq; exact Hlt|].
    unfold cursor_in_flash_page. cbn. repeat split; lia.
Qed.

Lemma cursor_in_flash_page_preserved_witness :
  (exists a s' blk',
      __nvm_alloc_phys_addr example_h None (Some 0%nat) None example_dev
      = Ok a s' /\
      blocks s' !! 0%nat = Some blk' /\
      cursor_in_flash_page example_h blk' /\
      (blk' = open_block 0 0 \/
       (next_offset (open_block 0 0) < NR_HOST_PAGES_IN_FLASH_PAGE example_h /\
        next_page blk' = next_page (open_block 0 0) /\
        next_offset blk' = next_offset (open_block 0 0) + 1) \/
       (next_offset (open_block 0 0) = NR_HOST_PAGES_IN_FLASH_PAGE example_h /\
        next_page blk' = u32 (next_page (open_block 0 0) + 1) /\
        next_offset blk' = 1)))
  /\ (exists s' blk',
      nvm_reset_block (Some 0%nat) example_dev = Ok tt s' /\
      blocks s' !! 0%nat = Some blk' /\
      next_page blk' = 0 /\ next_offset blk' = 0 /\
      cursor_in_flash_page example_h blk').
Proof.
  apply (cursor_in_flash_page_preserved example_h None None example_dev 0
           (open_block 0 0) eq_refl).
  - eexists; reflexivity.
  - exact I.
  - cbn; lia.
  - unfold cursor_in_flash_page; cbn; lia.
Defined.

(** C2 as it is worded fails: on the example device, where a flash page
    holds one host page, the first allocation in a fresh block leaves
    [next_offset] equal to [NR_HOST_PAGES_IN_FLASH_PAGE], not below it. *)
Lemma next_offset_reaches_flash_page_size :
  exists a s' blk',
    nvm_alloc_phys_addr example_h None (Some 0%nat) example_dev = Ok a s' /\
    blocks s' !! 0%nat = Some blk' /\
    ~ next_offset blk' < NR_HOST_PAGES_IN_FLASH_PAGE example_h.
Proof.
  eexists _, _, _. split; [vm_compute; reflexivity|].
  split; [reflexivity|]. cbn. lia.
Qed.

(** ** The free and used lists of a pool *)

Lemma lookup_insert_is_Some' {A} (l : list A) (i j : nat) (x : A) :
  is_Some (l !! j) -> is_Some (<[i := x]> l !! j).
Proof.
  intros Hj. apply lookup_lt_is_Some. rewrite length_insert.
  apply lookup_lt_is_Some. exact Hj.
Qed.

Lemma list_del_absent (b : nat) (l : list nat) : b ∉ l -> list_del b l = l.
Proof.
  unfold list_del. induction l as [|x l IH]; intros Hnot; [reflexivity|].
  cbn. destruct (Nat.eqb_spec x b) as [->|Hne].
  - exfalso. apply Hnot. left.
  - cbn. f_equal. apply IH. intros Hin. apply Hnot. right. exact Hin.
Qed.


(** The ways [nvm_pool_get_block] returns. *)
Lemma nvm_pool_get_block_inv (s : nvmd) (pool : option nat) (is_gc : Z)
    (r : option nat) (s' : nvmd) :
  nvm_pool_get_block pool is_gc s = Ok r s' ->
  (r = None /\ pools s' = pools s /\ blocks s' = blocks s) \/
  (exists pi pl b rest,
      pool = Some pi /\ pools s !! pi = Some pl /\
      free_list pl = b :: rest /\ r = Some b /\
      pools s' = <[pi := set_lists rest (used_list pl ++ [b])
                           (u32 (nr_free_blocks pl - 1)) pl]> (pools s)).
Proof.
  unfold nvm_pool_get_block, nvm_reset_block, mempool_alloc_block_pages.
  kern. destruct pool as [pi|]; [|discriminate].
  destruct (pools s !! pi) as [pl|] eqn:Hpl; [|discriminate]. cbn.
  destruct (free_list pl) as [|b rest] eqn:Hfl.
  { intros [= <- <-]. left. repeat split. }
  destruct ((is_gc =? 0) && (nr_free_blocks pl <? nr_aps s)).
  { intros [= <- <-]. left. repeat split. }
  fields.
  destruct (blocks s !! b) as [blk|]; [|discriminate]. cbn.
  match goal with
  | |- context [<[pi := ?x]> (pools s) !! ?j] =>
      destruct (<[pi := x]> (pools s) !! j); [|discriminate]
  end. cbn.
  destruct (block_page_pool s); cbn.
  - destruct (<[b := _]> (blocks s) !! b); discriminate.
  - destruct (<[b := _]> (blocks s) !! b); [|discriminate]. cbn.
    intros [= <- <-]. right. exists pi, pl, b, rest. repeat split; assumption.
Qed.



Lemma nvm_pool_get_block_returns (s : nvmd) (pi : nat) (pl : nvm_pool)
    (is_gc : Z) :
  pools s !! pi = Some pl ->
  (forall b, head (free_list pl) = Some b ->
             exists blk, blocks s !! b = Some blk /\
                         is_Some (pools s !! blk_pool blk)) ->
  block_page_pool s <> 0%nat ->
  exists r s', nvm_pool_get_block (Some pi) is_gc s = Ok r s'.
Proof.
  intros Hpl Hhead Hmem.
  unfold nvm_pool_get_block, nvm_reset_block, mempool_alloc_block_pages.
  kern. rewrite Hpl. cbn.
  destruct (free_list pl) as [|b rest] eqn:Hfl; [eexists _, _; reflexivity|].
  destruct ((is_gc =? 0) && (nr_free_blocks pl <? nr_aps s));
    [eexists _, _; reflexivity|].
  destruct (Hhead b eq_refl) as (blk & Hb & Hbp).
  assert (Hlt : (b < length (blocks s))%nat) by (eapply lookup_lt_Some; eauto).
  fields. rewrite Hb. cbn.
  match goal with
  | |- context [<[pi := ?x]> (pools s) !! blk_pool blk] =>
      destruct (lookup_insert_is_Some' (pools s) pi (blk_pool blk) x Hbp)
        as [pl2 Hpl2]; rewrite Hpl2
  end. cbn.
  destruct (block_page_pool s) as [|k]; [congruence|]. cbn.
  rewrite list_lookup_insert_eq by exact Hlt. cbn.
  eexists _, _. reflexivity.
Qed.

(** C4, as amended: [nvm_pool_get_block] gives no block when [free_list] is
    empty, and none to a host request ([is_gc = 0]) while
    [nr_free_blocks < nr_aps], the pools and blocks being left as they were;
    otherwise, when the mempool has a staging buffer for the block, the head
    of [free_list] leaves it for the tail of [used_list], [nr_free_blocks]
    goes down by one, and that block is what the call returns, with
    cursors, counters, bitmap and [gc_running] reset; and when the mempool
    has no staging buffer the call does not return: it stops at
    [BUG_ON(!block->data)]. *)
Theorem nvm_pool_get_block_spec (s : nvmd) (pi : nat) (pl : nvm_pool)
    (is_gc : Z) :
  pools s !! pi = Some pl ->
  (free_list pl = [] ->
   exists s', nvm_pool_get_block (Some pi) is_gc s = Ok None s' /\
              pools s' = pools s /\ blocks s' = blocks s)
  /\ (is_gc = 0 -> nr_free_blocks pl < nr_aps s ->
      exists s', nvm_pool_get_block (Some pi) is_gc s = Ok None s' /\
                 pools s' = pools s /\ blocks s' = blocks s)
  /\ (forall (b : nat) (rest : list nat),
      free_list pl = b :: rest ->
      ~ (is_gc = 0 /\ nr_free_blocks pl < nr_aps s) ->
      (forall r s',
          nvm_pool_get_block (Some pi) is_gc s = Ok r s' ->
          r = Some b /\
          exists pl' blk',
            pools s' !! pi = Some pl' /\
            free_list pl' = rest /\
            used_list pl' = used_list pl ++ [b] /\
            nr_free_blocks pl' = u32 (nr_free_blocks pl - 1) /\
            (0 < nr_free_blocks pl < 2 ^ 32 ->
             nr_free_blocks pl' = nr_free_blocks pl - 1) /\
            (forall j, j <> pi -> pools s' !! j = pools s !! j) /\
            blocks s' !! b = Some blk' /\
            next_page blk' = 0 /\ next_offset blk' = 0 /\
            nr_invalid_pages blk' = 0 /\
            bitmap_weight (invalid_pages blk') (nr_host_pages_in_blk s) = 0 /\
            data_size blk' = 0 /\ data_cmnt_size blk' = 0 /\
            gc_running blk' = 0)
      /\ (forall blk,
          blocks s !! b = Some blk ->
          is_Some (pools s !! blk_pool blk) ->
          block_page_pool s <> 0%nat ->
          exists s', nvm_pool_get_block (Some pi) is_gc s = Ok (Some b) s')
      /\ (forall blk,
          blocks s !! b = Some blk ->
          is_Some (pools s !! blk_pool blk) ->
          block_page_pool s = 0%nat ->
          nvm_pool_get_block (Some pi) is_gc s = Oops (BugOn BugNoData))).
Proof.
  intros Hpl.
  assert (Hpi : (pi < length (pools s))%nat) by (eapply lookup_lt_Some; eauto).
  split; [|split].
  - intros Hempty. unfold nvm_pool_get_block. kern. rewrite Hpl. cbn.
    rewrite Hempty. eexists. split; [reflexivity|]. split; reflexivity.
  - intros -> Hlow. unfold nvm_pool_get_block. kern. rewrite Hpl. cbn.
    destruct (free_list pl) as [|b rest].
    + eexists. split; [reflexivity|]. split; reflexivity.
    + destruct (Z.ltb_spec (nr_free_blocks pl) (nr_aps s)); [|lia]. cbn.
      eexists. split; [reflexivity|]. split; reflexivity.
  - intros b rest Hfl Hres.
    assert (Hgate : (is_gc =? 0) && (nr_free_blocks pl <? nr_aps s) = false).
    { destruct (Z.eqb_spec is_gc 0); [|reflexivity].
      destruct (Z.ltb_spec (nr_free_blocks pl) (nr_aps s)); [|reflexivity].
      exfalso. apply Hres. split; assumption. }
    split; [|split].
    + intros r s'.
      unfold nvm_pool_get_block, nvm_reset_block, mempool_alloc_block_pages.
      kern. rewrite Hpl. cbn. rewrite Hfl, Hgate. fields.
      destruct (blocks s !! b) as [blk|] eqn:Hb; [|discriminate]. cbn.
      assert (Hlt : (b < length (blocks s))%nat)
        by (eapply lookup_lt_Some; eauto).
      match goal with
      | |- context [<[pi := ?x]> (pools s) !! ?j] =>
          destruct (<[pi := x]> (pools s) !! j); [|discriminate]
      end. cbn.
      destruct (block_page_pool s); cbn;
        rewrite list_lookup_insert_eq by exact Hlt; cbn; [discriminate|].
      intros [= <- <-]. split; [reflexivity|]. cbn.
      eexists _, _.
      split; [apply list_lookup_insert_eq; exact Hpi|]. cbn.
      do 3 (split; [reflexivity|]).
      split; [intros Hr; apply u32_small; lia|].
      split; [intros j Hj; apply list_lookup_insert_ne; congruence|].
      split.
      { rewrite list_lookup_insert_eq; [reflexivity|].
        rewrite length_insert. exact Hlt. }
      cbn. repeat split; try reflexivity. apply bitmap_weight_zero.
    + intros blk Hb Hbp Hmem.
      destruct (nvm_pool_get_block_returns s pi pl is_gc Hpl)
        as (r & s' & Hrun).
      * intros b' Hhead. rewrite Hfl in Hhead. injection Hhead as <-.
        exists blk. split; assumption.
      * exact Hmem.
      * destruct (nvm_pool_get_block_inv s (Some pi) is_gc r s' Hrun)
          as [(-> & Hsame & _)|(pi' & pl' & b' & rest' & [= <-] & Hpl'
                                & Hfl' & -> & _)].
        -- exfalso. revert Hrun.
           unfold nvm_pool_get_block, nvm_reset_block,
             mempool_alloc_block_pages.
           kern. rewrite Hpl. cbn. rewrite Hfl, Hgate. fields.
           rewrite Hb. cbn.
           match goal with
           | |- context [<[pi := ?x]> (pools s) !! ?j] =>
               destruct (<[pi := x]> (pools s) !! j); [|discriminate]
           end. cbn.
           assert (Hlt : (b < length (blocks s))%nat)
             by (eapply lookup_lt_Some; eauto).
           destruct (block_page_pool s); cbn;
             rewrite list_lookup_insert_eq by exact Hlt; cbn; discriminate.
        -- rewrite Hpl in Hpl'. injection Hpl' as <-.
           rewrite Hfl in Hfl'. injection Hfl' as <- <-.
           exists s'. exact Hrun.
    + intros blk Hb Hbp Hmem.
      assert (Hlt : (b < length (blocks s))%nat)
        by (eapply lookup_lt_Some; eauto).
      unfold nvm_pool_get_block, nvm_reset_block, mempool_alloc_block_pages.
      kern. rewrite Hpl. cbn. rewrite Hfl, Hgate. fields.
      rewrite Hb. cbn.
      match goal with
      | |- context [<[pi := ?x]> (pools s) !! blk_pool blk] =>
          destruct (lookup_insert_is_Some' (pools s) pi (blk_pool blk) x Hbp)
            as [pl2 Hpl2]; rewrite Hpl2
      end. cbn.
      rewrite Hmem. cbn.
      rewrite list_lookup_insert_eq by exact Hlt. reflexivity.
Qed.

Lemma nvm_pool_get_block_spec_witness :
  (exists s',
      nvm_pool_get_block (Some 0%nat) 1 example_dev_empty = Ok None s' /\
              pools s' = pools example_dev_empty /\
              blocks s' = blocks example_dev_empty)
  /\ (exists s',
      nvm_pool_get_block (Some 0%nat) 0 example_dev_low = Ok None s' /\
                 pools s' = pools example_dev_low /\
                 blocks s' = blocks example_dev_low)
  /\ (exists s' pl' blk',
        nvm_pool_get_block (Some 0%nat) 0 example_dev = Ok (Some 2%nat) s' /\
        pools s' !! 0%nat = Some pl' /\
        free_list pl' = [3%nat] /\
        used_list pl' = [0; 1; 2]%nat /\
        nr_free_blocks pl' = 1 /\
        blocks s' !! 2%nat = Some blk' /\
        next_page blk' = 0 /\ next_offset blk' = 0 /\
        nr_invalid_pages blk' = 0 /\
        bitmap_weight (invalid_pages blk') 8 = 0 /\
        data_size blk' = 0 /\ data_cmnt_size blk' = 0 /\
        gc_running blk' = 0)
  /\ nvm_pool_get_block (Some 0%nat) 1 example_dev_no_buffer
     = Oops (BugOn BugNoData).
Proof.
  split; [|split; [|split]].
  - destruct (nvm_pool_get_block_spec example_dev_empty 0 _ 1 eq_refl)
      as (H & _ & _).
    apply H. reflexivity.
  - destruct (nvm_pool_get_block_spec example_dev_low 0 _ 0 eq_refl)
      as (_ & H & _).
    apply H; [reflexivity | cbn; lia].
  - destruct (nvm_pool_get_block_spec example_dev 0 _ 0 eq_refl)
      as (_ & _ & H).
    destruct (H 2%nat [3%nat] eq_refl) as (Hany & Hret & _); [cbn; lia|].
    destruct (Hret (fresh_block 2 0) eq_refl) as (s' & Hrun);
      [eexists; reflexivity | cbn; lia|].
    destruct (Hany _ _ Hrun)
      as (_ & pl' & blk' & Hp & Hf & Hu & _ & Hn' & _ & Hb & Hrest).
    exists s', pl', blk'.
    split; [exact Hrun|]. split; [exact Hp|]. split; [exact Hf|].
    split; [exact Hu|]. split; [rewrite Hn'; cbn; lia|].
    split; [exact Hb|]. exact Hrest.
  - destruct (nvm_pool_get_block_spec example_dev_no_buffer 0 _ 1 eq_refl)
      as (_ & _ & H).
    destruct (H 2%nat [3%nat] eq_refl) as (_ & _ & Hbug); [cbn; lia|].
    apply (Hbug (fresh_block 2 0) eq_refl);
      [eexists; reflexivity | reflexivity].
Defined.

(** C4 as it is worded fails: with a free block at the head of the list and
    no headroom rule in the way (two free blocks for two append points, or
    a GC request), but no staging buffer left in the mempool, the call
    returns no block; it stops at [BUG_ON(!block->data)]. *)
Lemma nvm_pool_get_block_no_buffer :
  (exists pl,
      pools example_dev_no_buffer !! 0%nat = Some pl /\
      free_list pl = [2; 3]%nat /\
      ~ nr_free_blocks pl < nr_aps example_dev_no_buffer)
  /\ nvm_pool_get_block (Some 0%nat) 0 example_dev_no_buffer
     = Oops (BugOn BugNoData)
  /\ nvm_pool_get_block (Some 0%nat) 1 example_dev_no_buffer
     = Oops (BugOn BugNoData).
Proof.
  split.
  - eexists. split; [reflexivity|]. split; [reflexivity|]. cbn. lia.
  - split; vm_compute; reflexivity.
Qed.





(** ** The translation maps *)

Lemma nthZ_Some {A} (l : list A) (i : Z) (x : A) :
  nthZ l i = Some x -> 0 <= i /\ l !! Z.to_nat i = Some x.
Proof.
  unfold nthZ. destruct (Z.ltb_spec i 0); [discriminate|].
  intros Hx. split; [lia | exact Hx].
Qed.

Lemma nthZ_insert_eq {A} (l : list A) (i : Z) (x y : A) :
  nthZ l i = Some y -> nthZ (<[Z.to_nat i := x]> l) i = Some x.
Proof.
  intros Hy. destruct (nthZ_Some l i y Hy) as [Hi Hl].
  unfold nthZ. destruct (Z.ltb_spec i 0); [lia|].
  apply list_lookup_insert_eq. eapply lookup_lt_Some. exact Hl.
Qed.

Lemma nthZ_insert_ne {A} (l : list A) (i j : Z) (x : A) :
  0 <= i -> i <> j -> nthZ (<[Z.to_nat i := x]> l) j = nthZ l j.
Proof.
  intros Hi Hne. unfold nthZ. destruct (Z.ltb_spec j 0); [reflexivity|].
  apply list_lookup_insert_ne. lia.
Qed.

(** What [nvm_update_map] does when the forward entry has no block. *)
Lemma nvm_update_map_fresh_run (h : lightnvm_h) (s : nvmd) (l_addr : Z)
    (p : nvm_addr) (is_gc : Z) (tm : nat) (map : list nvm_addr)
    (gp : nvm_addr) :
  l_addr < nr_pages s ->
  addr p < nr_pages s ->
  maps s !! tm = Some map ->
  nthZ map l_addr = Some gp ->
  is_Some (nthZ (rev_trans_map s) (addr p)) ->
  block gp = None ->
  nvm_update_map h l_addr p is_gc tm s =
  Ok tt
    (set_rev_trans_map
       (<[Z.to_nat (addr p) := mk_rev l_addr (Some tm)]> (rev_trans_map s))
       (set_maps
          (<[tm := <[Z.to_nat l_addr :=
                       mk_addr (addr p) (block p) (private gp)]> map]>
             (maps s))
          s)).
Proof.
  intros Hl Hp Hmap Hgp [r Hr] Hnone.
  unfold nvm_update_map. kern.
  destruct (Z.leb_spec (nr_pages s) l_addr); [lia|].
  destruct (Z.leb_spec (nr_pages s) (addr p)); [lia|].
  cbn. rewrite Hmap, Hgp, Hnone. cbn. rewrite Hmap. fields.
  rewrite Hr. reflexivity.
Qed.

(** C10: when the forward entry of [l_addr] has no block, [nvm_update_map]
    writes that forward entry and the reverse entry of [p->addr], and
    nothing else: no block is touched and no other reverse entry, so none
    is poisoned; the other forward entries, the other maps and every field
    of the device beside the maps (blocks, pools, append points, requests,
    deferred list, mempools, locks, clock, log and configuration) are what
    they were. *)
Theorem nvm_update_map_fresh (h : lightnvm_h) (s : nvmd) (l_addr : Z)
    (p : nvm_addr) (is_gc : Z) (tm : nat) (map : list nvm_addr)
    (gp : nvm_addr) :
  l_addr < nr_pages s ->
  addr p < nr_pages s ->
  maps s !! tm = Some map ->
  nthZ map l_addr = Some gp ->
  is_Some (nthZ (rev_trans_map s) (addr p)) ->
  block gp = None ->
  exists s' map',
    nvm_update_map h l_addr p is_gc tm s = Ok tt s' /\
    blocks s' = blocks s /\ pools s' = pools s /\ aps s' = aps s /\
    klog s' = klog s /\
    (forall a, a <> addr p ->
               nthZ (rev_trans_map s') a = nthZ (rev_trans_map s) a) /\
    nthZ (rev_trans_map s') (addr p) = Some (mk_rev l_addr (Some tm)) /\
    (forall m, m <> tm -> maps s' !! m = maps s !! m) /\
    maps s' !! tm = Some map' /\
    (forall a, a <> l_addr -> nthZ map' a = nthZ map a) /\
    nthZ map' l_addr = Some (mk_addr (addr p) (block p) (private gp)) /\
    beside_maps s' = beside_maps s /\
    length (rev_trans_map s') = length (rev_trans_map s) /\
    length (maps s') = length (maps s) /\
    length map' = length map.
Proof.
  intros Hl Hp Hmap Hgp Hrev Hnone.
  rewrite (nvm_update_map_fresh_run h s l_addr p is_gc tm map gp)
    by assumption.
  destruct Hrev as [r Hr].
  destruct (nthZ_Some _ _ _ Hr) as [Hp0 _].
  destruct (nthZ_Some _ _ _ Hgp) as [Hl0 _].
  eexists _, _. split; [reflexivity|]. fields.
  do 4 (split; [reflexivity|]).
  split; [intros a Ha; apply nthZ_insert_ne; [lia | congruence]|].
  split; [eapply nthZ_insert_eq; exact Hr|].
  split; [intros m Hm; apply list_lookup_insert_ne; congruence|].
  split; [apply list_lookup_insert_eq; eapply lookup_lt_Some; exact Hmap|].
  split; [intros a Ha; apply nthZ_insert_ne; [lia | congruence]|].
  split; [eapply nthZ_insert_eq; exact Hgp|].
  split; [reflexivity|].
  rewrite !length_insert. repeat split.
Qed.

Lemma nvm_update_map_fresh_witness :
  exists s' map',
    nvm_update_map example_h 3 (mk_addr 5 (Some 0%nat) None) 0 trans_map
      example_dev = Ok tt s' /\
    blocks s' = blocks example_dev /\
    nthZ (rev_trans_map s') 5 = Some (mk_rev 3 (Some trans_map)) /\
    maps s' !! trans_map = Some map' /\
    nthZ map' 3 = Some (mk_addr 5 (Some 0%nat) None) /\
    beside_maps s' = beside_maps example_dev.
Proof.
  destruct (nvm_update_map_fresh example_h example_dev 3
              (mk_addr 5 (Some 0%nat) None) 0 trans_map
              (replicate 64 (mk_addr 0 None None)) (mk_addr 0 None None))
    as (s' & map' & Hrun & Hb & _ & _ & _ & _ & Hrev & _ & Hm & _ & Hfwd
        & Hbeside & _).
  - cbn; lia.
  - cbn; lia.
  - reflexivity.
  - reflexivity.
  - eexists; reflexivity.
  - reflexivity.
  - exists s', map'. repeat split; assumption.
Defined.

(** What [nvm_update_map] does when the forward entry has a block. *)
Lemma nvm_update_map_overwrite_run (h : lightnvm_h) (s : nvmd) (l_addr : Z)
    (p : nvm_addr) (is_gc : Z) (tm : nat) (map : list nvm_addr)
    (gp : nvm_addr) (b0 : nat) (blk : nvm_block) (r0 : nvm_rev_addr) :
  l_addr < nr_pages s ->
  addr p < nr_pages s ->
  maps s !! tm = Some map ->
  nthZ map l_addr = Some gp ->
  block gp = Some b0 ->
  blocks s !! b0 = Some blk ->
  0 < nr_host_pages_in_blk s < 2 ^ 32 ->
  nthZ (rev_trans_map s) (addr gp) = Some r0 ->
  is_Some (nthZ (rev_trans_map s) (addr p)) ->
  let off := addr gp mod nr_host_pages_in_blk s in
  nvm_update_map h l_addr p is_gc tm s =
  Ok tt
    (set_rev_trans_map
       (<[Z.to_nat (addr p) := mk_rev l_addr (Some tm)]>
          (<[Z.to_nat (addr gp) := mk_rev (LTOP_POISON h) (rv_trans_map r0)]>
             (rev_trans_map s)))
       (set_maps
          (<[tm := <[Z.to_nat l_addr :=
                       mk_addr (addr p) (block p) (private gp)]> map]>
             (maps s))
          (set_blocks
             (<[b0 := set_invalid (u32 (nr_invalid_pages blk + 1))
                        (Z.setbit (invalid_pages blk) off) blk]> (blocks s))
             (if Z.testbit (invalid_pages blk) off
              then set_klog (EvWarn WarnInvalidTwice :: klog s) s else s)))).
Proof.
  intros Hl Hp Hmap Hgp Hblock Hb Hn Hr0 [r Hr] off.
  destruct (nthZ_Some _ _ _ Hr0) as [Hg0 _].
  unfold nvm_update_map. unfold bind at 1. unfold get at 1.
  unfold bind at 1. unfold BUG_ON at 1.
  destruct (Z.leb_spec (nr_pages s) l_addr); [lia|]. unfold ret at 1.
  unfold bind at 1. unfold BUG_ON at 1.
  destruct (Z.leb_spec (nr_pages s) (addr p)); [lia|]. unfold ret at 1.
  unfold bind at 1. unfold deref at 1. rewrite Hmap, Hgp, Hblock.
  unfold bind at 1. unfold bind at 1.
  rewrite (invalidate_block_page_run s b0 blk gp Hb Hblock Hn).
  cbv zeta. fold off.
  destruct (Z.testbit (invalid_pages blk) off); kern; fields;
    rewrite Hr0; cbn; rewrite Hmap; cbn;
    (destruct (Z.eq_dec (addr gp) (addr p)) as [E|E];
     [rewrite <- E, (nthZ_insert_eq _ _ _ _ Hr0)
     |rewrite (nthZ_insert_ne _ _ _ _ Hg0 E), Hr]);
    reflexivity.
Qed.

(** C1, as amended: [nvm_update_map] over a forward entry [(p0, b0)] whose
    page is not yet marked invalid, for a new address other than [p0]: the
    bitmap of [b0] gains the one bit [p0 mod nr_host_pages_in_blk], the
    reverse entry of [p0] is poisoned, the forward entry becomes
    [(p->addr, p->block)] and the reverse entry of [p->addr] points back to
    [l_addr] through the map. *)
Theorem nvm_update_map_overwrite (h : lightnvm_h) (s : nvmd) (l_addr : Z)
    (p : nvm_addr) (is_gc : Z) (tm : nat) (map : list nvm_addr)
    (gp : nvm_addr) (b0 : nat) (blk : nvm_block) :
  l_addr < nr_pages s ->
  addr p < nr_pages s ->
  maps s !! tm = Some map ->
  nthZ map l_addr = Some gp ->
  block gp = Some b0 ->
  blocks s !! b0 = Some blk ->
  0 < nr_host_pages_in_blk s < 2 ^ 32 ->
  is_Some (nthZ (rev_trans_map s) (addr gp)) ->
  is_Some (nthZ (rev_trans_map s) (addr p)) ->
  Z.testbit (invalid_pages blk) (addr gp mod nr_host_pages_in_blk s) = false ->
  addr p <> addr gp ->
  exists s' blk' map' gp' r0',
    nvm_update_map h l_addr p is_gc tm s = Ok tt s' /\
    blocks s' !! b0 = Some blk' /\
    invalid_pages blk' =
      Z.setbit (invalid_pages blk) (addr gp mod nr_host_pages_in_blk s) /\
    bitmap_weight (invalid_pages blk') (nr_host_pages_in_blk s) =
      bitmap_weight (invalid_pages blk) (nr_host_pages_in_blk s) + 1 /\
    nthZ (rev_trans_map s') (addr gp) = Some r0' /\
    rv_addr r0' = LTOP_POISON h /\
    maps s' !! tm = Some map' /\
    nthZ map' l_addr = Some gp' /\
    addr gp' = addr p /\ block gp' = block p /\
    nthZ (rev_trans_map s') (addr p) = Some (mk_rev l_addr (Some tm)).
Proof.
  intros Hl Hp Hmap Hgp Hblock Hb Hn [r0 Hr0] Hrp Hclear Hne.
  rewrite (nvm_update_map_overwrite_run h s l_addr p is_gc tm map gp b0 blk
             r0) by assumption.
  cbv zeta. rewrite Hclear.
  destruct Hrp as [r Hr].
  destruct (nthZ_Some _ _ _ Hr) as [Hp0 _].
  destruct (nthZ_Some _ _ _ Hr0) as [Hg0 _].
  pose proof (Z.mod_pos_bound (addr gp) (nr_host_pages_in_blk s) ltac:(lia))
    as Hoff.
  eexists _, _, _, _, _. split; [reflexivity|]. fields.
  split; [apply list_lookup_insert_eq; eapply lookup_lt_Some; exact Hb|].
  cbn.
  split; [reflexivity|].
  split; [rewrite bitmap_weight_setbit by exact Hoff; rewrite Hclear; lia|].
  split.
  { rewrite nthZ_insert_ne by (lia || congruence).
    eapply nthZ_insert_eq. exact Hr0. }
  split; [reflexivity|].
  split; [apply list_lookup_insert_eq; eapply lookup_lt_Some; exact Hmap|].
  split; [eapply nthZ_insert_eq; exact Hgp|].
  split; [reflexivity|]. split; [reflexivity|].
  eapply nthZ_insert_eq. rewrite nthZ_insert_ne by (lia || congruence).
  exact Hr.
Qed.

Lemma nvm_update_map_overwrite_witness :
  exists s' blk' map' gp' r0',
    nvm_update_map example_h 3 (mk_addr 6 (Some 0%nat) None) 0 trans_map
      example_dev_written = Ok tt s' /\
    blocks s' !! 0%nat = Some blk' /\
    invalid_pages blk' = Z.setbit 0 5 /\
    bitmap_weight (invalid_pages blk') 8 = 1 /\
    nthZ (rev_trans_map s') 5 = Some r0' /\
    rv_addr r0' = LTOP_POISON example_h /\
    maps s' !! trans_map = Some map' /\
    nthZ map' 3 = Some gp' /\
    addr gp' = 6 /\ block gp' = Some 0%nat /\
    nthZ (rev_trans_map s') 6 = Some (mk_rev 3 (Some trans_map)).
Proof.
  apply (nvm_update_map_overwrite example_h example_dev_written 3
           (mk_addr 6 (Some 0%nat) None) 0 trans_map
           (<[3%nat := mk_addr 5 (Some 0%nat) None]>
              (replicate 64 (mk_addr 0 None None)))
           (mk_addr 5 (Some 0%nat) None) 0
           (set_cursor 5 1 (open_block 0 0))).
  - cbn; lia.
  - cbn; lia.
  - reflexivity.
  - reflexivity.
  - reflexivity.
  - reflexivity.
  - cbn; lia.
  - eexists; reflexivity.
  - eexists; reflexivity.
  - reflexivity.
  - cbn; lia.
Defined.

(** C1 as it is worded fails twice.  When the page of the old entry is
    marked invalid already, the bitmap gains no bit (the code warns and
    counts on); and when the new address is the old one, its reverse entry
    ends up pointing back to [l_addr], not poisoned. *)
Lemma nvm_update_map_overwrite_not_always :
  (exists s' blk blk',
      blocks example_dev_stale !! 0%nat = Some blk /\
      nvm_update_map example_h 3 (mk_addr 6 (Some 0%nat) None) 0 trans_map
        example_dev_stale = Ok tt s' /\
      blocks s' !! 0%nat = Some blk' /\
      invalid_pages blk' = invalid_pages blk)
  /\ (exists s' r,
      nvm_update_map example_h 3 (mk_addr 5 (Some 0%nat) None) 0 trans_map
        example_dev_written = Ok tt s' /\
      nthZ (rev_trans_map s') 5 = Some r /\
      rv_addr r <> LTOP_POISON example_h).
Proof.
  split.
  - eexists _, _, _. split; [reflexivity|].
    split; [vm_compute; reflexivity|]. split; reflexivity.
  - eexists _, _. split; [vm_compute; reflexivity|].
    split; [reflexivity|]. cbn. discriminate.
Qed.

(** ** Allocation from an append point *)

(** C3 (a defect of the code): a GC request that finds the current block
    full, no free block in the pool and [gc_cur] full as well does not
    return null.  [ap->gc_cur->ap = ap] follows the null pointer that
    [nvm_pool_get_block] has just returned, before the test [!p_block]. *)
Theorem nvm_alloc_addr_from_ap_gc_exhausted (h : lightnvm_h)
    (hook : option (nat -> M unit)) (s : nvmd) (ai : nat) (a : nvm_ap)
    (c g : nat) (cb gb : nvm_block) (pl : nvm_pool) (is_gc : Z) :
  aps s !! ai = Some a ->
  addr_pool s <> 0%nat ->
  ap_cur a = Some c ->
  blocks s !! c = Some cb ->
  pools s !! blk_pool cb = Some pl ->
  block_is_full h (nr_host_pages_in_blk s) cb = true ->
  free_list pl = [] ->
  is_gc <> 0 ->
  ap_gc_cur a = Some g ->
  blocks s !! g = Some gb ->
  is_Some (pools s !! blk_pool gb) ->
  block_is_full h (nr_host_pages_in_blk s) gb = true ->
  nvm_alloc_addr_from_ap h hook (Some ai) is_gc s = Oops NullDeref.
Proof.
  intros Ha Hmem Hcur Hcb Hpl Hcfull Hfree Hgc Hgcur Hgb [gpl Hgpl] Hgfull.
  apply Z.eqb_neq in Hgc.
  unfold nvm_alloc_addr_from_ap, mempool_alloc_addr. kern.
  rewrite Ha. cbn.
  destruct (addr_pool s) as [|k]; [congruence|]. cbn.
  unfold alloc_addr_gc, nvm_alloc_phys_addr, __nvm_alloc_phys_addr,
    nvm_pool_get_block, show_pool. kern. fields.
  repeat first
    [ rewrite Ha | rewrite Hcur | rewrite Hcb | rewrite Hpl | rewrite Hcfull
    | rewrite Hfree | rewrite Hgc | rewrite Hgcur | rewrite Hgb
    | rewrite Hgpl | rewrite Hgfull | rewrite Z.eqb_refl | progress cbn ].
  reflexivity.
Qed.

Lemma nvm_alloc_addr_from_ap_gc_exhausted_witness :
  nvm_alloc_addr_from_ap example_h None (Some 0%nat) 1 example_dev_exhausted
  = Oops NullDeref.
Proof.
  apply (nvm_alloc_addr_from_ap_gc_exhausted example_h None
           example_dev_exhausted 0
           (mk_ap 0 (Some 0%nat) (Some 1%nat) 25 500 (0, 0))
           0 1 (set_cursor 8 0 (open_block 0 0))
           (set_cursor 8 0 (open_block 1 0))
           (mk_pool 0 [] [0; 1; 2; 3]%nat [] 0 [] 0 None) 1).
  - reflexivity.
  - cbn; lia.
  - reflexivity.
  - reflexivity.
  - reflexivity.
  - reflexivity.
  - reflexivity.
  - lia.
  - reflexivity.
  - reflexivity.
  - eexists; reflexivity.
  - reflexivity.
Defined.

(** The host request on the same device comes back with null, as the GC
    request was meant to. *)
Lemma nvm_alloc_addr_from_ap_host_exhausted :
  exists s',
    nvm_alloc_addr_from_ap example_h None (Some 0%nat) 0 example_dev_exhausted
    = Ok None s'.
Proof. eexists. vm_compute. reflexivity. Qed.

(** ** Reads *)

Lemma zero_fill_vecs_pages (vs : list bio_vec) (s : nvmd) :
  Forall own_page vs -> zero_fill_vecs vs s = Ok (map zero_vec vs) s.
Proof.
  induction 1 as [|v vs Hv _ IH]; [reflexivity|].
  destruct v as [bytes|b i]; [|destruct Hv].
  cbn. kern. rewrite IH. reflexivity.
Qed.

Lemma unlock_fresh (l : Z) (held : list Z) :
  existsb (Z.eqb l) held = false ->
  List.filter (fun a => negb (a =? l)) held = held.
Proof.
  induction held as [|a held IH]; [reflexivity|].
  cbn. intros Hex. apply orb_false_iff in Hex as [Ha Hrest].
  rewrite Z.eqb_sym, Ha. cbn. f_equal. apply IH. exact Hrest.
Qed.

(** C7: a read of a logical page that was never written (its forward entry
    has no block) is answered at once: the request is zero-filled and
    completed with status 0, the lock on the logical address is released,
    and blocks, pools, append points and both maps stay as they were. *)
Theorem nvm_read_bio_unwritten (h : lightnvm_h)
    (wait_add : list nat -> nat -> option Z -> list nat)
    (s : nvmd) (b : bio) (bio : nat) (fwd : list nvm_addr) (gp : nvm_addr) :
  let l_addr := bi_sector b / NR_PHY_IN_LOG h in
  bios s !! bio = Some b ->
  0 < NR_PHY_IN_LOG h ->
  0 <= bi_sector b ->
  l_addr < nr_pages s ->
  existsb (Z.eqb l_addr) (locked_addrs s) = false ->
  addr_pool s <> 0%nat ->
  maps s !! trans_map = Some fwd ->
  nthZ fwd l_addr = Some gp ->
  block gp = None ->
  Forall own_page (bi_io_vec b) ->
  exists s' b',
    nvm_read_bio h nvm_lookup_ltop wait_add bio s
    = Ok (DM_MAPIO_SUBMITTED h) s' /\
    bios s' !! bio = Some b' /\
    bi_io_vec b' = map zero_vec (bi_io_vec b) /\
    klog s' = EvBioEndio bio 0 :: klog s /\
    locked_addrs s' = locked_addrs s /\
    blocks s' = blocks s /\ pools s' = pools s /\ aps s' = aps s /\
    maps s' = maps s /\ rev_trans_map s' = rev_trans_map s /\
    deferred_bios s' = deferred_bios s /\
    addr_pool s' = addr_pool s /\ block_page_pool s' = block_page_pool s.
Proof.
  intros l_addr Hb Hnr Hsec Hl Hfree Hmem Hmap Hgp Hnone Hown.
  assert (Hlt : (bio < length (bios s))%nat) by (eapply lookup_lt_Some; eauto).
  assert (Hl0 : 0 <= l_addr) by (apply Z.div_pos; lia).
  unfold nvm_read_bio, nvm_lock_addr, nvm_lookup_ltop, nvm_lookup_ltop_map,
    mempool_alloc_addr, nvm_fill_bio_and_end, zero_fill_bio, bio_endio,
    mempool_free_addr, nvm_unlock_addr.
  kern. rewrite Hb.
  destruct (Z.eqb_spec (NR_PHY_IN_LOG h) 0) as [E|_]; [lia|].
  fold l_addr. rewrite Hfree. fields.
  destruct (Z.leb_spec 0 l_addr); [|lia].
  destruct (Z.ltb_spec l_addr (nr_pages s)); [|lia]. cbn.
  destruct (addr_pool s) as [|k] eqn:Hk; [congruence|]. fields.
  rewrite Hmap, Hgp, Hnone. cbn. rewrite Hb. cbn.
  rewrite list_lookup_insert_eq by exact Hlt. cbn.
  rewrite list_lookup_insert_eq by (rewrite length_insert; exact Hlt). cbn.
  rewrite zero_fill_vecs_pages by exact Hown. cbn.
  rewrite list_lookup_insert_eq by (rewrite !length_insert; exact Hlt). cbn.
  eexists _, _. split; [reflexivity|]. cbn.
  split; [apply list_lookup_insert_eq; rewrite !length_insert; exact Hlt|].
  cbn. split; [reflexivity|]. split; [reflexivity|].
  split.
  { rewrite Z.eqb_refl. cbn. apply unlock_fresh. exact Hfree. }
  repeat split.
Qed.

Lemma nvm_read_bio_unwritten_witness :
  exists s' b',
    nvm_read_bio example_h nvm_lookup_ltop nvm_bio_wait_add 0 example_dev_read
    = Ok (DM_MAPIO_SUBMITTED example_h) s' /\
    bios s' !! 0%nat = Some b' /\
    bi_io_vec b' = [BvPage [0; 0; 0]] /\
    klog s' = [EvBioEndio 0 0] /\
    locked_addrs s' = [] /\
    blocks s' = blocks example_dev_read /\
    pools s' = pools example_dev_read /\
    maps s' = maps example_dev_read.
Proof.
  destruct (nvm_read_bio_unwritten example_h nvm_bio_wait_add example_dev_read
              example_read 0 (replicate 64 (mk_addr 0 None None))
              (mk_addr 0 None None))
    as (s' & b' & Hrun & Hb & Hv & Hk & Hlk & Hbl & Hp & _ & Hm & _).
  - reflexivity.
  - cbn; lia.
  - cbn; lia.
  - vm_compute; reflexivity.
  - reflexivity.
  - cbn; lia.
  - reflexivity.
  - reflexivity.
  - reflexivity.
  - repeat constructor.
  - exists s', b'. repeat split; assumption.
Defined.

(** ** Completion *)

Lemma s32_small (z : Z) : - 2 ^ 31 <= z < 2 ^ 31 -> s32 z = z.
Proof. intros Hz. unfold s32. rewrite Z.mod_small; lia. Qed.

Lemma wait_longer_returns (start d : Z) (ticks : list Z) (s : nvmd) :
  Exists (fun t => d <= u64 (Z.quot (t - start) 1000)) ticks ->
  exists s', wait_longer start d ticks s = Ok tt s' /\ same_blocks_prio s s' /\
             bios s' = bios s /\ addr_pool s' = addr_pool s /\
             per_bio_pool s' = per_bio_pool s /\
             block_page_pool s' = block_page_pool s.
Proof.
  intros Hex. revert s.
  induction Hex as [t later Ht | t later _ IH]; intros s; cbn; kern.
  - destruct (Z.gtb_spec d (u64 (Z.quot (t - start) 1000))); [lia|].
    eexists. split; [reflexivity|]. repeat split.
  - destruct (Z.gtb_spec d (u64 (Z.quot (t - start) 1000))).
    + destruct (u64 (d - u64 (Z.quot (t - start) 1000)) >? 1500);
        destruct (u64 (d - u64 (Z.quot (t - start) 1000)) >? 10);
        cbn; fields;
        match goal with
        | |- context [wait_longer start d later ?s1] =>
            destruct (IH s1)
              as (s'' & Hrun' & (Hb' & Hp' & Hc') & Hbio' & Ha' & Hpp' & Hbp')
        end;
        rewrite Hrun'; exists s''; (split; [reflexivity|]);
        repeat split; assumption.
    + eexists. split; [reflexivity|]. repeat split.
Qed.

Lemma endio_pace_returns (h : lightnvm_h)
    (hook : option (nat -> per_bio_data -> Z -> M Z)) (bio : nat)
    (pb : per_bio_data) (d d' : Z) (s : nvmd) :
  hook_sets_wait hook bio pb d d' ->
  paced h s pb d' ->
  exists s', endio_pace h hook bio pb d s = Ok tt s' /\
             same_blocks_prio s s' /\ bios s' = bios s /\
             block_page_pool s' = block_page_pool s.
Proof.
  intros Hhook Hpaced. unfold endio_pace. kern.
  assert (Hrun : match hook with
                 | Some f => f bio pb d
                 | None => fun s0 => Ok d s0
                 end s = Ok d' s).
  { destruct hook as [f|]; cbn in Hhook; [apply Hhook | subst; reflexivity]. }
  rewrite Hrun.
  destruct Hpaced as [Hoff | [Hzero | Hclock]].
  - apply Z.eqb_neq in Hoff. rewrite Hoff. cbn.
    exists s. repeat split.
  - subst d'. rewrite andb_false_r.
    exists s. repeat split.
  - destruct ((Z.land (config_flags s) (NVM_OPT_NO_WAITS h) =? 0)
              && negb (d' =? 0)).
    + destruct (wait_longer_returns (pb_start_tv pb) d' (clock s) s Hclock)
        as (s' & Hw & Hsame & Hbios & _ & _ & Hbpp).
      exists s'. repeat split; try assumption; apply Hsame.
    + exists s. repeat split.
Qed.

Lemma endio_finish_returns (h : lightnvm_h) (b b0 : bio) (bio : nat)
    (pb : per_bio_data) (pool : nat) (err : Z) (s : nvmd) :
  bios s !! bio = Some b0 ->
  is_Some (pools s !! pool) ->
  exists s', endio_finish h bio b pb pool err s = Ok tt s' /\
             same_blocks_prio s s' /\
             block_page_pool s' = block_page_pool s.
Proof.
  intros Hb0 [pl Hpl].
  unfold endio_finish, exit_pbd, bio_endio, mempool_free_addr, free_pbd,
    mempool_free_pbd. kern.
  destruct (negb (Z.land (config_flags s) (NVM_OPT_POOL_SERIALIZE h) =? 0)).
  - rewrite Hpl. fields. rewrite Hb0. cbn.
    destruct (pb_bi_end_io pb), (pb_orig_bio pb), (pb_event pb);
      try destruct (bio_data_dir b =? READ); cbn;
      (eexists; split; [reflexivity|]);
      (split; [|reflexivity]);
      (split; [reflexivity|]); (split; [|reflexivity]); cbn;
      rewrite list_fmap_insert; cbn;
      apply list_insert_id; rewrite list_lookup_fmap, Hpl; reflexivity.
  - rewrite Hb0. cbn.
    destruct (pb_bi_end_io pb), (pb_orig_bio pb), (pb_event pb);
      try destruct (bio_data_dir b =? READ); cbn;
      (eexists; split; [reflexivity|]); repeat split.
Qed.

(** C9: when a write completes, [nvm_endio] adds one to [data_cmnt_size];
    if the new count is [nr_host_pages_in_blk] the staging buffer is
    released (it goes back to its mempool, which then holds one more, and
    [data] is null) and the block joins the tail of the [prio_list] of its
    pool; otherwise buffer, mempool and list stay as they were. *)
Theorem nvm_endio_write_commit (h : lightnvm_h)
    (hook : option (nat -> per_bio_data -> Z -> M Z)) (s : nvmd) (b : bio)
    (bio : nat) (err : Z) (pb : per_bio_data) (p : nvm_addr) (bi : nat)
    (blk : nvm_block) (ai : nat) (a : nvm_ap) (pl : nvm_pool) (d' : Z) :
  bios s !! bio = Some b ->
  bi_private b = PtrObj pb ->
  bio_data_dir b = WRITE ->
  pb_addr pb = Some p ->
  block p = Some bi ->
  blocks s !! bi = Some blk ->
  pb_ap pb = Some ai ->
  aps s !! ai = Some a ->
  ap_pool a = blk_pool blk ->
  pools s !! blk_pool blk = Some pl ->
  0 <= data_cmnt_size blk < 2 ^ 31 - 1 ->
  hook_sets_wait hook bio pb (t_write a) d' ->
  paced h s pb d' ->
  exists s' blk' pl',
    nvm_endio h hook bio err s = Ok tt s' /\
    blocks s' !! bi = Some blk' /\
    pools s' !! blk_pool blk = Some pl' /\
    data_cmnt_size blk' = data_cmnt_size blk + 1 /\
    (data_cmnt_size blk + 1 = nr_host_pages_in_blk s ->
     data blk' = None /\ prio_list pl' = prio_list pl ++ [bi] /\
     (is_Some (data blk) -> block_page_pool s' = S (block_page_pool s)) /\
     (data blk = None -> block_page_pool s' = block_page_pool s)) /\
    (data_cmnt_size blk + 1 <> nr_host_pages_in_blk s ->
     data blk' = data blk /\ prio_list pl' = prio_list pl /\
     block_page_pool s' = block_page_pool s).
Proof.
  intros Hb Hpriv Hdir Hp Hblock Hblk Hap Ha Hpool Hpl Hcnt Hhook Hpaced.
  assert (Hlt : (bi < length (blocks s))%nat) by (eapply lookup_lt_Some; eauto).
  assert (Hplt : (blk_pool blk < length (pools s))%nat)
    by (eapply lookup_lt_Some; eauto).
  (* the accounting *)
  assert (Hacc : exists s1 blk' pl',
             endio_account b (Some bi) a
               (set_locked_addrs
                  (List.filter (fun x => negb (x =? pb_l_addr pb))
                     (locked_addrs s)) s)
             = Ok (t_write a) s1 /\
             blocks s1 !! bi = Some blk' /\
             pools s1 !! blk_pool blk = Some pl' /\
             bios s1 = bios s /\ clock s1 = clock s /\
             config_flags s1 = config_flags s /\
             data_cmnt_size blk' = data_cmnt_size blk + 1 /\
             (data_cmnt_size blk + 1 = nr_host_pages_in_blk s ->
              data blk' = None /\ prio_list pl' = prio_list pl ++ [bi] /\
              (is_Some (data blk) ->
               block_page_pool s1 = S (block_page_pool s)) /\
              (data blk = None -> block_page_pool s1 = block_page_pool s)) /\
             (data_cmnt_size blk + 1 <> nr_host_pages_in_blk s ->
              data blk' = data blk /\ prio_list pl' = prio_list pl /\
              block_page_pool s1 = block_page_pool s)).
  { unfold endio_account, mempool_free_block_pages. kern.
    rewrite Hdir. cbn. fields. rewrite Hblk. cbn.
    rewrite s32_small by lia. rewrite u32_small by lia.
    destruct (Z.eqb_spec (data_cmnt_size blk + 1) (nr_host_pages_in_blk s))
      as [Efull|Enot].
    - destruct (data blk) as [buf|]; cbn; rewrite Hpool, Hpl; cbn;
        (eexists _, _, _; split; [reflexivity|]); cbn;
        (split; [apply list_lookup_insert_eq; rewrite length_insert;
                 exact Hlt|]);
        (split; [apply list_lookup_insert_eq; exact Hplt|]);
        cbn; repeat split; try reflexivity; intros;
        try congruence;
        match goal with
        | H : is_Some None |- _ => destruct H; discriminate
        end.
    - cbn. eexists _, _, _. split; [reflexivity|]. cbn.
      split; [apply list_lookup_insert_eq; exact Hlt|].
      split; [exact Hpl|].
      cbn. repeat split; try reflexivity; intros; congruence. }
  destruct Hacc as (s1 & blk' & pl' & Hrun1 & Hblk' & Hpl' & Hbios1 & Hclk1
                    & Hcfg1 & Hinc & Hfull & Hnot).
  (* the wait *)
  assert (Hpaced1 : paced h s1 pb d').
  { unfold paced in *. rewrite Hcfg1, Hclk1. exact Hpaced. }
  destruct (endio_pace_returns h hook bio pb (t_write a) d' s1 Hhook Hpaced1)
    as (s2 & Hrun2 & (Hb2 & Hp2 & Hc2) & Hbios2 & Hbpp2).
  (* the completion *)
  assert (Hb0 : bios s2 !! bio = Some b) by congruence.
  assert (Hpool2 : is_Some (pools s2 !! ap_pool a)).
  { rewrite Hpool. apply lookup_lt_is_Some.
    rewrite <- (length_fmap prio_list), Hp2, length_fmap.
    eapply lookup_lt_Some. exact Hpl'. }
  destruct (endio_finish_returns h b b bio pb (ap_pool a) err s2 Hb0 Hpool2)
    as (s3 & Hrun3 & (Hb3 & Hp3 & Hc3) & Hbpp3).
  assert (Hprio : prio_list <$> pools s3 !! blk_pool blk
                  = Some (prio_list pl')).
  { rewrite <- list_lookup_fmap, Hp3, Hp2, list_lookup_fmap, Hpl'.
    reflexivity. }
  destruct (pools s3 !! blk_pool blk) as [pl3|] eqn:Hpl3; [|discriminate].
  cbn in Hprio. injection Hprio as Hprio.
  exists s3, blk', pl3.
  split.
  { unfold nvm_endio, nvm_unlock_addr. kern. rewrite Hb. cbn.
    rewrite Hpriv, Hp, Hap, Ha, Hblock. cbn.
    rewrite Hrun1. cbn. rewrite Hrun2. exact Hrun3. }
  split; [rewrite Hb3, Hb2; exact Hblk'|].
  split; [exact Hpl3|].
  split; [exact Hinc|].
  rewrite Hprio, Hbpp3, Hbpp2. split; assumption.
Qed.

Lemma nvm_endio_write_commit_witness :
  (exists s' blk' pl',
      nvm_endio example_h None 0 0 (example_dev_inflight 7 1 []) = Ok tt s' /\
      blocks s' !! 0%nat = Some blk' /\
      pools s' !! 0%nat = Some pl' /\
      data_cmnt_size blk' = 8 /\
      data blk' = None /\ prio_list pl' = [0%nat] /\
      block_page_pool s' = 5%nat)
  /\ (exists s' blk' pl',
      nvm_endio example_h None 0 0
        (example_dev_inflight 3 0 [100000; 600000]) = Ok tt s' /\
      blocks s' !! 0%nat = Some blk' /\
      pools s' !! 0%nat = Some pl' /\
      data_cmnt_size blk' = 4 /\
      data blk' = Some (replicate 8 []) /\ prio_list pl' = [] /\
      block_page_pool s' = 4%nat).
Proof.
  split.
  - destruct (nvm_endio_write_commit example_h None
                (example_dev_inflight 7 1 []) example_issue 0 0 example_pbd
                (mk_addr 7 (Some 0%nat) None) 0
                (set_data_cmnt_size 7
                   (set_data_size 8 (set_cursor 7 1 (open_block 0 0))))
                0 (mk_ap 0 (Some 0%nat) (Some 1%nat) 25 500 (0, 0))
                (mk_pool 0 [2; 3]%nat [0; 1]%nat [] 2 [] 0 None) 500)
      as (s' & blk' & pl' & Hrun & Hb & Hp & Hc & Hfull & _);
      try reflexivity.
    + vm_compute; split; [discriminate | reflexivity].
    + left. vm_compute. discriminate.
    + exists s', blk', pl'.
      destruct Hfull as (Hd & Hpr & Hfree & _); [reflexivity|].
      repeat split; try assumption.
      apply Hfree. eexists. reflexivity.
  - destruct (nvm_endio_write_commit example_h None
                (example_dev_inflight 3 0 [100000; 600000]) example_issue 0 0
                example_pbd (mk_addr 7 (Some 0%nat) None) 0
                (set_data_cmnt_size 3
                   (set_data_size 8 (set_cursor 7 1 (open_block 0 0))))
                0 (mk_ap 0 (Some 0%nat) (Some 1%nat) 25 500 (0, 0))
                (mk_pool 0 [2; 3]%nat [0; 1]%nat [] 2 [] 0 None) 500)
      as (s' & blk' & pl' & Hrun & Hb & Hp & Hc & _ & Hnot);
      try reflexivity.
    + vm_compute; split; [discriminate | reflexivity].
    + right. right. apply Exists_cons_tl, Exists_cons_hd.
      vm_compute. discriminate.
    + exists s', blk', pl'.
      destruct Hnot as (Hd & Hpr & Hkeep); [cbn; lia|].
      repeat split; assumption.
Defined.

(** ** Writes *)

(** C6, as amended: a call of [nvm_write_bio] that returns gives
    [NVM_WRITE_DEFERRED] or [NVM_WRITE_SUCCESS].  When [map_ltop] gives null
    to a host write ([is_gc = 0]) the logical address is unlocked, the
    request goes to [defer_bio], GC is kicked and the result is
    [NVM_WRITE_DEFERRED]; when [map_ltop] gives an address, and the child
    request is built and submitted, the result is [NVM_WRITE_SUCCESS]; a
    null mapping for a GC write is fatal ([BUG_ON(is_gc)]). *)
Theorem nvm_write_bio_result (h : lightnvm_h)
    (map_ltop : Z -> Z -> nat -> option Z -> M (option nvm_addr))
    (defer_bio : nat -> option nat -> M unit)
    (wait_add : list nat -> nat -> option Z -> list nat)
    (s : nvmd) (b : bio) (bio : nat) (is_gc : Z) (priv sync : option Z)
    (tm : nat) (complete_bio : Z) :
  let l_addr := bi_sector b / NR_PHY_IN_LOG h in
  let write :=
    nvm_write_bio h map_ltop defer_bio wait_add bio is_gc priv sync tm
      complete_bio in
  bios s !! bio = Some b ->
  NR_PHY_IN_LOG h <> 0 ->
  (forall r s',
      write s = Ok r s' ->
      (r = NVM_WRITE_DEFERRED h /\ is_gc = 0 /\
       exists s1, map_ltop l_addr is_gc tm priv s = Ok None s1) \/
      (r = NVM_WRITE_SUCCESS h /\
       exists p s1, map_ltop l_addr is_gc tm priv s = Ok (Some p) s1))
  /\ (forall s1 s2,
      map_ltop l_addr is_gc tm priv s = Ok None s1 ->
      is_gc = 0 ->
      defer_bio bio (Some tm)
        (set_locked_addrs
           (List.filter (fun a => negb (a =? l_addr)) (locked_addrs s1)) s1)
      = Ok tt s2 ->
      write s = Ok (NVM_WRITE_DEFERRED h) (set_klog (EvGcKick :: klog s2) s2))
  /\ (forall p s1 issue s2 s3,
      map_ltop l_addr is_gc tm priv s = Ok (Some p) s1 ->
      nvm_write_init_bio h bio p s1 = Ok issue s2 ->
      nvm_submit_bio h wait_add p l_addr WRITE issue
        (if negb (complete_bio =? 0) then Some bio else None) sync tm s2
      = Ok tt s3 ->
      write s = Ok (NVM_WRITE_SUCCESS h) s3)
  /\ (forall s1,
      map_ltop l_addr is_gc tm priv s = Ok None s1 ->
      is_gc <> 0 ->
      write s = Oops (BugOn BugGcWrite)).
Proof.
  intros l_addr write Hb Hnr. subst write.
  apply Z.eqb_neq in Hnr.
  unfold nvm_write_bio, nvm_unlock_addr, nvm_gc_kick. kern.
  rewrite Hb, Hnr. fold l_addr.
  split; [|split; [|split]].
  - intros r s'.
    destruct (map_ltop l_addr is_gc tm priv s) as [[p|] s1|f];
      [| |discriminate].
    + destruct (nvm_write_init_bio h bio p s1) as [issue s2|f];
        [|discriminate].
      destruct (nvm_submit_bio h wait_add p l_addr WRITE issue _ sync tm s2)
        as [[] s3|f]; [|discriminate].
      intros [= <- <-]. right. split; [reflexivity|]. eauto.
    + destruct (Z.eqb_spec is_gc 0) as [E|E]; cbn; [|discriminate].
      destruct (defer_bio bio (Some tm) _) as [[] s2|f]; [|discriminate].
      intros [= <- <-]. left. split; [reflexivity|]. split; [exact E|].
      eauto.
  - intros s1 s2 Hmap -> Hdefer. rewrite Hmap. cbn. fields.
    rewrite Hdefer. reflexivity.
  - intros p s1 issue s2 s3 Hmap Hinit Hsub.
    rewrite Hmap, Hinit, Hsub. reflexivity.
  - intros s1 Hmap Hgc. rewrite Hmap.
    apply Z.eqb_neq in Hgc. rewrite Hgc. reflexivity.
Qed.

Lemma nvm_write_bio_result_witness :
  (exists s',
      nvm_write_bio example_h (nvm_map_ltop_rr example_h None) nvm_defer_bio
        nvm_bio_wait_add 0 0 None None trans_map 1 example_dev_write_low
      = Ok (NVM_WRITE_DEFERRED example_h) s' /\
      locked_addrs s' = [] /\ deferred_bios s' = [0%nat] /\
      In EvGcKick (klog s'))
  /\ (exists s',
      nvm_write_bio example_h (nvm_map_ltop_rr example_h None) nvm_defer_bio
        nvm_bio_wait_add 0 0 None None trans_map 1 example_dev_write
      = Ok (NVM_WRITE_SUCCESS example_h) s' /\
      klog s' = [EvSubmitBio 1 1]).
Proof.
  split.
  - destruct (nvm_write_bio_result example_h (nvm_map_ltop_rr example_h None)
                nvm_defer_bio nvm_bio_wait_add example_dev_write_low
                example_write 0 0 None None trans_map 1 eq_refl)
      as (_ & Hdefer & _); [cbn; lia|].
    evar (s1 : nvmd).
    assert (H1 : nvm_map_ltop_rr example_h None
                   (bi_sector example_write / NR_PHY_IN_LOG example_h) 0
                   trans_map None example_dev_write_low = Ok None s1)
      by (subst s1; vm_compute; reflexivity).
    pose proof (Hdefer s1 _ H1 eq_refl eq_refl) as Hrun.
    eexists. split; [exact Hrun|].
    subst s1. vm_compute. split; [reflexivity|]. split; [reflexivity|].
    left. reflexivity.
  - destruct (nvm_write_bio_result example_h (nvm_map_ltop_rr example_h None)
                nvm_defer_bio nvm_bio_wait_add example_dev_write
                example_write 0 0 None None trans_map 1 eq_refl)
      as (_ & _ & Hsucc & _); [cbn; lia|].
    evar (p : nvm_addr). evar (s1 : nvmd).
    assert (H1 : nvm_map_ltop_rr example_h None
                   (bi_sector example_write / NR_PHY_IN_LOG example_h) 0
                   trans_map None example_dev_write = Ok (Some p) s1)
      by (subst p s1; vm_compute; reflexivity).
    evar (issue : nat). evar (s2 : nvmd).
    assert (H2 : nvm_write_init_bio example_h 0 p s1 = Ok issue s2)
      by (subst p s1 issue s2; vm_compute; reflexivity).
    evar (s3 : nvmd).
    assert (H3 : nvm_submit_bio example_h nvm_bio_wait_add p
                   (bi_sector example_write / NR_PHY_IN_LOG example_h) WRITE
                   issue (if negb (1 =? 0) then Some 0%nat else None) None
                   trans_map s2 = Ok tt s3)
      by (subst p s1 issue s2 s3; vm_compute; reflexivity).
    pose proof (Hsucc p s1 issue s2 s3 H1 H2 H3) as Hrun.
    eexists. split; [exact Hrun|].
    subst s3. reflexivity.
Defined.

(** C6 as it is worded fails: a GC write whose mapping fails, here for want
    of an address handle, returns neither code; the call stops at
    [BUG_ON(is_gc)]. *)
Lemma nvm_write_bio_gc_unmapped :
  (exists s1,
      nvm_map_ltop_rr example_h None 5 1 trans_map None example_dev_write_nomem
      = Ok None s1)
  /\ nvm_write_bio example_h (nvm_map_ltop_rr example_h None) nvm_defer_bio
       nvm_bio_wait_add 0 1 None None trans_map 1 example_dev_write_nomem
     = Oops (BugOn BugGcWrite).
Proof.
  split; [eexists|]; vm_compute; reflexivity.
Qed.

(** * Further properties of core.c *)

(** ** Running the monad *)

Lemma bind_Ok {A B} (m : M A) (k : A -> M B) (s : nvmd) (r : B) (s' : nvmd) :
  bind m k s = Ok r s' ->
  exists a s1, m s = Ok a s1 /\ k a s1 = Ok r s'.
Proof.
  unfold bind. destruct (m s) as [a s1|f]; [|discriminate].
  intros Hk. exists a, s1. split; [reflexivity | exact Hk].
Qed.

Lemma hook_inert_run (hook : option (nat -> M unit)) (b : nat) (s : nvmd) :
  hook_inert hook ->
  match hook with Some f => f b | None => ret tt end s = Ok tt s.
Proof. destruct hook as [f|]; cbn; intros Hh; [apply Hh | reflexivity]. Qed.

(** ** Physical addresses of a block *)

(** [__nvm_alloc_phys_addr] on a block that is there, in full. *)
Lemma alloc_phys_addr_exact (h : lightnvm_h) (hook : option (nat -> M unit))
    (ps : option (nvmd -> Z -> bool)) (s : nvmd) (b : nat) (blk : nvm_block) :
  blocks s !! b = Some blk ->
  is_Some (pools s !! blk_pool blk) ->
  hook_inert hook ->
  __nvm_alloc_phys_addr h hook (Some b) ps s =
  if block_is_full h (nr_host_pages_in_blk s) blk
     || ((next_offset blk =? NR_HOST_PAGES_IN_FLASH_PAGE h) &&
         match ps with
         | Some f => negb (f s (u32 (next_page blk + 1)))
         | None => false
         end)
  then Ok (LTOP_EMPTY h) s
  else
    let pg := if next_offset blk =? NR_HOST_PAGES_IN_FLASH_PAGE h
              then u32 (next_page blk + 1) else next_page blk in
    let off := if next_offset blk =? NR_HOST_PAGES_IN_FLASH_PAGE h
               then 0 else next_offset blk in
    Ok (u64 (block_to_addr h (nr_host_pages_in_blk s) blk
             + u32 (pg * NR_HOST_PAGES_IN_FLASH_PAGE h) + off))
       (set_blocks (<[b := set_cursor pg (u32 (off + 1)) blk]> (blocks s)) s).
Proof.
  intros Hb [pl Hpl] Hhook.
  unfold __nvm_alloc_phys_addr. kern. cbn. rewrite Hb, Hpl.
  destruct (block_is_full h (nr_host_pages_in_blk s) blk); [reflexivity|].
  cbn.
  destruct ((next_offset blk =? NR_HOST_PAGES_IN_FLASH_PAGE h) && _);
    [reflexivity|].
  destruct (next_offset blk =? NR_HOST_PAGES_IN_FLASH_PAGE h); cbn;
    match goal with
    | |- context [match hook with Some f => f b | None => _ end ?s1] =>
        change (match hook with Some f => f b | None => fun s0 => Ok tt s0 end s1)
          with (match hook with Some f => f b | None => ret tt end s1);
        rewrite (hook_inert_run hook b s1 Hhook)
    end; reflexivity.
Qed.

(** X1: two allocations in a row in one block give two addresses in a row,
    also across the boundary of a flash page. *)
Theorem alloc_phys_addr_sequential (h : lightnvm_h)
    (hook : option (nat -> M unit)) (s : nvmd) (b : nat) (blk : nvm_block) :
  let NR := NR_HOST_PAGES_IN_FLASH_PAGE h in
  let base := block_to_addr h (nr_host_pages_in_blk s) blk in
  blocks s !! b = Some blk ->
  is_Some (pools s !! blk_pool blk) ->
  hook_inert hook ->
  (forall pg off,
      block_to_addr h (nr_host_pages_in_blk s) (set_cursor pg off blk) = base) ->
  block_is_full h (nr_host_pages_in_blk s) blk = false ->
  block_is_full h (nr_host_pages_in_blk s)
    (set_cursor
       (if next_offset blk =? NR then u32 (next_page blk + 1)
        else next_page blk)
       (u32 ((if next_offset blk =? NR then 0 else next_offset blk) + 1))
       blk) = false ->
  0 < NR ->
  0 <= next_offset blk <= NR ->
  0 <= next_page blk ->
  (next_page blk + 3) * NR < 2 ^ 32 ->
  0 <= base ->
  base + (next_page blk + 3) * NR < 2 ^ 64 ->
  exists a1 s1 a2 s2,
    nvm_alloc_phys_addr h hook (Some b) s = Ok a1 s1 /\
    nvm_alloc_phys_addr h hook (Some b) s1 = Ok a2 s2 /\
    a2 = a1 + 1.
Proof.
  intros NR base Hb Hpl Hhook Hbase Hfull Hroom HNR Hoff Hpg Hmul Hb0 Hmax.
  assert (Hlt : (b < length (blocks s))%nat) by (eapply lookup_lt_Some; eauto).
  unfold nvm_alloc_phys_addr.
  rewrite (alloc_phys_addr_exact h hook None s b blk Hb Hpl Hhook).
  rewrite Hfull, andb_false_r. cbn [orb]. cbv zeta.
  fold NR. fold base.
  eexists _, _. 
  match goal with
  | |- exists a2 s2, Ok _ ?s1 = _ /\ _ =>
      assert (Hb1 : exists blk1, blocks s1 !! b = Some blk1 /\
                blk1 = set_cursor
                         (if next_offset blk =? NR then u32 (next_page blk + 1)
                          else next_page blk)
                         (u32 ((if next_offset blk =? NR then 0
                                else next_offset blk) + 1)) blk)
        by (eexists; split; [apply list_lookup_insert_eq; exact Hlt
                            | reflexivity])
  end.
  destruct Hb1 as (blk1 & Hb1 & Hblk1).
  match goal with
  | |- exists a2 s2, Ok _ ?s1 = _ /\ _ =>
      rewrite (alloc_phys_addr_exact h hook None s1 b blk1 Hb1)
  end; [|subst blk1; exact Hpl | exact Hhook].
  assert (Hp1 : 0 <= next_page blk + 1 < 2 ^ 32) by nia.
  assert (Hnr32 : NR < 2 ^ 32) by nia.
  subst blk1. cbn [nr_host_pages_in_blk set_blocks].
  rewrite Hroom, Hbase, andb_false_r. cbn [orb]. cbv zeta.
  cbn [next_offset next_page set_cursor]. fold NR.
  eexists _, _. split; [reflexivity|]. split; [reflexivity|].
  destruct (Z.eqb_spec (next_offset blk) NR) as [E|E].
  - rewrite (u32_small (next_page blk + 1)) by lia.
    rewrite (u32_small (0 + 1)) by lia.
    destruct (Z.eqb_spec (0 + 1) NR) as [E1|E1].
    + rewrite (u32_small (next_page blk + 1 + 1)) by lia.
      rewrite !(u32_small (_ * NR)) by nia.
      unfold u64. rewrite !Z.mod_small by nia. nia.
    + rewrite !(u32_small (_ * NR)) by nia.
      unfold u64. rewrite !Z.mod_small by nia. nia.
  - rewrite (u32_small (next_offset blk + 1)) by lia.
    destruct (Z.eqb_spec (next_offset blk + 1) NR) as [E1|E1].
    + rewrite (u32_small (next_page blk + 1)) by lia.
      rewrite !(u32_small (_ * NR)) by nia.
      unfold u64. rewrite !Z.mod_small by nia. nia.
    + rewrite !(u32_small (_ * NR)) by nia.
      unfold u64. rewrite !Z.mod_small by nia. nia.
Qed.

Lemma alloc_phys_addr_sequential_witness :
  exists a1 s1 a2 s2,
    nvm_alloc_phys_addr example_h None (Some 0%nat) example_dev = Ok a1 s1 /\
    nvm_alloc_phys_addr example_h None (Some 0%nat) s1 = Ok a2 s2 /\
    a2 = a1 + 1.
Proof.
  apply (alloc_phys_addr_sequential example_h None example_dev 0
           (open_block 0 0));
    first [reflexivity | exact I | eexists; reflexivity | cbn; lia].
Defined.

(** ** Returning a block to its pool *)

Lemma list_del_gone (b : nat) (l : list nat) : b ∉ list_del b l.
Proof.
  unfold list_del. intros Hin. apply list_elem_of_In, filter_In in Hin.
  destruct Hin as [_ Hneq]. rewrite Nat.eqb_refl in Hneq. discriminate.
Qed.

(** X2: [nvm_pool_put_block] takes the block off the list it is on and
    puts it at the tail of the free list of its pool, which then counts one
    more; the block itself is left as it was (it is reset when handed out
    again, not before) and the [prio_list] is not touched.  Nothing else
    changes: the other fields of the pool, the pools that do not list the
    block, and every field of the device beside the pools, the two
    mempools among them. *)
Theorem nvm_pool_put_block_spec (s : nvmd) (b : nat) (blk : nvm_block)
    (pl : nvm_pool) :
  blocks s !! b = Some blk ->
  pools s !! blk_pool blk = Some pl ->
  exists s' pl',
    nvm_pool_put_block (Some b) s = Ok tt s' /\
    pools s' !! blk_pool blk = Some pl' /\
    free_list pl' = list_del b (free_list pl) ++ [b] /\
    (b ∉ free_list pl -> free_list pl' = free_list pl ++ [b]) /\
    used_list pl' = list_del b (used_list pl) /\
    (b ∉ used_list pl') /\
    nr_free_blocks pl' = u32 (nr_free_blocks pl + 1) /\
    prio_list <$> pools s' = prio_list <$> pools s /\
    blocks s' = blocks s /\
    beside_blocks s' = beside_blocks s /\
    pl' = set_lists (list_del b (free_list pl) ++ [b])
            (list_del b (used_list pl)) (u32 (nr_free_blocks pl + 1)) pl /\
    length (pools s') = length (pools s) /\
    (forall j q, j <> blk_pool blk -> pools s !! j = Some q ->
                 b ∉ free_list q -> b ∉ used_list q ->
                 pools s' !! j = Some q) /\
    beside_pools s' = beside_pools s.
Proof.
  intros Hb Hpl.
  assert (Hlt : (blk_pool blk < length (pools s))%nat)
    by (eapply lookup_lt_Some; eauto).
  unfold nvm_pool_put_block. kern. rewrite Hb. fields.
  rewrite list_lookup_fmap, Hpl. cbn.
  eexists _, _. split; [reflexivity|]. cbn.
  split; [apply list_lookup_insert_eq; rewrite length_map; exact Hlt|].
  cbn. split; [reflexivity|].
  split; [intros Hnot; rewrite list_del_absent by exact Hnot; reflexivity|].
  split; [reflexivity|].
  split; [apply list_del_gone|].
  split; [reflexivity|].
  split.
  { rewrite list_fmap_insert. cbn.
    rewrite <- list_fmap_compose.
    apply list_insert_id. rewrite list_lookup_fmap, Hpl. reflexivity. }
  do 3 (split; [reflexivity|]).
  split; [rewrite length_insert, length_map; reflexivity|].
  split; [|reflexivity].
  intros j q Hj Hq Hfree Hused.
  rewrite list_lookup_insert_ne by congruence.
  change (map ?f (pools s)) with (f <$> pools s).
  rewrite list_lookup_fmap, Hq. cbn.
  rewrite !list_del_absent by assumption.
  destruct q. reflexivity.
Qed.

Lemma nvm_pool_put_block_spec_witness :
  exists s' pl',
    nvm_pool_put_block (Some 0%nat) example_dev = Ok tt s' /\
    pools s' !! 0%nat = Some pl' /\
    free_list pl' = [2; 3; 0]%nat /\
    used_list pl' = [1%nat] /\
    nr_free_blocks pl' = 3 /\
    blocks s' = blocks example_dev /\
    pools s' !! 1%nat = pools example_dev !! 1%nat /\
    beside_pools s' = beside_pools example_dev.
Proof.
  destruct (nvm_pool_put_block_spec example_dev 0 (open_block 0 0)
              (mk_pool 0 [2; 3]%nat [0; 1]%nat [] 2 [] 0 None)
              eq_refl eq_refl)
    as (s' & pl' & Hrun & Hp & Hf & _ & Hu & _ & Hn & _ & Hb & _ & _ & _
        & Hothers & Hbeside).
  exists s', pl'.
  split; [exact Hrun|]. split; [exact Hp|]. split; [exact Hf|].
  split; [exact Hu|]. split; [exact Hn|]. split; [exact Hb|].
  split; [|exact Hbeside].
  apply Hothers; [discriminate | reflexivity | |]; cbn; intros Hin;
    repeat (apply elem_of_cons in Hin as [Hin|Hin]; [discriminate|]);
    inversion Hin.
Defined.

(** ** The current block of an append point *)

(** X3: [nvm_set_ap_cur] makes the block the current one of the append
    point and points it back to the append point, also when it was current
    already; another outgoing block loses its back pointer, and a warning is
    logged exactly when the outgoing block is not full.  The GC block of the
    append point and the pools stay as they were. *)
Theorem nvm_set_ap_cur_spec (h : lightnvm_h) (s : nvmd) (ai : nat)
    (a : nvm_ap) (bi : nat) (nb : nvm_block) :
  aps s !! ai = Some a ->
  blocks s !! bi = Some nb ->
  (forall c, ap_cur a = Some c -> is_Some (blocks s !! c)) ->
  exists s' a' nb',
    nvm_set_ap_cur h (Some ai) (Some bi) s = Ok tt s' /\
    aps s' !! ai = Some a' /\
    ap_cur a' = Some bi /\ ap_gc_cur a' = ap_gc_cur a /\
    blocks s' !! bi = Some nb' /\
    blk_ap nb' = Some ai /\
    (forall c cb, ap_cur a = Some c -> c <> bi -> blocks s !! c = Some cb ->
                  blocks s' !! c = Some (set_blk_ap None cb)) /\
    (forall j, ap_cur a <> Some j -> j <> bi ->
               blocks s' !! j = blocks s !! j) /\
    klog s' =
      match ap_cur a with
      | Some c =>
          match blocks s !! c with
          | Some cb =>
              if block_is_full h (nr_host_pages_in_blk s) cb then klog s
              else EvWarn WarnCurNotFull :: klog s
          | None => klog s
          end
      | None => klog s
      end /\
    pools s' = pools s /\ beside_blocks s' = beside_blocks s.
Proof.
  intros Ha Hnb Hcur.
  assert (Hai : (ai < length (aps s))%nat) by (eapply lookup_lt_Some; eauto).
  assert (Hbi : (bi < length (blocks s))%nat) by (eapply lookup_lt_Some; eauto).
  unfold nvm_set_ap_cur. kern. cbn. rewrite Ha. cbn.
  destruct (ap_cur a) as [c|] eqn:Hc.
  - destruct (Hcur c eq_refl) as [cb Hcb]. rewrite Hcb. cbn.
    assert (Hci : (c < length (blocks s))%nat)
      by (eapply lookup_lt_Some; eauto).
    destruct (block_is_full h (nr_host_pages_in_blk s) cb); fields;
      (destruct (Nat.eq_dec c bi) as [->|Hne];
       [ rewrite list_lookup_insert_eq by exact Hbi
       | rewrite list_lookup_insert_ne, Hnb by exact Hne ]);
      cbn; eexists _, _, _; (split; [reflexivity|]); cbn;
      (split; [apply list_lookup_insert_eq; exact Hai|]); cbn;
      (split; [reflexivity|]); (split; [reflexivity|]);
      (split; [apply list_lookup_insert_eq; rewrite ?length_insert;
               exact Hbi|]);
      (split; [reflexivity|]);
      (split; [intros c' cb' [= <-] Hne' Hcb';
               rewrite list_lookup_insert_ne by congruence;
               rewrite list_lookup_insert_eq by exact Hci; congruence|]);
      (split; [intros j Hj Hjb;
               rewrite !list_lookup_insert_ne by congruence; reflexivity|]);
      repeat split.
  - fields. rewrite Hnb. cbn.
    eexists _, _, _. split; [reflexivity|]. cbn.
    split; [apply list_lookup_insert_eq; exact Hai|]. cbn.
    split; [reflexivity|]. split; [reflexivity|].
    split; [apply list_lookup_insert_eq; exact Hbi|].
    split; [reflexivity|].
    split; [intros c' cb' [=]|].
    split; [intros j Hj Hjb; apply list_lookup_insert_ne; congruence|].
    repeat split.
Qed.

Lemma nvm_set_ap_cur_spec_witness :
  exists s' a' nb',
    nvm_set_ap_cur example_h (Some 0%nat) (Some 2%nat) example_dev
    = Ok tt s' /\
    aps s' !! 0%nat = Some a' /\ ap_cur a' = Some 2%nat /\
    blocks s' !! 2%nat = Some nb' /\ blk_ap nb' = Some 0%nat /\
    blocks s' !! 0%nat = Some (set_blk_ap None (open_block 0 0)) /\
    klog s' = [EvWarn WarnCurNotFull].
Proof.
  destruct (nvm_set_ap_cur_spec example_h example_dev 0
              (mk_ap 0 (Some 0%nat) (Some 1%nat) 25 500 (0, 0)) 2
              (fresh_block 2 0) eq_refl eq_refl)
    as (s' & a' & nb' & Hrun & Ha & Hc & _ & Hb & Hap & Hold & _ & Hk & _).
  - intros c [= <-]. eexists; reflexivity.
  - exists s', a', nb'.
    split; [exact Hrun|]. split; [exact Ha|]. split; [exact Hc|].
    split; [exact Hb|]. split; [exact Hap|].
    split; [apply (Hold 0%nat); [reflexivity | lia | reflexivity]|].
    exact Hk.
Defined.

(** ** Addresses from an append point *)

#[local] Arguments __nvm_alloc_phys_addr : simpl never.
#[local] Arguments nvm_pool_get_block : simpl never.
#[local] Arguments nvm_set_ap_cur : simpl never.

(** X4: a host write whose current block is full gets no address when the
    pool of the block holds fewer free blocks than there are append points:
    the reserve is left to the garbage collector.  The handle goes back to
    its mempool and the device is exactly as before. *)
Theorem nvm_alloc_addr_from_ap_host_reserve (h : lightnvm_h)
    (hook : option (nat -> M unit)) (s : nvmd) (ai : nat) (a : nvm_ap)
    (c : nat) (cb : nvm_block) (pl : nvm_pool) :
  aps s !! ai = Some a ->
  ap_cur a = Some c ->
  blocks s !! c = Some cb ->
  pools s !! blk_pool cb = Some pl ->
  hook_inert hook ->
  block_is_full h (nr_host_pages_in_blk s) cb = true ->
  free_list pl <> [] ->
  nr_free_blocks pl < nr_aps s ->
  nvm_alloc_addr_from_ap h hook (Some ai) 0 s = Ok None s.
Proof.
  intros Ha Hc Hcb Hpl Hh Hfull Hfl Hlow.
  destruct s as [np nh na cf nw bl ps ap mp rv bi df adp bpp pbp lk ck kl].
  cbn in *.
  unfold nvm_alloc_addr_from_ap, mempool_alloc_addr. kern. cbn.
  rewrite Ha. cbn.
  destruct adp as [|n]; [reflexivity|]. cbn.
  rewrite Hc. fields. rewrite Hcb. cbn. unfold set_addr_pool. cbn.
  unfold nvm_alloc_phys_addr.
  erewrite alloc_phys_addr_exact;
    [| cbn; exact Hcb | cbn; rewrite Hpl; eauto | exact Hh].
  cbn. rewrite Hfull. cbn. rewrite Z.eqb_refl.
  unfold nvm_pool_get_block. kern. cbn. rewrite Hpl. cbn.
  destruct (free_list pl) as [|b rest]; [congruence|].
  replace (nr_free_blocks pl <? na) with true by (symmetry; apply Z.ltb_lt; lia).
  cbn. rewrite Z.eqb_refl. unfold mempool_free_addr. kern. fields.
  reflexivity.
Qed.

Lemma nvm_alloc_addr_from_ap_host_reserve_witness :
  nvm_alloc_addr_from_ap example_h None (Some 0%nat) 0 example_dev_write_low
  = Ok None example_dev_write_low.
Proof.
  apply (nvm_alloc_addr_from_ap_host_reserve example_h None
           example_dev_write_low
           0%nat (mk_ap 0 (Some 0%nat) (Some 1%nat) 25 500 (0, 0)) 0%nat
           (set_cursor 8 0 (open_block 0 0))
           (mk_pool 0 [3]%nat [0; 1; 2]%nat [] 1 [] 0 None));
    first [reflexivity | exact I | discriminate | cbn; lia].
Defined.

(** [nvm_pool_get_block] when it hands out a block, and when it refuses one
    to the host. *)
Lemma nvm_pool_get_block_run (s : nvmd) (pi : nat) (pl : nvm_pool) (b : nat)
    (rest : list nat) (nb : nvm_block) (m : nat) (is_gc : Z) :
  pools s !! pi = Some pl ->
  free_list pl = b :: rest ->
  (is_gc =? 0) && (nr_free_blocks pl <? nr_aps s) = false ->
  blocks s !! b = Some nb ->
  is_Some (pools s !! blk_pool nb) ->
  block_page_pool s = S m ->
  nvm_pool_get_block (Some pi) is_gc s =
  Ok (Some b)
    (set_blocks
       (<[b := set_data
                 (Some (replicate (Z.to_nat (nr_host_pages_in_blk s)) []))
                 (mk_block (blk_id nb) (blk_pool nb) None 0 0 0
                    (bitmap_zero (invalid_pages nb) (nr_host_pages_in_blk s))
                    (data nb) 0 0 0)]> (blocks s))
       (set_block_page_pool m
          (set_pools
             (<[pi := set_lists rest (used_list pl ++ [b])
                        (u32 (nr_free_blocks pl - 1)) pl]> (pools s)) s))).
Proof.
  intros Hpl Hfl Hcond Hnb Hp Hbpp.
  assert (Hbl : (b < length (blocks s))%nat) by (eapply lookup_lt_Some; eauto).
  assert (Hp' : is_Some (<[pi := set_lists rest (used_list pl ++ [b])
                                   (u32 (nr_free_blocks pl - 1)) pl]> (pools s)
                         !! blk_pool nb))
    by (apply lookup_insert_is_Some'; exact Hp).
  destruct Hp' as [pl2 Hpl2].
  destruct s as [np nh na cf nw bl ps ap mp rv bi df adp bpp pbp lk ck kl].
  cbn in *. subst bpp.
  unfold nvm_pool_get_block. kern. cbn. rewrite Hpl. cbn. rewrite Hfl.
  rewrite Hcond. cbn.
  unfold nvm_reset_block, mempool_alloc_block_pages. kern. cbn.
  rewrite Hnb. cbn. rewrite Hpl2. cbn.
  rewrite list_lookup_insert_eq by exact Hbl. cbn.
  unfold set_blocks, set_block_page_pool, set_pools. cbn.
  rewrite list_insert_insert_eq. reflexivity.
Qed.

Lemma nvm_pool_get_block_refused (s : nvmd) (pi : nat) (pl : nvm_pool) :
  pools s !! pi = Some pl ->
  free_list pl <> [] ->
  nr_free_blocks pl < nr_aps s ->
  nvm_pool_get_block (Some pi) 0 s = Ok None s.
Proof.
  intros Hpl Hfl Hlow. unfold nvm_pool_get_block. kern. cbn.
  rewrite Hpl. cbn.
  destruct (free_list pl) as [|b rest]; [congruence|].
  replace (nr_free_blocks pl <? nr_aps s) with true
    by (symmetry; apply Z.ltb_lt; lia).
  reflexivity.
Qed.

Lemma nvm_pool_get_block_empty (s : nvmd) (pi : nat) (pl : nvm_pool)
    (is_gc : Z) :
  pools s !! pi = Some pl ->
  free_list pl = [] ->
  nvm_pool_get_block (Some pi) is_gc s =
  Ok None (set_klog (EvShowPool pi :: EvDmerr :: klog s) s).
Proof.
  intros Hpl Hfl. unfold nvm_pool_get_block, show_pool. kern. cbn.
  rewrite Hpl. cbn. rewrite Hfl. reflexivity.
Qed.




#[local] Arguments alloc_addr_gc : simpl never.

(** X6: a GC write whose append point has a full current block, in a pool
    down to its reserve, is served from the GC block of the append point
    while that block has room: the address is the next page of the GC block,
    the reserve stays on the free list and the current block stays. *)
Theorem nvm_alloc_addr_from_ap_gc_cur (h : lightnvm_h)
    (hook : option (nat -> M unit)) (s : nvmd) (ai : nat) (a : nvm_ap)
    (c : nat) (cb : nvm_block) (pl : nvm_pool) (g : nat) (gb : nvm_block)
    (n : nat) (is_gc : Z) :
  let NR := NR_HOST_PAGES_IN_FLASH_PAGE h in
  let pg := if next_offset gb =? NR then u32 (next_page gb + 1)
            else next_page gb in
  let off := if next_offset gb =? NR then 0 else next_offset gb in
  let pa := u64 (block_to_addr h (nr_host_pages_in_blk s) gb
                 + u32 (pg * NR) + off) in
  aps s !! ai = Some a ->
  ap_cur a = Some c ->
  blocks s !! c = Some cb ->
  pools s !! blk_pool cb = Some pl ->
  hook_inert hook ->
  block_is_full h (nr_host_pages_in_blk s) cb = true ->
  free_list pl <> [] ->
  nr_free_blocks pl < nr_aps s ->
  is_gc <> 0 ->
  addr_pool s = S n ->
  ap_gc_cur a = Some g ->
  blocks s !! g = Some gb ->
  is_Some (pools s !! blk_pool gb) ->
  block_is_full h (nr_host_pages_in_blk s) gb = false ->
  pa <> LTOP_EMPTY h ->
  nvm_alloc_addr_from_ap h hook (Some ai) is_gc s =
  Ok (Some (mk_addr pa (Some g) None))
    (set_blocks (<[g := set_cursor pg (u32 (off + 1)) gb]> (blocks s))
       (set_addr_pool n s)).
Proof.
  intros NR pg off pa Ha Hc Hcb Hpl Hh Hfull Hfl Hlow Hgc Hadp Hg Hgb Hgp
    Hroom Hpa.
  destruct s as [np nh na cf nw bl ps ap mp rv bi df adp bpp pbp lk ck kl].
  cbn in *. subst adp.
  unfold nvm_alloc_addr_from_ap, mempool_alloc_addr. kern. cbn.
  rewrite Ha. cbn. rewrite Hc. fields. rewrite Hcb. cbn.
  unfold set_addr_pool. cbn. unfold nvm_alloc_phys_addr.
  erewrite alloc_phys_addr_exact;
    [| cbn; exact Hcb | cbn; rewrite Hpl; eauto | exact Hh].
  cbn. rewrite Hfull. cbn. rewrite Z.eqb_refl.
  erewrite nvm_pool_get_block_refused;
    [| cbn; exact Hpl | exact Hfl | cbn; exact Hlow].
  cbn. replace (is_gc =? 0) with false by (symmetry; apply Z.eqb_neq; exact Hgc).
  cbn. unfold alloc_addr_gc, nvm_alloc_phys_addr. kern. cbn.
  rewrite Ha. cbn. rewrite Hg.
  erewrite alloc_phys_addr_exact;
    [| cbn; exact Hgb | cbn; exact Hgp | exact Hh].
  cbn. rewrite Hroom. cbn. rewrite andb_false_r. fold NR. fold pg. fold off.
  fold pa.
  replace (pa =? LTOP_EMPTY h) with false
    by (symmetry; apply Z.eqb_neq; exact Hpa).
  cbn.
  replace (pa =? LTOP_EMPTY h) with false
    by (symmetry; apply Z.eqb_neq; exact Hpa).
  fields. reflexivity.
Qed.

Lemma nvm_alloc_addr_from_ap_gc_cur_witness :
  exists s',
    nvm_alloc_addr_from_ap example_h None (Some 0%nat) 1 example_dev_write_low
    = Ok (Some (mk_addr 8 (Some 1%nat) None)) s' /\
    aps s' = aps example_dev_write_low /\
    pools s' = pools example_dev_write_low /\
    klog s' = [].
Proof.
  eexists. split.
  - apply (nvm_alloc_addr_from_ap_gc_cur example_h None example_dev_write_low
             0%nat (mk_ap 0 (Some 0%nat) (Some 1%nat) 25 500 (0, 0)) 0%nat
             (set_cursor 8 0 (open_block 0 0))
             (mk_pool 0 [3]%nat [0; 1; 2]%nat [] 1 [] 0 None) 1%nat
             (open_block 1 0) 3%nat 1);
      first [ reflexivity | exact I | discriminate
            | eexists; reflexivity | cbn; lia
            | vm_compute; discriminate ].
  - repeat split.
Defined.

(** ** What allocation leaves alone *)

(** Takes a successful run apart, innermost test first. *)
Ltac invert_run H :=
  repeat (cbn in H;
          match type of H with
          | context [match ?x with _ => _ end] =>
              lazymatch x with
              | context [match _ with _ => _ end] => fail
              | _ => destruct x eqn:?; try discriminate H
              end
          end).

Lemma nvm_pool_get_block_frame (s : nvmd) (pool : option nat) (is_gc : Z)
    (r : option nat) (s' : nvmd) :
  nvm_pool_get_block pool is_gc s = Ok r s' ->
  addr_pool s' = addr_pool s /\ aps s' = aps s /\
  beside_blocks s' = beside_blocks s.
Proof.
  intros H. unfold nvm_pool_get_block, nvm_reset_block,
    mempool_alloc_block_pages, show_pool in H. kern.
  invert_run H.
  all: injection H as <- <-; unfold beside_blocks; cbn; repeat split.
Qed.

Lemma nvm_set_ap_cur_frame (h : lightnvm_h) (s : nvmd) (ap block : option nat)
    (s' : nvmd) :
  nvm_set_ap_cur h ap block s = Ok tt s' ->
  addr_pool s' = addr_pool s /\ pools s' = pools s /\
  beside_blocks s' = beside_blocks s.
Proof.
  intros H. unfold nvm_set_ap_cur in H. kern.
  invert_run H.
  all: injection H as <-; unfold beside_blocks; cbn; repeat split.
Qed.

Lemma alloc_phys_addr_frame (h : lightnvm_h) (hook : option (nat -> M unit))
    (ps : option (nvmd -> Z -> bool)) (s : nvmd) (block : option nat)
    (a : Z) (s' : nvmd) :
  hook_inert hook ->
  __nvm_alloc_phys_addr h hook block ps s = Ok a s' ->
  is_Some block /\
  addr_pool s' = addr_pool s /\ aps s' = aps s /\ pools s' = pools s /\
  klog s' = klog s /\ beside_blocks s' = beside_blocks s.
Proof.
  intros Hh H. destruct block as [b|]; [|discriminate H].
  destruct (blocks s !! b) as [blk|] eqn:Hb;
    [|unfold __nvm_alloc_phys_addr in H; kern; cbn in H; rewrite Hb in H;
      discriminate H].
  destruct (pools s !! blk_pool blk) as [pl|] eqn:Hp;
    [|unfold __nvm_alloc_phys_addr in H; kern; cbn in H; rewrite Hb in H;
      cbn in H; rewrite Hp in H; discriminate H].
  rewrite (alloc_phys_addr_exact h hook ps s b blk Hb) in H
    by (first [exact Hh | rewrite Hp; eauto]).
  split; [eauto|].
  destruct (_ || _) in H; injection H as <- <-; unfold beside_blocks; cbn;
    repeat split.
Qed.

Lemma alloc_addr_gc_frame (h : lightnvm_h) (hook : option (nat -> M unit))
    (s : nvmd) (ap : option nat) (ai : nat) (pool : option nat)
    (pa : Z) (pb : option nat) (s' : nvmd) :
  hook_inert hook ->
  alloc_addr_gc h hook ap ai pool s = Ok (pa, pb) s' ->
  is_Some pb /\ addr_pool s' = addr_pool s /\
  beside_blocks s' = beside_blocks s.
Proof.
  intros Hh H. unfold alloc_addr_gc, nvm_alloc_phys_addr, show_all_pools in H.
  kern. invert_run H.
  all: injection H as <- <- <-.
  all: repeat match goal with
         | H : __nvm_alloc_phys_addr _ _ _ _ _ = Ok _ _ |- _ =>
             apply alloc_phys_addr_frame in H as (? & ? & ? & ? & ? & ?);
             [|exact Hh]
         | H : nvm_pool_get_block _ _ _ = Ok _ _ |- _ =>
             apply nvm_pool_get_block_frame in H as (? & ? & ?)
         end.
  all: unfold beside_blocks in *; cbn in *.
  all: split; [eauto|]; split; congruence.
Qed.

(** What a run of [nvm_alloc_addr_from_ap] can return, and what it leaves
    alone. *)
Lemma nvm_alloc_addr_from_ap_inv (h : lightnvm_h)
    (hook : option (nat -> M unit)) (s : nvmd) (ap : option nat) (is_gc : Z)
    (r : option nvm_addr) (s' : nvmd) :
  hook_inert hook ->
  nvm_alloc_addr_from_ap h hook ap is_gc s = Ok r s' ->
  beside_blocks s' = beside_blocks s /\
  match r with
  | None => addr_pool s' = addr_pool s
  | Some p =>
      addr_pool s = S (addr_pool s') /\
      addr p <> LTOP_EMPTY h /\ is_Some (block p) /\ private p = None
  end.
Proof.
  intros Hh H.
  unfold nvm_alloc_addr_from_ap, mempool_alloc_addr, mempool_free_addr,
    nvm_alloc_phys_addr in H.
  kern. invert_run H.
  all: injection H as <- <-.
  all: repeat match goal with
         | H : __nvm_alloc_phys_addr _ _ _ _ _ = Ok _ _ |- _ =>
             apply alloc_phys_addr_frame in H as (? & ? & ? & ? & ? & ?);
             [|exact Hh]
         | H : nvm_pool_get_block _ _ _ = Ok _ _ |- _ =>
             apply nvm_pool_get_block_frame in H as (? & ? & ?)
         | u : unit |- _ => destruct u
         | H : nvm_set_ap_cur _ _ _ _ = Ok _ _ |- _ =>
             apply nvm_set_ap_cur_frame in H as (? & ? & ?)
         | H : alloc_addr_gc _ _ _ _ _ _ = Ok _ _ |- _ =>
             apply alloc_addr_gc_frame in H as (? & ? & ?); [|exact Hh]
         | H : (_ =? _) = false |- _ => apply Z.eqb_neq in H
         end.
  all: unfold beside_blocks in *; cbn in *.
  all: split; [congruence|].
  all: try congruence.
  all: split; [congruence|]; split; [assumption|]; split; [|reflexivity].
  all: first [assumption | eexists; reflexivity].
Qed.


(** X7: [nvm_alloc_addr_from_ap] keeps count of its handles.  A run that
    returns null leaves the mempool of handles as full as it found it; a run
    that returns a handle has taken exactly one, and the handle names a
    block and an address other than [LTOP_EMPTY], with no private data.
    Either way the translation maps, the requests and the locks are not
    touched. *)
Theorem nvm_alloc_addr_from_ap_handle (h : lightnvm_h)
    (hook : option (nat -> M unit)) (s : nvmd) (ap : option nat) (is_gc : Z)
    (r : option nvm_addr) (s' : nvmd) :
  hook_inert hook ->
  nvm_alloc_addr_from_ap h hook ap is_gc s = Ok r s' ->
  beside_blocks s' = beside_blocks s /\
  match r with
  | None => addr_pool s' = addr_pool s
  | Some p =>
      addr_pool s = S (addr_pool s') /\
      addr p <> LTOP_EMPTY h /\ is_Some (block p) /\ private p = None
  end.
Proof. exact (nvm_alloc_addr_from_ap_inv h hook s ap is_gc r s'). Qed.

Lemma nvm_alloc_addr_from_ap_handle_witness :
  exists p s',
    nvm_alloc_addr_from_ap example_h None (Some 0%nat) 0 example_dev
    = Ok (Some p) s' /\
    beside_blocks s' = beside_blocks example_dev /\
    addr_pool example_dev = S (addr_pool s') /\
    addr p <> LTOP_EMPTY example_h /\ is_Some (block p) /\ private p = None.
Proof.
  evar (p : nvm_addr). evar (s' : nvmd).
  assert (Hrun : nvm_alloc_addr_from_ap example_h None (Some 0%nat) 0
                   example_dev = Ok (Some p) s')
    by (subst p s'; vm_compute; reflexivity).
  exists p, s'. split; [exact Hrun|].
  exact (nvm_alloc_addr_from_ap_handle example_h None example_dev
           (Some 0%nat) 0 (Some p) s' I Hrun).
Defined.

(** ** Lookups *)

(** X8: what [nvm_lookup_ltop_map] can return.  A handle is a copy of the
    entry of the map at the logical address, with the private data of the
    caller, it costs one handle of the mempool and changes nothing else, and
    its block, if it has one, is not under garbage collection.  A null
    result, for want of a handle or because the block is being collected,
    leaves the device exactly as it was.  The logical address is within the
    device in both cases. *)
Theorem nvm_lookup_ltop_map_spec (s : nvmd) (l_addr : Z) (tm : nat)
    (priv : option Z) (r : option nvm_addr) (s' : nvmd) :
  nvm_lookup_ltop_map l_addr tm priv s = Ok r s' ->
  0 <= l_addr < nr_pages s /\
  match r with
  | None => s' = s
  | Some p =>
      exists fwd gp,
        maps s !! tm = Some fwd /\ nthZ fwd l_addr = Some gp /\
        p = mk_addr (addr gp) (block gp) priv /\
        (forall b blk, block gp = Some b -> blocks s !! b = Some blk ->
                       gc_running blk = 0) /\
        addr_pool s = S (addr_pool s') /\
        s' = set_addr_pool (addr_pool s') s
  end.
Proof.
  intros H.
  destruct s as [np nh na cf nw bl ps ap mp rv bi df adp bpp pbp lk ck kl].
  unfold nvm_lookup_ltop_map, mempool_alloc_addr, mempool_free_addr in H.
  kern. invert_run H.
  all: injection H as <- <-.
  all: repeat match goal with
         | H : negb _ = false |- _ => apply negb_false_iff in H
         | H : negb _ = true |- _ => apply negb_true_iff in H
         | H : _ && _ = true |- _ => apply andb_true_iff in H as [? ?]
         end.
  all: (split; [cbn; lia|]).
  all: try reflexivity.
  all: eexists _, _; (split; [eassumption|]); (split; [eassumption|]).
  all: (split; [congruence|]); (split; [|split; reflexivity]).
  all: intros b blk Hb Hblk; cbn in *.
  all: try congruence.
  all: assert (b = n1) as -> by congruence.
  all: assert (blk = n2) as -> by congruence.
  all: apply Z.eqb_eq; assumption.
Qed.

Lemma nvm_lookup_ltop_map_spec_witness :
  exists p s' fwd gp,
    nvm_lookup_ltop_map 3 trans_map (Some 11) example_dev_written
    = Ok (Some p) s' /\
    0 <= 3 < nr_pages example_dev_written /\
    maps example_dev_written !! trans_map = Some fwd /\
    nthZ fwd 3 = Some gp /\
    p = mk_addr (addr gp) (block gp) (Some 11) /\
    addr_pool example_dev_written = S (addr_pool s') /\
    s' = set_addr_pool (addr_pool s') example_dev_written.
Proof.
  evar (p : nvm_addr). evar (s' : nvmd).
  assert (Hrun : nvm_lookup_ltop_map 3 trans_map (Some 11)
                   example_dev_written = Ok (Some p) s')
    by (subst p s'; vm_compute; reflexivity).
  destruct (nvm_lookup_ltop_map_spec example_dev_written 3 trans_map
              (Some 11) (Some p) s' Hrun)
    as (Hin & fwd & gp & Hfwd & Hgp & Hp & _ & Hpool & Hs').
  exists p, s', fwd, gp.
  split; [exact Hrun|]. split; [exact Hin|]. split; [exact Hfwd|].
  split; [exact Hgp|]. split; [exact Hp|]. split; [exact Hpool|]. exact Hs'.
Defined.

(** ** Writing a translation and reading it back *)

(** Reads the fields of a state built by field updates, without
    computing anything else. *)
Ltac setters :=
  cbn [nr_pages nr_host_pages_in_blk nr_aps config_flags next_write_ap blocks
       pools aps maps rev_trans_map bios deferred_bios addr_pool
       block_page_pool per_bio_pool locked_addrs clock klog
       set_next_write_ap set_blocks set_pools set_aps set_maps
       set_rev_trans_map set_bios set_deferred_bios set_addr_pool
       set_block_page_pool set_per_bio_pool set_locked_addrs set_clock
       set_klog].

(** What a successful [nvm_update_map] has done to the forward map, and what
    it has left alone. *)
Lemma nvm_update_map_inv (h : lightnvm_h) (s : nvmd) (l_addr : Z)
    (p : nvm_addr) (is_gc : Z) (tm : nat) (s' : nvmd) :
  nvm_update_map h l_addr p is_gc tm s = Ok tt s' ->
  exists fwd gp,
    maps s !! tm = Some fwd /\ nthZ fwd l_addr = Some gp /\
    maps s' = <[tm := <[Z.to_nat l_addr :=
                          mk_addr (addr p) (block p) (private gp)]> fwd]>
                (maps s) /\
    0 <= l_addr < nr_pages s /\
    nr_pages s' = nr_pages s /\ addr_pool s' = addr_pool s /\
    gc_running <$> blocks s' = gc_running <$> blocks s /\
    nthZ (rev_trans_map s') (addr p) = Some (mk_rev l_addr (Some tm)) /\
    bios s' = bios s.
Proof.
  intros H.
  destruct s as [np nh na cf nw bl ps ap mp rv bi df adp bpp pbp lk ck kl].
  unfold nvm_update_map, invalidate_block_page, test_and_set_bit in H.
  kern. invert_run H.
  all: injection H as <-.
  all: setters.
  all: match goal with
       | H1 : Some ?x = Some ?y |- _ => injection H1 as ->
       end.
  all: match goal with
       | H1 : @nthZ nvm_addr ?f _ = Some ?g |- _ =>
           pose proof (nthZ_Some _ _ _ H1) as [Hl _]; exists f, g
       end.
  all: apply Z.leb_gt in Heqb.
  all: split; [assumption|]; split; [assumption|]; split; [reflexivity|].
  all: split; [lia|]; split; [reflexivity|]; split; [reflexivity|].
  all: split; [|split; [eapply nthZ_insert_eq; eassumption|reflexivity]].
  all: try reflexivity.
  all: rewrite list_fmap_insert; apply list_insert_id.
  all: rewrite list_lookup_fmap;
    match goal with
    | H1 : _ !! ?i = Some ?b |- context [_ !! ?i] => rewrite H1
    end; reflexivity.
Qed.

(** [nvm_lookup_ltop_map] on a device with a handle to spare. *)
Lemma nvm_lookup_ltop_map_run (s : nvmd) (l_addr : Z) (tm : nat)
    (priv : option Z) (n : nat) (fwd : list nvm_addr) (gp : nvm_addr)
    (g : Z) :
  0 <= l_addr < nr_pages s ->
  addr_pool s = S n ->
  maps s !! tm = Some fwd ->
  nthZ fwd l_addr = Some gp ->
  match block gp with
  | Some b => exists blk, blocks s !! b = Some blk /\ gc_running blk = g
  | None => g = 0
  end ->
  nvm_lookup_ltop_map l_addr tm priv s =
  if g =? 0
  then Ok (Some (mk_addr (addr gp) (block gp) priv)) (set_addr_pool n s)
  else Ok None s.
Proof.
  intros Hl Hadp Hfwd Hgp Hg.
  destruct s as [np nh na cf nw bl ps ap mp rv bi df adp bpp pbp lk ck kl].
  cbn in *. subst adp.
  unfold nvm_lookup_ltop_map, mempool_alloc_addr, mempool_free_addr.
  kern. cbn.
  replace (0 <=? l_addr) with true by (symmetry; apply Z.leb_le; lia).
  replace (l_addr <? np) with true by (symmetry; apply Z.ltb_lt; lia).
  cbn. rewrite Hfwd. cbn. rewrite Hgp.
  destruct (block gp) as [b|].
  - destruct Hg as (blk & Hblk & <-). cbn. rewrite Hblk. cbn.
    destruct (gc_running blk =? 0); reflexivity.
  - subst g. reflexivity.
Qed.

Lemma nvm_lookup_ltop_map_nomem (s : nvmd) (l_addr : Z) (tm : nat)
    (priv : option Z) :
  0 <= l_addr < nr_pages s ->
  addr_pool s = 0%nat ->
  nvm_lookup_ltop_map l_addr tm priv s = Ok None s.
Proof.
  intros Hl Hadp. unfold nvm_lookup_ltop_map, mempool_alloc_addr. kern. cbn.
  replace (0 <=? l_addr) with true by (symmetry; apply Z.leb_le; lia).
  replace (l_addr <? nr_pages s) with true by (symmetry; apply Z.ltb_lt; lia).
  cbn. rewrite Hadp. reflexivity.
Qed.

Lemma gc_running_lookup (l l' : list nvm_block) (b : nat) (blk : nvm_block) :
  gc_running <$> l' = gc_running <$> l ->
  l !! b = Some blk ->
  exists blk', l' !! b = Some blk' /\ gc_running blk' = gc_running blk.
Proof.
  intros Heq Hb.
  assert (Hf : (gc_running <$> l') !! b = Some (gc_running blk))
    by (rewrite Heq, list_lookup_fmap, Hb; reflexivity).
  rewrite list_lookup_fmap in Hf.
  destruct (l' !! b) as [blk'|]; [|discriminate Hf].
  injection Hf as Hf. eauto.
Qed.

(** X9: a translation written by [nvm_update_map] is the one that
    [nvm_lookup_ltop_map] reads back, whether the logical address was mapped
    before or not: the handle returned carries the physical address and the
    block that were written. *)
Theorem nvm_update_map_lookup (h : lightnvm_h) (s : nvmd) (l_addr : Z)
    (p : nvm_addr) (is_gc : Z) (tm : nat) (s' : nvmd) (n : nat)
    (priv : option Z) :
  nvm_update_map h l_addr p is_gc tm s = Ok tt s' ->
  addr_pool s = S n ->
  (forall b, block p = Some b ->
             exists blk, blocks s !! b = Some blk /\ gc_running blk = 0) ->
  nvm_lookup_ltop_map l_addr tm priv s' =
  Ok (Some (mk_addr (addr p) (block p) priv)) (set_addr_pool n s').
Proof.
  intros H Hadp Hblk.
  destruct (nvm_update_map_inv _ _ _ _ _ _ _ H)
    as (fwd & gp & Hfwd & Hgp & Hmaps & Hl & Hnp & Hap & Hgc & _ & _).
  assert (Htm : (tm < length (maps s))%nat)
    by (eapply lookup_lt_Some; eauto).
  rewrite (nvm_lookup_ltop_map_run s' l_addr tm priv n
             (<[Z.to_nat l_addr := mk_addr (addr p) (block p) (private gp)]>
                fwd)
             (mk_addr (addr p) (block p) (private gp)) 0).
  - reflexivity.
  - lia.
  - congruence.
  - rewrite Hmaps. apply list_lookup_insert_eq. exact Htm.
  - eapply nthZ_insert_eq. exact Hgp.
  - cbn. destruct (block p) as [b|] eqn:Hb; [|reflexivity].
    destruct (Hblk b eq_refl) as (blk & Hb1 & Hb2).
    destruct (gc_running_lookup _ _ _ _ Hgc Hb1) as (blk' & Hb3 & Hb4).
    exists blk'. split; [exact Hb3 | congruence].
Qed.

Lemma nvm_update_map_lookup_witness :
  exists s',
    nvm_update_map example_h 3 (mk_addr 6 (Some 0%nat) None) 0 trans_map
      example_dev_written = Ok tt s' /\
    nvm_lookup_ltop_map 3 trans_map (Some 11) s' =
    Ok (Some (mk_addr 6 (Some 0%nat) (Some 11))) (set_addr_pool 3 s').
Proof.
  evar (s' : nvmd).
  assert (Hrun : nvm_update_map example_h 3 (mk_addr 6 (Some 0%nat) None) 0
                   trans_map example_dev_written = Ok tt s')
    by (subst s'; vm_compute; reflexivity).
  exists s'. split; [exact Hrun|].
  apply (nvm_update_map_lookup example_h example_dev_written 3
           (mk_addr 6 (Some 0%nat) None) 0 trans_map s' 3 (Some 11) Hrun).
  - reflexivity.
  - intros b [= <-]. eexists. split; reflexivity.
Defined.

(** X10: [nvm_update_map] does not disturb the other translations.  A
    lookup of another logical address, or in another map, gives after the
    update the result it gave before. *)
Theorem nvm_update_map_other (h : lightnvm_h) (s : nvmd) (l_addr : Z)
    (p : nvm_addr) (is_gc : Z) (tm : nat) (s' : nvmd) (l2 : Z) (tm2 : nat)
    (priv : option Z) (r : option nvm_addr) (s2 : nvmd) :
  nvm_update_map h l_addr p is_gc tm s = Ok tt s' ->
  tm2 <> tm \/ l2 <> l_addr ->
  nvm_lookup_ltop_map l2 tm2 priv s = Ok r s2 ->
  exists s2', nvm_lookup_ltop_map l2 tm2 priv s' = Ok r s2'.
Proof.
  intros H Hne H2.
  destruct (nvm_update_map_inv _ _ _ _ _ _ _ H)
    as (fwd & gp & Hfwd & Hgp & Hmaps & Hl & Hnp & Hap & Hgc & _ & _).
  assert (Htm : (tm < length (maps s))%nat)
    by (eapply lookup_lt_Some; eauto).
  assert (Hother : forall fwd2 gp2,
             maps s !! tm2 = Some fwd2 -> nthZ fwd2 l2 = Some gp2 ->
             exists fwd2', maps s' !! tm2 = Some fwd2' /\
                           nthZ fwd2' l2 = Some gp2).
  { intros fwd2 gp2 Hf2 Hg2. rewrite Hmaps.
    destruct (Nat.eq_dec tm2 tm) as [->|Htne].
    - rewrite list_lookup_insert_eq by exact Htm. eexists. split; [reflexivity|].
      assert (fwd2 = fwd) as -> by congruence.
      rewrite nthZ_insert_ne by (first [lia | destruct Hne; congruence]).
      exact Hg2.
    - rewrite list_lookup_insert_ne by congruence. eauto. }
  unfold nvm_lookup_ltop_map, mempool_alloc_addr, mempool_free_addr in H2.
  kern. invert_run H2.
  all: injection H2 as <- <-.
  all: repeat match goal with
         | H1 : negb _ = false |- _ => apply negb_false_iff in H1
         | H1 : negb _ = true |- _ => apply negb_true_iff in H1
         | H1 : _ && _ = true |- _ => apply andb_true_iff in H1 as [? ?]
         | H1 : (_ <=? _) = true |- _ => apply Z.leb_le in H1
         | H1 : (_ <? _) = true |- _ => apply Z.ltb_lt in H1
         | H1 : (_ =? _) = true |- _ => apply Z.eqb_eq in H1
         | H1 : (_ =? _) = false |- _ => apply Z.eqb_neq in H1
         end.
  all: try (eexists; apply nvm_lookup_ltop_map_nomem; [lia | assumption]).
  all: match goal with
       | Hn : @nthZ nvm_addr ?f _ = Some ?g |- _ =>
           destruct (Hother f g eq_refl Hn) as (fwd2' & Hm' & Hn')
       end.
  all: try match goal with
         | Hb : blocks _ !! _ = Some _ |- _ =>
             destruct (gc_running_lookup _ _ _ _ Hgc Hb)
               as (blk' & Hb3 & Hb4)
         end.
  all: assert (Hrange : 0 <= l2 < nr_pages s') by lia.
  all: match goal with
       | Hp : addr_pool _ = S ?n |- _ =>
           first
             [ rewrite (nvm_lookup_ltop_map_run s' l2 tm2 priv n fwd2' _
                          (gc_running blk') Hrange Hap Hm' Hn')
             | rewrite (nvm_lookup_ltop_map_run s' l2 tm2 priv n fwd2' _ 0
                          Hrange Hap Hm' Hn') ]
       end.
  all: try match goal with
         | Hb : block ?g = _ |- context [block ?g] => rewrite Hb
         end.
  all: first
         [ reflexivity
         | eexists; split; [eassumption | reflexivity]
         | rewrite Hb4;
           match goal with
           | Hg : gc_running _ = 0 |- _ => rewrite Hg; cbn; eauto
           | Hg : gc_running ?b <> 0 |- _ =>
               destruct (Z.eqb_spec (gc_running b) 0); [congruence | eauto]
           end
         | eexists; reflexivity ].
Qed.

Lemma nvm_update_map_other_witness :
  exists s' s2 s2',
    nvm_update_map example_h 3 (mk_addr 6 (Some 0%nat) None) 0 trans_map
      example_dev_written = Ok tt s' /\
    nvm_lookup_ltop_map 4 trans_map None example_dev_written
    = Ok (Some (mk_addr 0 None None)) s2 /\
    nvm_lookup_ltop_map 4 trans_map None s'
    = Ok (Some (mk_addr 0 None None)) s2'.
Proof.
  evar (s' : nvmd). evar (s2 : nvmd).
  assert (Hrun : nvm_update_map example_h 3 (mk_addr 6 (Some 0%nat) None) 0
                   trans_map example_dev_written = Ok tt s')
    by (subst s'; vm_compute; reflexivity).
  assert (Hlook : nvm_lookup_ltop_map 4 trans_map None example_dev_written
                  = Ok (Some (mk_addr 0 None None)) s2)
    by (subst s2; vm_compute; reflexivity).
  assert (Hne : trans_map <> trans_map \/ 4 <> 3) by (right; lia).
  destruct (nvm_update_map_other example_h example_dev_written 3
              (mk_addr 6 (Some 0%nat) None) 0 trans_map s' 4 trans_map None
              (Some (mk_addr 0 None None)) s2 Hrun Hne Hlook) as [s2' Hs2'].
  exists s', s2, s2'. split; [exact Hrun|]. split; [exact Hlook|]. exact Hs2'.
Defined.

(** ** The append point of a write *)

Lemma max_free_fold (ps : list nvm_pool) (m0 : nvm_pool) :
  let m := fold_left
             (fun m p => if nr_free_blocks p >? nr_free_blocks m then p else m)
             ps m0 in
  (m = m0 /\ forall q, q ∈ ps -> nr_free_blocks q <= nr_free_blocks m0) \/
  (exists i,
      ps !! i = Some m /\ nr_free_blocks m0 < nr_free_blocks m /\
      (forall j q, (j < i)%nat -> ps !! j = Some q ->
                   nr_free_blocks q < nr_free_blocks m) /\
      (forall q, q ∈ ps -> nr_free_blocks q <= nr_free_blocks m)).
Proof.
  revert m0. induction ps as [|p ps IH]; intros m0; cbn.
  - left. split; [reflexivity|]. intros q Hq. inversion Hq.
  - destruct (Z.gtb_spec (nr_free_blocks p) (nr_free_blocks m0)) as [Hgt|Hle].
    + destruct (IH p) as [[Hm Hall]|(i & Hi & Hlt & Hfirst & Hall)].
      * right. exists 0%nat. cbn in Hm. rewrite Hm.
        split; [reflexivity|]. split; [lia|]. split; [intros j q Hj; lia|].
        intros q Hq. apply elem_of_cons in Hq as [->|Hq]; [lia|].
        apply Hall. exact Hq.
      * right. exists (S i). split; [exact Hi|]. split; [cbn in Hlt; lia|].
        split.
        -- intros [|j] q Hj Hq.
           ++ injection Hq as <-. exact Hlt.
           ++ apply (Hfirst j q); [lia | exact Hq].
        -- intros q Hq. apply elem_of_cons in Hq as [->|Hq].
           ++ cbn in Hlt. lia.
           ++ apply Hall. exact Hq.
    + destruct (IH m0) as [[Hm Hall]|(i & Hi & Hlt & Hfirst & Hall)].
      * left. split; [exact Hm|].
        intros q Hq. apply elem_of_cons in Hq as [->|Hq]; [lia|].
        apply Hall. exact Hq.
      * right. exists (S i). split; [exact Hi|]. split; [exact Hlt|].
        split.
        -- intros [|j] q Hj Hq.
           ++ injection Hq as <-. cbn in Hlt. lia.
           ++ apply (Hfirst j q); [lia | exact Hq].
        -- intros q Hq. apply elem_of_cons in Hq as [->|Hq].
           ++ cbn in Hlt. lia.
           ++ apply Hall. exact Hq.
Qed.

(** X11: the pool that a GC write is directed to is the first of the pools
    with the most free blocks: no pool has more free blocks, and every pool
    before it has fewer. *)
Theorem max_free_pool_first (ps : list nvm_pool) :
  ps <> [] ->
  exists m i,
    max_free_pool ps = Some m /\ ps !! i = Some m /\
    (forall q, q ∈ ps -> nr_free_blocks q <= nr_free_blocks m) /\
    (forall j q, (j < i)%nat -> ps !! j = Some q ->
                 nr_free_blocks q < nr_free_blocks m).
Proof.
  intros Hne. destruct ps as [|p0 rest]; [congruence|].
  unfold max_free_pool.
  destruct (max_free_fold (p0 :: rest) p0)
    as [[Hm Hall]|(i & Hi & Hlt & Hfirst & Hall)].
  - eexists _, 0%nat. split; [reflexivity|]. rewrite Hm.
    split; [reflexivity|]. split; [exact Hall|]. intros j q Hj. lia.
  - eexists _, i. split; [reflexivity|]. split; [exact Hi|].
    split; [exact Hall|]. exact Hfirst.
Qed.

Lemma max_free_pool_first_witness :
  exists m i,
    max_free_pool (pools example_dev_low) = Some m /\
    pools example_dev_low !! i = Some m /\
    (forall q, q ∈ pools example_dev_low ->
               nr_free_blocks q <= nr_free_blocks m) /\
    (forall j q, (j < i)%nat -> pools example_dev_low !! j = Some q ->
                 nr_free_blocks q < nr_free_blocks m).
Proof.
  apply (max_free_pool_first (pools example_dev_low)). discriminate.
Defined.

(** What a run of [nvm_map_ltop_rr] leaves behind. *)
Lemma nvm_map_ltop_rr_inv (h : lightnvm_h) (hook : option (nat -> M unit))
    (s : nvmd) (l_addr is_gc : Z) (tm : nat) (priv : option Z)
    (r : option nvm_addr) (s' : nvmd) :
  hook_inert hook ->
  get_next_ap_steps h ->
  nvm_map_ltop_rr h hook l_addr is_gc tm priv s = Ok r s' ->
  bios s' = bios s /\
  match r with
  | None =>
      maps s' = maps s /\ rev_trans_map s' = rev_trans_map s /\
      addr_pool s' = addr_pool s
  | Some p =>
      addr p <> LTOP_EMPTY h /\ is_Some (block p) /\ private p = None /\
      addr_pool s = S (addr_pool s') /\
      exists fwd gp,
        maps s !! tm = Some fwd /\ nthZ fwd l_addr = Some gp /\
        maps s' = <[tm := <[Z.to_nat l_addr :=
                              mk_addr (addr p) (block p) (private gp)]> fwd]>
                    (maps s) /\
        nthZ (rev_trans_map s') (addr p) = Some (mk_rev l_addr (Some tm))
  end.
Proof.
  intros Hh Hnext H. unfold nvm_map_ltop_rr in H.
  apply bind_Ok in H as (ai & s1 & Hap & H).
  apply bind_Ok in H as (p & s2 & Halloc & H).
  apply bind_Ok in H as ([] & s3 & Hupd & H).
  injection H as <- <-.
  assert (Hs1 : maps s1 = maps s /\ rev_trans_map s1 = rev_trans_map s /\
                addr_pool s1 = addr_pool s /\ bios s1 = bios s).
  { destruct (is_gc =? 0).
    - apply Hnext in Hap. rewrite Hap. repeat split.
    - kern. invert_run Hap. all: injection Hap as <- <-; repeat split. }
  destruct Hs1 as (Hm1 & Hr1 & Ha1 & Hb1).
  destruct (nvm_alloc_addr_from_ap_inv _ _ _ _ _ _ _ Hh Halloc)
    as (Hbeside & Hp).
  unfold beside_blocks in Hbeside.
  injection Hbeside as _ _ _ _ _ Hm2 Hr2 Hb2 _ _ _ _.
  destruct p as [pa|].
  - destruct Hp as (Hpool & Haddr & Hblock & Hpriv).
    destruct (nvm_update_map_inv _ _ _ _ _ _ _ Hupd)
      as (fwd & gp & Hfwd & Hgp & Hmaps & _ & _ & Hap3 & _ & Hrev & Hb3).
    split; [congruence|].
    split; [exact Haddr|]. split; [exact Hblock|]. split; [exact Hpriv|].
    split; [congruence|].
    exists fwd, gp. split; [congruence|]. split; [exact Hgp|].
    split; [congruence|]. exact Hrev.
  - injection Hupd as <-. repeat split; congruence.
Qed.


(** X12: what [nvm_map_ltop_rr] leaves behind.  When it returns a handle,
    the handle names a block and a page, has cost one handle of the mempool,
    and is the translation now installed for the logical address, forward
    and reverse; the private argument is not used.  When it returns null,
    both maps and the mempool are as before. *)
Theorem nvm_map_ltop_rr_spec (h : lightnvm_h) (hook : option (nat -> M unit))
    (s : nvmd) (l_addr is_gc : Z) (tm : nat) (priv : option Z)
    (r : option nvm_addr) (s' : nvmd) :
  hook_inert hook ->
  get_next_ap_steps h ->
  nvm_map_ltop_rr h hook l_addr is_gc tm priv s = Ok r s' ->
  match r with
  | None =>
      maps s' = maps s /\ rev_trans_map s' = rev_trans_map s /\
      addr_pool s' = addr_pool s
  | Some p =>
      addr p <> LTOP_EMPTY h /\ is_Some (block p) /\ private p = None /\
      addr_pool s = S (addr_pool s') /\
      exists fwd gp,
        maps s !! tm = Some fwd /\ nthZ fwd l_addr = Some gp /\
        maps s' = <[tm := <[Z.to_nat l_addr :=
                              mk_addr (addr p) (block p) (private gp)]> fwd]>
                    (maps s) /\
        nthZ (rev_trans_map s') (addr p) = Some (mk_rev l_addr (Some tm))
  end.
Proof.
  intros Hh Hnext H.
  exact (proj2 (nvm_map_ltop_rr_inv h hook s l_addr is_gc tm priv r s' Hh Hnext
                  H)).
Qed.

Lemma nvm_map_ltop_rr_spec_witness :
  exists p s' fwd gp,
    nvm_map_ltop_rr example_h None 5 0 trans_map (Some 11) example_dev_write
    = Ok (Some p) s' /\
    addr p <> LTOP_EMPTY example_h /\ is_Some (block p) /\
    private p = None /\
    addr_pool example_dev_write = S (addr_pool s') /\
    maps example_dev_write !! trans_map = Some fwd /\
    nthZ fwd 5 = Some gp /\
    maps s' = <[trans_map := <[Z.to_nat 5 :=
                                 mk_addr (addr p) (block p) (private gp)]>
                               fwd]> (maps example_dev_write) /\
    nthZ (rev_trans_map s') (addr p) = Some (mk_rev 5 (Some trans_map)).
Proof.
  evar (p : nvm_addr). evar (s' : nvmd).
  assert (Hrun : nvm_map_ltop_rr example_h None 5 0 trans_map (Some 11)
                   example_dev_write = Ok (Some p) s')
    by (subst p s'; vm_compute; reflexivity).
  assert (Hnext : get_next_ap_steps example_h).
  { intros s a s1 Hs. cbn in Hs. unfold get_next_ap_of in Hs.
    destruct (nr_aps s =? 0); [discriminate Hs|].
    injection Hs as _ <-. reflexivity. }
  destruct (nvm_map_ltop_rr_spec example_h None example_dev_write 5 0
              trans_map (Some 11) (Some p) s' I Hnext Hrun)
    as (H1 & H2 & H3 & H4 & fwd & gp & H5 & H6 & H7 & H8).
  exists p, s', fwd, gp.
  split; [exact Hrun|]. split; [exact H1|]. split; [exact H2|].
  split; [exact H3|]. split; [exact H4|]. split; [exact H5|].
  split; [exact H6|]. split; [exact H7|]. exact H8.
Defined.

(** ** Requests on their way to the device and back *)

#[local] Arguments nvm_lookup_ltop_map : simpl never.
#[local] Arguments nvm_submit_bio : simpl never.
#[local] Arguments nvm_endio : simpl never.

(** [nvm_submit_bio] on a device that does not serialize its pools. *)
Lemma nvm_submit_bio_run (h : lightnvm_h)
    (wait_add : list nat -> nat -> option Z -> list nat) (s : nvmd)
    (p : nvm_addr) (l_addr rw : Z) (b : bio) (bio : nat)
    (orig_bio : option nat) (sync : option Z) (tm : nat) (bi : nat)
    (blk : nvm_block) (a : nvm_ap) (pb0 : per_bio_data)
    (rest : list per_bio_data) :
  let ai := block_to_ap h s blk in
  let pb := mk_pbd (bi_end_io b) (bi_private b) (pb_start_tv pb0) (Some ai)
              (Some p) l_addr sync orig_bio (Some tm) in
  let rw' := Z.lor (Z.lor (bi_rw b) rw)
               (match sync with Some _ => REQ_SYNC h | None => 0 end) in
  let b' := mk_bio (bi_sector b) rw' (bi_bdev b)
              (Some (if rw =? WRITE then EndIoNvmWrite else EndIoNvmRead))
              (PtrObj pb) (bi_io_vec b) in
  block p = Some bi ->
  blocks s !! bi = Some blk ->
  aps s !! ai = Some a ->
  per_bio_pool s = pb0 :: rest ->
  bios s !! bio = Some b ->
  Z.land (config_flags s) (NVM_OPT_POOL_SERIALIZE h) = 0 ->
  nvm_submit_bio h wait_add p l_addr rw bio orig_bio sync tm s =
  Ok tt
    (set_klog (EvSubmitBio rw' bio :: klog s)
       (set_aps
          (<[ai := set_io_accesses
                     (if bio_data_dir b' =? READ
                      then (u64 (fst (io_accesses a) + 1), snd (io_accesses a))
                      else (fst (io_accesses a),
                            u64 (snd (io_accesses a) + 1))) a]> (aps s))
          (set_bios (<[bio := b']> (bios s))
             (set_per_bio_pool rest s)))).
Proof.
  intros ai pb rw' b' Hp Hblk Ha Hpbp Hb Hser.
  assert (Hbl : (bio < length (bios s))%nat) by (eapply lookup_lt_Some; eauto).
  destruct s as [np nh na cf nw bl ps ap mp rv bs df adp bpp pbp lk ck kl].
  cbn in *. subst pbp.
  unfold nvm_submit_bio, alloc_init_pbd, mempool_alloc_pbd, submit_bio.
  kern. cbn. rewrite Hp. cbn. rewrite Hblk. cbn. fold ai. rewrite Ha. cbn.
  rewrite Hb. cbn.
  rewrite list_lookup_insert_eq by exact Hbl. cbn.
  rewrite Hser. cbn. rewrite list_insert_insert_eq. reflexivity.
Qed.

(** [nvm_endio] for a read on a device that neither waits nor serializes
    its pools. *)
Lemma nvm_endio_read_run (h : lightnvm_h) (s : nvmd) (b : bio) (bio : nat)
    (err : Z) (pb : per_bio_data) (p : nvm_addr) (ai : nat) (a : nvm_ap) :
  bios s !! bio = Some b ->
  bi_private b = PtrObj pb ->
  bio_data_dir b = READ ->
  pb_addr pb = Some p ->
  pb_ap pb = Some ai ->
  aps s !! ai = Some a ->
  Z.land (config_flags s) (NVM_OPT_NO_WAITS h) <> 0 \/ t_read a = 0 ->
  Z.land (config_flags s) (NVM_OPT_POOL_SERIALIZE h) = 0 ->
  nvm_endio h None bio err s =
  Ok tt
    (set_per_bio_pool (pb :: per_bio_pool s)
       (set_addr_pool
          (match pb_event pb with
           | Some _ => addr_pool s
           | None => S (addr_pool s)
           end)
          (set_klog
             (match pb_event pb with
              | Some ev => [EvComplete ev]
              | None => []
              end ++
              match pb_orig_bio pb with
              | Some ob => [EvBioEndio ob err]
              | None => []
              end ++
              match pb_bi_end_io pb with
              | Some f => [EvCallEndIo f bio err]
              | None => []
              end ++ klog s)
             (set_bios
                (<[bio := mk_bio (bi_sector b) (bi_rw b) (bi_bdev b)
                            (pb_bi_end_io pb) (pb_bi_private pb)
                            (bi_io_vec b)]> (bios s))
                (set_locked_addrs
                   (List.filter (fun x => negb (x =? pb_l_addr pb))
                      (locked_addrs s)) s))))).
Proof.
  intros Hb Hpriv Hdir Hp Hap Ha Hwait Hser.
  destruct s as [np nh na cf nw bl ps ap mp rv bs df adp bpp pbp lk ck kl].
  cbn in *.
  unfold nvm_endio, nvm_unlock_addr, endio_account, endio_pace, endio_finish,
    exit_pbd, free_pbd, mempool_free_pbd, mempool_free_addr, bio_endio.
  kern. cbn. rewrite Hb. cbn. rewrite Hpriv. cbn. rewrite Hp, Hap. cbn.
  rewrite Ha. cbn. rewrite Hdir. cbn.
  assert (Hw : (Z.land cf (NVM_OPT_NO_WAITS h) =? 0) && negb (t_read a =? 0)
               = false).
  { destruct Hwait as [Hw|Hw].
    - apply Z.eqb_neq in Hw. rewrite Hw. reflexivity.
    - rewrite Hw. cbn. apply andb_false_r. }
  rewrite Hw. cbn. rewrite Hser. cbn. rewrite Hb. cbn.
  destruct (pb_bi_end_io pb), (pb_orig_bio pb), (pb_event pb); cbn;
    rewrite ?Hdir; reflexivity.
Qed.

(** X13: the completion of a read.  [nvm_end_read_bio] gives the request
    back as it came: the completion routine and the private pointer saved in
    the wrapper are restored and the routine is called with the error code;
    the lock on the logical address is released and the wrapper returns to
    its mempool.  The address handle returns to its mempool too, except for
    a read of the garbage collector, which waits on a completion and keeps
    its handle.  Blocks, pools and maps are not touched. *)
Theorem nvm_end_read_bio_spec (h : lightnvm_h) (s : nvmd) (b : bio)
    (bio : nat) (err : Z) (pb : per_bio_data) (p : nvm_addr) (ai : nat)
    (a : nvm_ap) :
  bios s !! bio = Some b ->
  bi_private b = PtrObj pb ->
  bio_data_dir b = READ ->
  pb_addr pb = Some p ->
  pb_ap pb = Some ai ->
  aps s !! ai = Some a ->
  Z.land (config_flags s) (NVM_OPT_NO_WAITS h) <> 0 \/ t_read a = 0 ->
  Z.land (config_flags s) (NVM_OPT_POOL_SERIALIZE h) = 0 ->
  exists s' b',
    nvm_end_read_bio h None bio err s = Ok tt s' /\
    bios s' !! bio = Some b' /\
    bi_end_io b' = pb_bi_end_io pb /\ bi_private b' = pb_bi_private pb /\
    bi_sector b' = bi_sector b /\ bi_io_vec b' = bi_io_vec b /\
    ~ In (pb_l_addr pb) (locked_addrs s') /\
    (forall l, l <> pb_l_addr pb ->
               (In l (locked_addrs s') <-> In l (locked_addrs s))) /\
    per_bio_pool s' = pb :: per_bio_pool s /\
    addr_pool s' = match pb_event pb with
                   | Some _ => addr_pool s
                   | None => S (addr_pool s)
                   end /\
    (forall f, pb_bi_end_io pb = Some f -> In (EvCallEndIo f bio err) (klog s')) /\
    blocks s' = blocks s /\ pools s' = pools s /\ maps s' = maps s /\
    rev_trans_map s' = rev_trans_map s.
Proof.
  intros Hb Hpriv Hdir Hp Hap Ha Hwait Hser.
  assert (Hbl : (bio < length (bios s))%nat) by (eapply lookup_lt_Some; eauto).
  unfold nvm_end_read_bio.
  rewrite (nvm_endio_read_run h s b bio err pb p ai a) by assumption.
  eexists _, _. split; [reflexivity|]. setters.
  split; [apply list_lookup_insert_eq; exact Hbl|]. cbn.
  split; [reflexivity|]. split; [reflexivity|]. split; [reflexivity|].
  split; [reflexivity|].
  split.
  { intros Hin. apply filter_In in Hin as [_ Hin].
    rewrite Z.eqb_refl in Hin. discriminate Hin. }
  split.
  { intros l Hl. rewrite filter_In. split; [tauto|].
    intros Hin. split; [exact Hin|].
    apply negb_true_iff, Z.eqb_neq. exact Hl. }
  split; [reflexivity|]. split; [reflexivity|].
  split.
  { intros f Hf. rewrite Hf. rewrite !in_app_iff. right. right. left.
    left. reflexivity. }
  repeat split.
Qed.

Lemma nvm_end_read_bio_spec_witness :
  exists s' b',
    nvm_end_read_bio example_h None 0 0 example_dev_reading = Ok tt s' /\
    bios s' !! 0%nat = Some b' /\
    bi_end_io b' = Some (EndIoUpstream 7) /\ bi_private b' = PtrCookie 9 /\
    ~ In 3 (locked_addrs s') /\
    per_bio_pool s' = [example_pbd_read; stale_pbd] /\
    addr_pool s' = 4%nat /\
    In (EvCallEndIo (EndIoUpstream 7) 0 0) (klog s').
Proof.
  destruct (nvm_end_read_bio_spec example_h example_dev_reading
              example_issue_read 0 0 example_pbd_read
              (mk_addr 5 (Some 0%nat) None) 0
              (mk_ap 0 (Some 0%nat) (Some 1%nat) 25 500 (0, 0))
              eq_refl eq_refl eq_refl eq_refl eq_refl eq_refl)
    as (s' & b' & H1 & H2 & H3 & H4 & _ & _ & H5 & _ & H6 & H7 & H8 & _).
  - left. vm_compute. discriminate.
  - reflexivity.
  - exists s', b'. split; [exact H1|]. split; [exact H2|].
    split; [exact H3|]. split; [exact H4|]. split; [exact H5|].
    split; [exact H6|]. split; [exact H7|]. apply H8. reflexivity.
Defined.

(** X14: a read of a written page, from [nvm_read_bio] to its completion.
    The request is sent to the physical sector of the page with the lock on
    the logical address held; when it completes, the request has its own
    completion routine and private pointer back, and the lock, the address
    handle and the wrapper are all returned: locks and mempools are as
    before the read, and so are blocks, pools and maps.  The device is one
    that does not serialize its pools, the strategy has no completion hook,
    and the completion has no device wait to sit out (waits are off, or the
    read time of the append point is zero). *)
Theorem nvm_read_bio_round_trip (h : lightnvm_h)
    (wait_add : list nat -> nat -> option Z -> list nat)
    (s : nvmd) (b : bio) (bio : nat) (err : Z) (n : nat)
    (fwd : list nvm_addr) (gp : nvm_addr) (bi : nat) (blk : nvm_block)
    (ai : nat) (a : nvm_ap) (pb0 : per_bio_data) (rest : list per_bio_data) :
  let l_addr := bi_sector b / NR_PHY_IN_LOG h in
  let sector := u64 (addr gp * NR_PHY_IN_LOG h
                     + bi_sector b mod NR_PHY_IN_LOG h) in
  bios s !! bio = Some b ->
  bio_data_dir b = READ ->
  0 < NR_PHY_IN_LOG h ->
  0 <= bi_sector b ->
  l_addr < nr_pages s ->
  existsb (Z.eqb l_addr) (locked_addrs s) = false ->
  addr_pool s = S n ->
  maps s !! trans_map = Some fwd ->
  nthZ fwd l_addr = Some gp ->
  block gp = Some bi ->
  blocks s !! bi = Some blk ->
  gc_running blk = 0 ->
  (forall st, block_to_ap h st blk = ai) ->
  aps s !! ai = Some a ->
  per_bio_pool s = pb0 :: rest ->
  Z.land (config_flags s) (NVM_OPT_NO_WAITS h) <> 0 \/ t_read a = 0 ->
  Z.land (config_flags s) (NVM_OPT_POOL_SERIALIZE h) = 0 ->
  exists s1 s2 pb,
    nvm_read_bio h nvm_lookup_ltop wait_add bio s
    = Ok (DM_MAPIO_SUBMITTED h) s1 /\
    klog s1 = EvSubmitBio (bi_rw b) bio :: klog s /\
    locked_addrs s1 = l_addr :: locked_addrs s /\
    nvm_end_read_bio h None bio err s1 = Ok tt s2 /\
    bios s2 = <[bio := set_bi_sector sector b]> (bios s) /\
    locked_addrs s2 = locked_addrs s /\
    addr_pool s2 = addr_pool s /\
    per_bio_pool s2 = pb :: rest /\
    klog s2 = match bi_end_io b with
              | Some f => [EvCallEndIo f bio err]
              | None => []
              end ++ klog s1 /\
    blocks s2 = blocks s /\ pools s2 = pools s /\ maps s2 = maps s /\
    rev_trans_map s2 = rev_trans_map s /\
    deferred_bios s2 = deferred_bios s.
Proof.
  intros l_addr sector Hb Hdir HNR Hsec Hl Hfree Hadp Hfwd Hgp Hblock Hblk
    Hgc Hai Ha Hpbp Hwait Hser.
  assert (Hbl : (bio < length (bios s))%nat) by (eapply lookup_lt_Some; eauto).
  assert (Hl0 : 0 <= l_addr) by (apply Z.div_pos; lia).
  pose proof (unlock_fresh _ _ Hfree) as Hunlock.
  unfold nvm_read_bio, nvm_lookup_ltop, nvm_lock_addr.
  destruct s as [np nh na cf nw bl ps ap mp rv bs df adp bpp pbp lk ck kl].
  cbn [nr_pages config_flags blocks aps maps bios addr_pool per_bio_pool
       locked_addrs pools rev_trans_map deferred_bios klog] in *.
  subst adp pbp.
  kern. cbn. rewrite Hb. cbn.
  replace (NR_PHY_IN_LOG h =? 0) with false
    by (symmetry; apply Z.eqb_neq; lia).
  cbn. fold l_addr. rewrite Hfree. cbn.
  erewrite (nvm_lookup_ltop_map_run _ l_addr trans_map None n fwd gp 0);
    [| cbn; lia | reflexivity | exact Hfwd | exact Hgp
     | rewrite Hblock; cbn; eauto ].
  cbn. rewrite Hb. cbn. rewrite Hblock. fold sector.
  match goal with
  | |- context [nvm_submit_bio _ _ _ _ _ _ _ _ _ ?st] => set (s0 := st)
  end.
  pose proof (nvm_submit_bio_run h wait_add s0
                (mk_addr (addr gp) (Some bi) None) l_addr READ
                (set_bi_sector sector b) bio None None trans_map bi blk a
                pb0 rest) as Hsub.
  cbn zeta in Hsub. rewrite Hai in Hsub.
  rewrite Hsub;
    [| reflexivity | exact Hblk | exact Ha | reflexivity
     | apply list_lookup_insert_eq; exact Hbl | exact Hser ].
  clear Hsub. subst s0. setters.
  match goal with
  | |- context [Ok (DM_MAPIO_SUBMITTED h) ?st = _] => set (s1 := st)
  end.
  assert (Hal : (ai < length ap)%nat) by (eapply lookup_lt_Some; eauto).
  assert (Hrw : Z.lor (Z.lor (bi_rw b) READ) 0 = bi_rw b)
    by (unfold READ; rewrite !Z.lor_0_r; reflexivity).
  eassert (Hb1 : bios s1 !! bio = Some _)
    by (subst s1; setters; apply list_lookup_insert_eq;
        rewrite length_insert; exact Hbl).
  unfold nvm_end_read_bio.
  exists s1. eexists. eexists.
  split; [reflexivity|].
  split; [subst s1; setters; cbn [bi_rw set_bi_sector]; rewrite Hrw;
          reflexivity|].
  split; [reflexivity|].
  erewrite nvm_endio_read_run;
    [ | exact Hb1 | reflexivity
      | unfold bio_data_dir; cbn [bi_rw set_bi_sector]; rewrite Hrw;
        exact Hdir
      | reflexivity | reflexivity
      | subst s1; setters; apply list_lookup_insert_eq; exact Hal
      | exact Hwait | exact Hser ].
  split; [reflexivity|].
  subst s1. setters.
  cbn [pb_bi_end_io pb_bi_private pb_l_addr pb_event pb_orig_bio bi_sector
       bi_rw bi_bdev bi_end_io bi_private bi_io_vec set_bi_sector].
  rewrite !list_insert_insert_eq, Hrw.
  split; [reflexivity|].
  split.
  { cbn [List.filter]. rewrite Z.eqb_refl. cbn [negb]. exact Hunlock. }
  split; [reflexivity|]. split; [reflexivity|].
  split; [destruct (bi_end_io b); reflexivity|].
  repeat split.
Qed.

Lemma nvm_read_bio_round_trip_witness :
  exists s1 s2 pb,
    nvm_read_bio example_h nvm_lookup_ltop nvm_bio_wait_add 0 example_dev_read3
    = Ok (DM_MAPIO_SUBMITTED example_h) s1 /\
    klog s1 = [EvSubmitBio 0 0] /\
    locked_addrs s1 = [3] /\
    nvm_end_read_bio example_h None 0 0 s1 = Ok tt s2 /\
    bios s2 = [set_bi_sector 43 example_read3] /\
    locked_addrs s2 = [] /\
    addr_pool s2 = 4%nat /\
    per_bio_pool s2 = [pb; stale_pbd] /\
    klog s2 = [EvCallEndIo (EndIoUpstream 7) 0 0; EvSubmitBio 0 0] /\
    blocks s2 = blocks example_dev_read3 /\
    maps s2 = maps example_dev_read3.
Proof.
  destruct (nvm_read_bio_round_trip example_h nvm_bio_wait_add
              example_dev_read3 example_read3 0 0 3
              (<[3%nat := mk_addr 5 (Some 0%nat) None]>
                 (replicate 64 (mk_addr 0 None None)))
              (mk_addr 5 (Some 0%nat) None) 0
              (set_cursor 5 1 (open_block 0 0)) 0
              (mk_ap 0 (Some 0%nat) (Some 1%nat) 25 500 (0, 0))
              stale_pbd [stale_pbd])
    as (s1 & s2 & pb & H1 & H2 & H3 & H4 & H5 & H6 & H7 & H8 & H9 & H10 & _
        & H11 & _).
  all: try reflexivity.
  all: try (cbn; lia).
  - left. vm_compute. discriminate.
  - exists s1, s2, pb.
    split; [exact H1|]. split; [exact H2|]. split; [exact H3|].
    split; [exact H4|]. split; [exact H5|]. split; [exact H6|].
    split; [exact H7|]. split; [exact H8|].
    split; [rewrite H9, H2; reflexivity|].
    split; [exact H10|]. exact H11.
Defined.

(** ** Requests that have to wait *)

#[local] Arguments nvm_read_bio : simpl never.

(** [nvm_read_bio] on a page whose block is being collected. *)
Lemma nvm_read_bio_defer_run (h : lightnvm_h)
    (wait_add : list nat -> nat -> option Z -> list nat) (s : nvmd)
    (bio : nat) :
  0 < NR_PHY_IN_LOG h ->
  read_waits h s bio ->
  nvm_read_bio h nvm_lookup_ltop wait_add bio s =
  Ok (DM_MAPIO_SUBMITTED h)
    (set_klog (EvGcKick :: klog s)
       (set_deferred_bios (deferred_bios s ++ [bio]) s)).
Proof.
  intros HNR (b & fwd & gp & bi & blk & Hb & Hdir & Hsec & Hl & Hfree & Hfwd
              & Hgp & Hblock & Hblk & Hgc).
  pose proof (unlock_fresh _ _ Hfree) as Hunlock.
  assert (Hl0 : 0 <= bi_sector b / NR_PHY_IN_LOG h) by (apply Z.div_pos; lia).
  assert (Hlook : forall lk,
             nvm_lookup_ltop_map (bi_sector b / NR_PHY_IN_LOG h) trans_map
               None (set_locked_addrs lk s)
             = Ok None (set_locked_addrs lk s)).
  { intros lk. destruct (addr_pool s) as [|n] eqn:Hadp.
    - apply nvm_lookup_ltop_map_nomem; [cbn; lia | exact Hadp].
    - rewrite (nvm_lookup_ltop_map_run _ _ trans_map None n fwd gp
                 (gc_running blk));
        [| cbn; lia | exact Hadp | exact Hfwd | exact Hgp
         | rewrite Hblock; cbn; eauto ].
      destruct (Z.eqb_spec (gc_running blk) 0); [congruence|reflexivity]. }
  unfold nvm_read_bio, nvm_lookup_ltop, nvm_lock_addr, nvm_unlock_addr,
    nvm_defer_bio, nvm_gc_kick.
  kern. cbn. rewrite Hb. cbn.
  replace (NR_PHY_IN_LOG h =? 0) with false
    by (symmetry; apply Z.eqb_neq; lia).
  cbn. rewrite Hfree. cbn.
  match goal with
  | |- context [nvm_lookup_ltop_map _ _ _ ?st] =>
      change st
        with (set_locked_addrs
                (bi_sector b / NR_PHY_IN_LOG h :: locked_addrs s) s)
  end.
  rewrite Hlook. cbn. rewrite Z.eqb_refl. cbn. rewrite Hunlock.
  destruct s; reflexivity.
Qed.

(** X15: a read of a page in a block that the garbage collector is moving
    is not served: the request joins the tail of the deferred list, the
    collector is kicked, and the lock on the logical address is released
    again.  Nothing else changes, whether a handle was to be had or not. *)
Theorem nvm_read_bio_deferred (h : lightnvm_h)
    (wait_add : list nat -> nat -> option Z -> list nat) (s : nvmd)
    (bio : nat) :
  0 < NR_PHY_IN_LOG h ->
  read_waits h s bio ->
  exists s',
    nvm_read_bio h nvm_lookup_ltop wait_add bio s
    = Ok (DM_MAPIO_SUBMITTED h) s' /\
    deferred_bios s' = deferred_bios s ++ [bio] /\
    locked_addrs s' = locked_addrs s /\
    klog s' = EvGcKick :: klog s /\
    bios s' = bios s /\ addr_pool s' = addr_pool s /\
    per_bio_pool s' = per_bio_pool s /\
    blocks s' = blocks s /\ pools s' = pools s /\ aps s' = aps s /\
    maps s' = maps s /\ rev_trans_map s' = rev_trans_map s /\
    block_page_pool s' = block_page_pool s /\ clock s' = clock s.
Proof.
  intros HNR Hw. eexists. split.
  - apply nvm_read_bio_defer_run; assumption.
  - repeat split.
Qed.

Lemma nvm_read_bio_deferred_witness :
  exists s',
    nvm_read_bio example_h nvm_lookup_ltop nvm_bio_wait_add 0 example_dev_gc
    = Ok (DM_MAPIO_SUBMITTED example_h) s' /\
    deferred_bios s' = [0%nat] /\
    locked_addrs s' = [] /\
    klog s' = [EvGcKick] /\
    bios s' = bios example_dev_gc /\
    addr_pool s' = addr_pool example_dev_gc.
Proof.
  destruct (nvm_read_bio_deferred example_h nvm_bio_wait_add example_dev_gc 0)
    as (s' & H1 & H2 & H3 & H4 & H5 & H6 & _).
  - reflexivity.
  - exists example_read3,
      (<[3%nat := mk_addr 5 (Some 0%nat) None]>
         (replicate 64 (mk_addr 0 None None))),
      (mk_addr 5 (Some 0%nat) None), 0%nat,
      (mk_block 0 0 (Some 0%nat) 5 1 0 0 (Some (replicate 8 [])) 0 0 1).
    repeat split; try reflexivity; try (cbn; lia).
  - exists s'. split; [exact H1|]. split; [exact H2|]. split; [exact H3|].
    split; [exact H4|]. split; [exact H5|]. exact H6.
Defined.

Lemma deferred_walk_waiting (h : lightnvm_h)
    (write_bio : nat -> M Z)
    (wait_add : list nat -> nat -> option Z -> list nat)
    (l : list nat) (s : nvmd) :
  0 < NR_PHY_IN_LOG h ->
  Forall (read_waits h s) l ->
  deferred_walk write_bio (nvm_read_bio h nvm_lookup_ltop wait_add) l s =
  Ok tt
    (set_klog (replicate (length l) EvGcKick ++ klog s)
       (set_deferred_bios (deferred_bios s ++ l) s)).
Proof.
  intros HNR. revert s. induction l as [|bio l IH]; intros s Hall.
  - cbn. rewrite app_nil_r. destruct s; reflexivity.
  - apply Forall_cons in Hall as [Hw Hall].
    cbn [deferred_walk]. kern.
    destruct Hw as (b & Hw). pose proof Hw as (fwd & gp & bi & blk & Hb & Hdir & _).
    cbn. rewrite Hb. rewrite Hdir. cbn.
    rewrite nvm_read_bio_defer_run
      by (first [exact HNR | exists b; exact Hw]).
    rewrite IH.
    + setters. rewrite <- app_assoc. cbn [app length replicate].
      replace (replicate (length l) EvGcKick ++ EvGcKick :: klog s)
        with (EvGcKick :: replicate (length l) EvGcKick ++ klog s).
      * destruct s; reflexivity.
      * clear. induction (length l) as [|n IHn]; [reflexivity|].
        cbn. rewrite <- IHn. reflexivity.
    + eapply Forall_impl; [exact Hall|]. intros x Hx. exact Hx.
Qed.

(** X16: requests that still have to wait are not lost and keep their
    turn.  When [nvm_deferred_bio_submit] runs over a list of reads whose
    pages are all in blocks still being collected, every one of them is
    deferred again: the list comes out as it was, in the same order, the
    collector has been kicked once for each request, and the device is
    otherwise untouched. *)
Theorem nvm_deferred_bio_submit_waiting (h : lightnvm_h)
    (write_bio : nat -> M Z)
    (wait_add : list nat -> nat -> option Z -> list nat) (s : nvmd) :
  0 < NR_PHY_IN_LOG h ->
  Forall (read_waits h s) (deferred_bios s) ->
  nvm_deferred_bio_submit write_bio
    (nvm_read_bio h nvm_lookup_ltop wait_add) s =
  Ok tt
    (set_klog (replicate (length (deferred_bios s)) EvGcKick ++ klog s) s).
Proof.
  intros HNR Hall. unfold nvm_deferred_bio_submit. kern. cbn.
  rewrite (deferred_walk_waiting h write_bio wait_add (deferred_bios s))
    by (first [exact HNR | exact Hall]).
  destruct s; reflexivity.
Qed.

Lemma nvm_deferred_bio_submit_waiting_witness :
  nvm_deferred_bio_submit (fun _ => ret 0)
    (nvm_read_bio example_h nvm_lookup_ltop nvm_bio_wait_add)
    example_dev_gc_deferred =
  Ok tt (set_klog [EvGcKick] example_dev_gc_deferred).
Proof.
  apply (nvm_deferred_bio_submit_waiting example_h (fun _ => ret 0)
           nvm_bio_wait_add example_dev_gc_deferred).
  - reflexivity.
  - constructor; [|constructor].
    exists example_read3,
      (<[3%nat := mk_addr 5 (Some 0%nat) None]>
         (replicate 64 (mk_addr 0 None None))),
      (mk_addr 5 (Some 0%nat) None), 0%nat,
      (mk_block 0 0 (Some 0%nat) 5 1 0 0 (Some (replicate 8 [])) 0 0 1).
    repeat split; try reflexivity; try (cbn; lia).
Defined.

(** ** One request at a time in a pool *)

#[local] Arguments nvm_delayed_bio_submit : simpl never.

(** [nvm_submit_bio] on a device that serializes its pools. *)
Lemma nvm_submit_bio_serial_run (h : lightnvm_h)
    (wait_add : list nat -> nat -> option Z -> list nat) (s : nvmd)
    (p : nvm_addr) (l_addr rw : Z) (b : bio) (bio : nat)
    (orig_bio : option nat) (sync : option Z) (tm : nat) (bi : nat)
    (blk : nvm_block) (a : nvm_ap) (pl : nvm_pool) (pb0 : per_bio_data)
    (rest : list per_bio_data) :
  let ai := block_to_ap h s blk in
  let pb := mk_pbd (bi_end_io b) (bi_private b) (pb_start_tv pb0) (Some ai)
              (Some p) l_addr sync orig_bio (Some tm) in
  let rw' := Z.lor (Z.lor (bi_rw b) rw)
               (match sync with Some _ => REQ_SYNC h | None => 0 end) in
  let b' := mk_bio (bi_sector b) rw' (bi_bdev b)
              (Some (if rw =? WRITE then EndIoNvmWrite else EndIoNvmRead))
              (PtrObj pb) (bi_io_vec b) in
  let waiting := wait_add (waiting_bios pl) bio (private p) in
  let base :=
    set_aps
      (<[ai := set_io_accesses
                 (if bio_data_dir b' =? READ
                  then (u64 (fst (io_accesses a) + 1), snd (io_accesses a))
                  else (fst (io_accesses a),
                        u64 (snd (io_accesses a) + 1))) a]> (aps s))
      (set_bios (<[bio := b']> (bios s)) (set_per_bio_pool rest s)) in
  block p = Some bi ->
  blocks s !! bi = Some blk ->
  aps s !! ai = Some a ->
  pools s !! ap_pool a = Some pl ->
  per_bio_pool s = pb0 :: rest ->
  bios s !! bio = Some b ->
  Z.land (config_flags s) (NVM_OPT_POOL_SERIALIZE h) <> 0 ->
  nvm_submit_bio h wait_add p l_addr rw bio orig_bio sync tm s =
  Ok tt
    (if negb (s32 (is_active pl + 1) =? 1) || bool_decide (waiting = [])
     then set_pools
            (<[ap_pool a := set_waiting waiting (is_active pl) (cur_bio pl)
                              pl]> (pools s)) base
     else set_klog (EvQueueWork (ap_pool a) :: klog s)
            (set_pools
               (<[ap_pool a := set_waiting waiting (s32 (is_active pl + 1))
                                 (cur_bio pl) pl]> (pools s)) base)).
Proof.
  intros ai pb rw' b' waiting base Hp Hblk Ha Hpl Hpbp Hb Hser.
  assert (Hbl : (bio < length (bios s))%nat) by (eapply lookup_lt_Some; eauto).
  apply Z.eqb_neq in Hser.
  destruct s as [np nh na cf nw bl ps ap mp rv bs df adp bpp pbp lk ck kl].
  cbn in *. subst pbp.
  unfold nvm_submit_bio, alloc_init_pbd, mempool_alloc_pbd, submit_bio.
  kern. cbn. rewrite Hp. cbn. rewrite Hblk. cbn. fold ai. rewrite Ha. cbn.
  rewrite Hb. cbn.
  rewrite list_lookup_insert_eq by exact Hbl. cbn.
  rewrite Hser. cbn. rewrite Hpl. cbn. fold waiting.
  rewrite list_insert_insert_eq.
  destruct (negb (s32 (is_active pl + 1) =? 1)); cbn; [reflexivity|].
  destruct waiting; reflexivity.
Qed.

(** X17: on a device that serializes its pools, a request for a pool that
    is busy is only queued: it joins the tail of the waiting list of the
    pool, the pool stays as active as it was with the same current request,
    and neither is the request sent to the device nor the worker of the pool
    woken. *)
Theorem nvm_submit_bio_pool_busy (h : lightnvm_h) (s : nvmd)
    (p : nvm_addr) (l_addr rw : Z) (b : bio) (bio : nat)
    (orig_bio : option nat) (sync : option Z) (tm : nat) (bi : nat)
    (blk : nvm_block) (a : nvm_ap) (pl : nvm_pool) (pb0 : per_bio_data)
    (rest : list per_bio_data) :
  block p = Some bi ->
  blocks s !! bi = Some blk ->
  aps s !! block_to_ap h s blk = Some a ->
  pools s !! ap_pool a = Some pl ->
  per_bio_pool s = pb0 :: rest ->
  bios s !! bio = Some b ->
  Z.land (config_flags s) (NVM_OPT_POOL_SERIALIZE h) <> 0 ->
  0 < is_active pl < 2 ^ 31 - 1 ->
  exists s' pl',
    nvm_submit_bio h nvm_bio_wait_add p l_addr rw bio orig_bio sync tm s
    = Ok tt s' /\
    pools s' !! ap_pool a = Some pl' /\
    waiting_bios pl' = waiting_bios pl ++ [bio] /\
    is_active pl' = is_active pl /\ cur_bio pl' = cur_bio pl /\
    klog s' = klog s /\
    blocks s' = blocks s /\ maps s' = maps s /\
    locked_addrs s' = locked_addrs s.
Proof.
  intros Hp Hblk Ha Hpl Hpbp Hb Hser Hact.
  assert (Hpll : (ap_pool a < length (pools s))%nat)
    by (eapply lookup_lt_Some; eauto).
  rewrite (nvm_submit_bio_serial_run h nvm_bio_wait_add s p l_addr rw b bio
             orig_bio sync tm bi blk a pl pb0 rest) by assumption.
  rewrite s32_small by lia.
  replace (is_active pl + 1 =? 1) with false
    by (symmetry; apply Z.eqb_neq; lia).
  cbn [negb orb]. eexists _, _. split; [reflexivity|]. setters.
  split; [apply list_lookup_insert_eq; exact Hpll|].
  repeat split.
Qed.

Lemma nvm_submit_bio_pool_busy_witness :
  exists s' pl',
    nvm_submit_bio example_h nvm_bio_wait_add (mk_addr 5 (Some 0%nat) None)
      3 READ 0 None None trans_map (example_dev_serial 1 [] (Some 1%nat))
    = Ok tt s' /\
    pools s' !! 0%nat = Some pl' /\
    waiting_bios pl' = [0%nat] /\
    is_active pl' = 1 /\ cur_bio pl' = Some 1%nat /\
    klog s' = [].
Proof.
  destruct (nvm_submit_bio_pool_busy example_h
              (example_dev_serial 1 [] (Some 1%nat))
              (mk_addr 5 (Some 0%nat) None) 3 READ example_read3 0 None None
              trans_map 0 (set_cursor 5 1 (open_block 0 0))
              (mk_ap 0 (Some 0%nat) (Some 1%nat) 25 500 (0, 0))
              (mk_pool 0 [2; 3]%nat [0; 1]%nat [] 2 [] 1 (Some 1%nat))
              stale_pbd [])
    as (s' & pl' & H1 & H2 & H3 & H4 & H5 & H6 & _).
  all: try reflexivity.
  - vm_compute. discriminate.
  - cbn. lia.
  - exists s', pl'. split; [exact H1|]. split; [exact H2|].
    split; [exact H3|]. split; [exact H4|]. split; [exact H5|]. exact H6.
Defined.

(** [nvm_delayed_bio_submit] with a request in the queue. *)
Lemma nvm_delayed_bio_submit_run (s : nvmd) (pool : nat) (pl : nvm_pool)
    (b : bio) (bio : nat) (rest : list nat) (pb : per_bio_data) (now : Z)
    (later : list Z) :
  pools s !! pool = Some pl ->
  waiting_bios pl = bio :: rest ->
  bios s !! bio = Some b ->
  bi_private b = PtrObj pb ->
  clock s = now :: later ->
  nvm_delayed_bio_submit pool s =
  Ok tt
    (set_klog (EvSubmitBio (bi_rw b) bio :: klog s)
       (set_bios
          (<[bio := set_bi_private
                      (PtrObj (mk_pbd (pb_bi_end_io pb) (pb_bi_private pb) now
                                 (pb_ap pb) (pb_addr pb) (pb_l_addr pb)
                                 (pb_event pb) (pb_orig_bio pb)
                                 (pb_trans_map pb))) b]> (bios s))
          (set_clock later
             (set_pools
                (<[pool := set_waiting rest (is_active pl) (Some bio) pl]>
                   (pools s)) s)))).
Proof.
  intros Hpl Hw Hb Hpriv Hclock.
  destruct s as [np nh na cf nw bl ps ap mp rv bs df adp bpp pbp lk ck kl].
  cbn in *. subst ck.
  unfold nvm_delayed_bio_submit, submit_bio. kern. cbn.
  rewrite Hpl. cbn. rewrite Hw. cbn. rewrite Hb. cbn. rewrite Hpriv.
  reflexivity.
Qed.

(** X18: on a device that serializes its pools, a request for an idle pool
    with an empty queue reaches the device through the worker of the pool.
    [nvm_submit_bio] queues it, marks the pool active and wakes the worker
    without submitting; [nvm_delayed_bio_submit] then takes it off the
    queue, makes it the current request of the pool, stamps its wrapper
    with the time and submits it. *)
Theorem nvm_submit_bio_pool_idle (h : lightnvm_h) (s : nvmd)
    (p : nvm_addr) (l_addr rw : Z) (b : bio) (bio : nat)
    (orig_bio : option nat) (sync : option Z) (tm : nat) (bi : nat)
    (blk : nvm_block) (a : nvm_ap) (pl : nvm_pool) (pb0 : per_bio_data)
    (rest : list per_bio_data) (now : Z) (later : list Z) :
  let rw' := Z.lor (Z.lor (bi_rw b) rw)
               (match sync with Some _ => REQ_SYNC h | None => 0 end) in
  block p = Some bi ->
  blocks s !! bi = Some blk ->
  aps s !! block_to_ap h s blk = Some a ->
  pools s !! ap_pool a = Some pl ->
  per_bio_pool s = pb0 :: rest ->
  bios s !! bio = Some b ->
  Z.land (config_flags s) (NVM_OPT_POOL_SERIALIZE h) <> 0 ->
  is_active pl = 0 ->
  waiting_bios pl = [] ->
  clock s = now :: later ->
  exists s1 s2 pl1 pl2 b2 pb2,
    nvm_submit_bio h nvm_bio_wait_add p l_addr rw bio orig_bio sync tm s
    = Ok tt s1 /\
    pools s1 !! ap_pool a = Some pl1 /\
    waiting_bios pl1 = [bio] /\ is_active pl1 = 1 /\
    cur_bio pl1 = cur_bio pl /\
    klog s1 = EvQueueWork (ap_pool a) :: klog s /\
    nvm_delayed_bio_submit (ap_pool a) s1 = Ok tt s2 /\
    pools s2 !! ap_pool a = Some pl2 /\
    waiting_bios pl2 = [] /\ is_active pl2 = 1 /\ cur_bio pl2 = Some bio /\
    klog s2 = EvSubmitBio rw' bio :: klog s1 /\
    bios s2 !! bio = Some b2 /\
    bi_rw b2 = rw' /\ bi_sector b2 = bi_sector b /\
    bi_private b2 = PtrObj pb2 /\
    pb_start_tv pb2 = now /\ pb_l_addr pb2 = l_addr /\ pb_addr pb2 = Some p /\
    clock s2 = later.
Proof.
  intros rw' Hp Hblk Ha Hpl Hpbp Hb Hser Hact Hwait Hclock.
  assert (Hpll : (ap_pool a < length (pools s))%nat)
    by (eapply lookup_lt_Some; eauto).
  assert (Hbl : (bio < length (bios s))%nat) by (eapply lookup_lt_Some; eauto).
  rewrite (nvm_submit_bio_serial_run h nvm_bio_wait_add s p l_addr rw b bio
             orig_bio sync tm bi blk a pl pb0 rest) by assumption.
  rewrite Hact, Hwait. change (0 + 1) with 1. rewrite s32_small by lia.
  change (1 =? 1) with true. change (nvm_bio_wait_add [] bio (private p))
    with [bio].
  rewrite bool_decide_eq_false_2 by discriminate.
  cbn [negb orb].
  match goal with
  | |- context [Ok tt ?st = _] => set (s1 := st)
  end.
  eassert (Hpl1 : pools s1 !! ap_pool a = Some _)
    by (subst s1; setters; apply list_lookup_insert_eq; exact Hpll).
  eassert (Hb1 : bios s1 !! bio = Some _)
    by (subst s1; setters; apply list_lookup_insert_eq; exact Hbl).
  assert (Hck : clock s1 = now :: later) by exact Hclock.
  exists s1. eexists. eexists _, _, _, _.
  split; [reflexivity|]. split; [exact Hpl1|].
  split; [reflexivity|]. split; [reflexivity|]. split; [reflexivity|].
  split; [reflexivity|].
  split.
  { erewrite nvm_delayed_bio_submit_run;
      [reflexivity | exact Hpl1 | reflexivity | exact Hb1 | reflexivity
      | exact Hck]. }
  subst s1. setters.
  split; [apply list_lookup_insert_eq; rewrite length_insert; exact Hpll|].
  cbn.
  split; [reflexivity|]. split; [reflexivity|]. split; [reflexivity|].
  split; [reflexivity|].
  split; [apply list_lookup_insert_eq; rewrite length_insert; exact Hbl|].
  cbn. repeat split.
Qed.

Lemma nvm_submit_bio_pool_idle_witness :
  exists s1 s2 pl1 pl2 b2 pb2,
    nvm_submit_bio example_h nvm_bio_wait_add (mk_addr 5 (Some 0%nat) None)
      3 READ 0 None None trans_map (example_dev_serial 0 [] None)
    = Ok tt s1 /\
    pools s1 !! 0%nat = Some pl1 /\
    waiting_bios pl1 = [0%nat] /\ is_active pl1 = 1 /\
    klog s1 = [EvQueueWork 0] /\
    nvm_delayed_bio_submit 0 s1 = Ok tt s2 /\
    pools s2 !! 0%nat = Some pl2 /\
    waiting_bios pl2 = [] /\ is_active pl2 = 1 /\
    cur_bio pl2 = Some 0%nat /\
    klog s2 = [EvSubmitBio 0 0; EvQueueWork 0] /\
    bios s2 !! 0%nat = Some b2 /\
    bi_private b2 = PtrObj pb2 /\
    pb_start_tv pb2 = 1000 /\
    clock s2 = [].
Proof.
  destruct (nvm_submit_bio_pool_idle example_h
              (example_dev_serial 0 [] None)
              (mk_addr 5 (Some 0%nat) None) 3 READ example_read3 0 None None
              trans_map 0 (set_cursor 5 1 (open_block 0 0))
              (mk_ap 0 (Some 0%nat) (Some 1%nat) 25 500 (0, 0))
              (mk_pool 0 [2; 3]%nat [0; 1]%nat [] 2 [] 0 None)
              stale_pbd [] 1000 [])
    as (s1 & s2 & pl1 & pl2 & b2 & pb2 & H1 & H2 & H3 & H4 & _ & H5 & H6 & H7
        & H8 & H9 & H10 & H11 & H12 & _ & _ & H13 & H14 & _ & _ & H15).
  all: try reflexivity.
  - vm_compute. discriminate.
  - exists s1, s2, pl1, pl2, b2, pb2.
    split; [exact H1|]. split; [exact H2|]. split; [exact H3|].
    split; [exact H4|]. split; [exact H5|]. split; [exact H6|].
    split; [exact H7|]. split; [exact H8|]. split; [exact H9|].
    split; [exact H10|]. split; [rewrite H11, H5; reflexivity|].
    split; [exact H12|]. split; [exact H13|]. split; [exact H14|]. exact H15.
Defined.

(** [nvm_endio] for a read on a device that serializes its pools and does
    not wait. *)
Lemma nvm_endio_read_serial_run (h : lightnvm_h) (s : nvmd) (b : bio)
    (bio : nat) (err : Z) (pb : per_bio_data) (p : nvm_addr) (ai : nat)
    (a : nvm_ap) (pl : nvm_pool) :
  bios s !! bio = Some b ->
  bi_private b = PtrObj pb ->
  bio_data_dir b = READ ->
  pb_addr pb = Some p ->
  pb_ap pb = Some ai ->
  aps s !! ai = Some a ->
  pools s !! ap_pool a = Some pl ->
  Z.land (config_flags s) (NVM_OPT_NO_WAITS h) <> 0 \/ t_read a = 0 ->
  Z.land (config_flags s) (NVM_OPT_POOL_SERIALIZE h) <> 0 ->
  nvm_endio h None bio err s =
  Ok tt
    (set_per_bio_pool (pb :: per_bio_pool s)
       (set_addr_pool
          (match pb_event pb with
           | Some _ => addr_pool s
           | None => S (addr_pool s)
           end)
          (set_klog
             (match pb_event pb with
              | Some ev => [EvComplete ev]
              | None => []
              end ++
              match pb_orig_bio pb with
              | Some ob => [EvBioEndio ob err]
              | None => []
              end ++
              match pb_bi_end_io pb with
              | Some f => [EvCallEndIo f bio err]
              | None => []
              end ++ EvQueueWork (ap_pool a) :: klog s)
             (set_bios
                (<[bio := mk_bio (bi_sector b) (bi_rw b) (bi_bdev b)
                            (pb_bi_end_io pb) (pb_bi_private pb)
                            (bi_io_vec b)]> (bios s))
                (set_pools
                   (<[ap_pool a := set_waiting (waiting_bios pl)
                                     (is_active pl) None pl]> (pools s))
                   (set_locked_addrs
                      (List.filter (fun x => negb (x =? pb_l_addr pb))
                         (locked_addrs s)) s)))))).
Proof.
  intros Hb Hpriv Hdir Hp Hap Ha Hpl Hwait Hser.
  apply Z.eqb_neq in Hser.
  destruct s as [np nh na cf nw bl ps ap mp rv bs df adp bpp pbp lk ck kl].
  cbn in *.
  unfold nvm_endio, nvm_unlock_addr, endio_account, endio_pace, endio_finish,
    exit_pbd, free_pbd, mempool_free_pbd, mempool_free_addr, bio_endio.
  kern. cbn. rewrite Hb. cbn. rewrite Hpriv. cbn. rewrite Hp, Hap. cbn.
  rewrite Ha. cbn. rewrite Hdir. cbn.
  assert (Hw : (Z.land cf (NVM_OPT_NO_WAITS h) =? 0) && negb (t_read a =? 0)
               = false).
  { destruct Hwait as [Hw|Hw].
    - apply Z.eqb_neq in Hw. rewrite Hw. reflexivity.
    - rewrite Hw. cbn. apply andb_false_r. }
  rewrite Hw. cbn. rewrite Hser. cbn. rewrite Hpl. cbn. rewrite Hb. cbn.
  destruct (pb_bi_end_io pb), (pb_orig_bio pb), (pb_event pb); cbn;
    rewrite ?Hdir; reflexivity.
Qed.

(** X19: when the request at the device completes on a device that
    serializes its pools, [nvm_endio] clears the current request of the pool
    and wakes its worker; with nothing in the queue the worker,
    [nvm_delayed_bio_submit], then takes one off the activity count of the
    pool and submits nothing.  After the only request of a pool the pool is
    idle again.  The strategy has no completion hook and the completion has
    no device wait to sit out (waits are off, or the read time of the append
    point is zero). *)
Theorem nvm_endio_pool_idle (h : lightnvm_h) (s : nvmd) (b : bio)
    (bio : nat) (err : Z) (pb : per_bio_data) (p : nvm_addr) (ai : nat)
    (a : nvm_ap) (pl : nvm_pool) :
  bios s !! bio = Some b ->
  bi_private b = PtrObj pb ->
  bio_data_dir b = READ ->
  pb_addr pb = Some p ->
  pb_ap pb = Some ai ->
  aps s !! ai = Some a ->
  pools s !! ap_pool a = Some pl ->
  Z.land (config_flags s) (NVM_OPT_NO_WAITS h) <> 0 \/ t_read a = 0 ->
  Z.land (config_flags s) (NVM_OPT_POOL_SERIALIZE h) <> 0 ->
  waiting_bios pl = [] ->
  - 2 ^ 31 < is_active pl < 2 ^ 31 ->
  exists s1 s2 pl1 pl2,
    nvm_end_read_bio h None bio err s = Ok tt s1 /\
    pools s1 !! ap_pool a = Some pl1 /\
    cur_bio pl1 = None /\ is_active pl1 = is_active pl /\
    In (EvQueueWork (ap_pool a)) (klog s1) /\
    nvm_delayed_bio_submit (ap_pool a) s1 = Ok tt s2 /\
    pools s2 !! ap_pool a = Some pl2 /\
    cur_bio pl2 = None /\ waiting_bios pl2 = [] /\
    is_active pl2 = is_active pl - 1 /\
    klog s2 = klog s1 /\ bios s2 = bios s1.
Proof.
  intros Hb Hpriv Hdir Hp Hap Ha Hpl Hwait Hser Hq Hact.
  assert (Hpll : (ap_pool a < length (pools s))%nat)
    by (eapply lookup_lt_Some; eauto).
  unfold nvm_end_read_bio.
  rewrite (nvm_endio_read_serial_run h s b bio err pb p ai a pl)
    by assumption.
  match goal with
  | |- context [Ok tt ?st = _] => set (s1 := st)
  end.
  eassert (Hpl1 : pools s1 !! ap_pool a = Some _)
    by (subst s1; setters; apply list_lookup_insert_eq; exact Hpll).
  exists s1. eexists. eexists _, _.
  split; [reflexivity|]. split; [exact Hpl1|].
  split; [reflexivity|]. split; [reflexivity|].
  split.
  { subst s1. setters. rewrite !in_app_iff. right. right. right. left.
    reflexivity. }
  split.
  { unfold nvm_delayed_bio_submit. kern.
    cbv beta iota. rewrite Hpl1. cbn [waiting_bios set_waiting].
    rewrite Hq. reflexivity. }
  setters.
  split; [apply list_lookup_insert_eq; subst s1; setters;
          rewrite length_insert; exact Hpll|].
  cbn [cur_bio waiting_bios is_active set_waiting].
  split; [reflexivity|]. split; [reflexivity|].
  split; [apply s32_small; lia|].
  split; reflexivity.
Qed.

Lemma nvm_endio_pool_idle_witness :
  exists s1 s2 pl1 pl2,
    nvm_end_read_bio example_h None 1 0 (example_dev_serial 1 [] (Some 1%nat))
    = Ok tt s1 /\
    pools s1 !! 0%nat = Some pl1 /\
    cur_bio pl1 = None /\ is_active pl1 = 1 /\
    nvm_delayed_bio_submit 0 s1 = Ok tt s2 /\
    pools s2 !! 0%nat = Some pl2 /\
    cur_bio pl2 = None /\ waiting_bios pl2 = [] /\ is_active pl2 = 0 /\
    klog s2 = klog s1.
Proof.
  destruct (nvm_endio_pool_idle example_h
              (example_dev_serial 1 [] (Some 1%nat)) example_issue_read 1 0
              example_pbd_read (mk_addr 5 (Some 0%nat) None) 0
              (mk_ap 0 (Some 0%nat) (Some 1%nat) 25 500 (0, 0))
              (mk_pool 0 [2; 3]%nat [0; 1]%nat [] 2 [] 1 (Some 1%nat)))
    as (s1 & s2 & pl1 & pl2 & H1 & H2 & H3 & H4 & _ & H5 & H6 & H7 & H8 & H9
        & H10 & _).
  all: try reflexivity.
  - left. vm_compute. discriminate.
  - vm_compute. discriminate.
  - cbn. lia.
  - exists s1, s2, pl1, pl2.
    split; [exact H1|]. split; [exact H2|]. split; [exact H3|].
    split; [exact H4|]. split; [exact H5|]. split; [exact H6|].
    split; [exact H7|]. split; [exact H8|]. split; [exact H9|]. exact H10.
Defined.

(** ** The device wait *)

(** What a run of [wait_longer] that returns has seen of the clock. *)
Lemma wait_longer_inv (start d : Z) (ticks : list Z) (s s' : nvmd) :
  wait_longer start d ticks s = Ok tt s' ->
  exists before t after,
    ticks = before ++ t :: after /\
    Forall (fun x => u64 (Z.quot (x - start) 1000) < d) before /\
    d <= u64 (Z.quot (t - start) 1000) /\
    clock s' = after /\
    beside_clock s' = beside_clock s.
Proof.
  revert s. induction ticks as [|t ticks IH]; intros s H.
  - discriminate H.
  - cbn [wait_longer] in H. kern. revert H.
    destruct (Z.gtb_spec d (u64 (Z.quot (t - start) 1000))) as [Hgt|Hle];
      intros H.
    + destruct (u64 (d - u64 (Z.quot (t - start) 1000)) >? 1500),
        (u64 (d - u64 (Z.quot (t - start) 1000)) >? 10);
        cbn in H;
        destruct (IH _ H) as (before & t' & after & -> & Hall & Ht & Hck
                              & Hrest);
        exists (t :: before), t', after;
        (split; [reflexivity|]);
        (split; [constructor; [lia | exact Hall]|]);
        (split; [exact Ht|]); (split; [exact Hck|]);
        rewrite Hrest; reflexivity.
    + cbn in H. injection H as <-.
      exists [], t, ticks. repeat split; [constructor | lia].
Qed.


(** X20: the pacing loop of [nvm_endio] never returns early.  When
    [wait_longer] returns, the clock reading it stopped at is the first one
    at which [dev_wait] microseconds had passed since the start of the
    request: every reading before it was short of that, and the readings
    after it are still to come. *)
Theorem wait_longer_deadline (start d : Z) (ticks : list Z) (s s' : nvmd) :
  wait_longer start d ticks s = Ok tt s' ->
  exists before t after,
    ticks = before ++ t :: after /\
    Forall (fun x => u64 (Z.quot (x - start) 1000) < d) before /\
    d <= u64 (Z.quot (t - start) 1000) /\
    clock s' = after /\
    beside_clock s' = beside_clock s.
Proof. exact (wait_longer_inv start d ticks s s'). Qed.

Lemma wait_longer_deadline_witness :
  exists s' before t after,
    wait_longer 0 25 [10000; 20000; 30000; 40000]
      (example_dev_inflight 7 0 [10000; 20000; 30000; 40000]) = Ok tt s' /\
    [10000; 20000; 30000; 40000] = before ++ t :: after /\
    Forall (fun x => u64 (Z.quot (x - 0) 1000) < 25) before /\
    25 <= u64 (Z.quot (t - 0) 1000) /\
    clock s' = after.
Proof.
  evar (s' : nvmd).
  assert (Hrun : wait_longer 0 25 [10000; 20000; 30000; 40000]
                   (example_dev_inflight 7 0 [10000; 20000; 30000; 40000])
                 = Ok tt s')
    by (subst s'; vm_compute; reflexivity).
  destruct (wait_longer_deadline 0 25 [10000; 20000; 30000; 40000] _ s' Hrun)
    as (before & t & after & H1 & H2 & H3 & H4 & _).
  exists s', before, t, after.
  split; [exact Hrun|]. split; [exact H1|]. split; [exact H2|].
  split; [exact H3|]. exact H4.
Defined.

(** ** A block taken and put back *)

(** [nvm_pool_put_block], run. *)
Lemma nvm_pool_put_block_run (s : nvmd) (b : nat) (blk : nvm_block)
    (pl : nvm_pool) :
  blocks s !! b = Some blk ->
  pools s !! blk_pool blk = Some pl ->
  nvm_pool_put_block (Some b) s =
  Ok tt
    (set_pools
       (<[blk_pool blk :=
            set_lists (list_del b (free_list pl) ++ [b])
              (list_del b (used_list pl)) (u32 (nr_free_blocks pl + 1)) pl]>
          (map (fun p => set_lists (list_del b (free_list p))
                           (list_del b (used_list p)) (nr_free_blocks p) p)
             (pools s))) s).
Proof.
  intros Hb Hpl.
  destruct s as [np nh na cf nw bl ps ap mp rv bs df adp bpp pbp lk ck kl].
  cbn in *. unfold nvm_pool_put_block. kern. cbn. rewrite Hb. cbn.
  change (map ?f ps) with (f <$> ps).
  rewrite list_lookup_fmap, Hpl. reflexivity.
Qed.

(** X21: a block taken from a pool with [nvm_pool_get_block] and put back
    with [nvm_pool_put_block] leaves the used list and the count of free
    blocks of the pool as they were, and goes to the tail of the free list.
    The block comes back erased, and it keeps the staging buffer it was
    given: the mempool of buffers is one short. *)
Theorem nvm_pool_get_put_block (s : nvmd) (pi : nat) (pl : nvm_pool)
    (b : nat) (rest : list nat) (nb : nvm_block) (m : nat) (is_gc : Z) :
  pools s !! pi = Some pl ->
  free_list pl = b :: rest ->
  (is_gc =? 0) && (nr_free_blocks pl <? nr_aps s) = false ->
  blocks s !! b = Some nb ->
  blk_pool nb = pi ->
  block_page_pool s = S m ->
  b ∉ rest ->
  b ∉ used_list pl ->
  0 < nr_free_blocks pl < 2 ^ 32 ->
  exists s1 s2 pl2 nb2,
    nvm_pool_get_block (Some pi) is_gc s = Ok (Some b) s1 /\
    nvm_pool_put_block (Some b) s1 = Ok tt s2 /\
    pools s2 !! pi = Some pl2 /\
    free_list pl2 = rest ++ [b] /\
    used_list pl2 = used_list pl /\
    nr_free_blocks pl2 = nr_free_blocks pl /\
    blocks s2 !! b = Some nb2 /\
    next_page nb2 = 0 /\ next_offset nb2 = 0 /\ nr_invalid_pages nb2 = 0 /\
    is_Some (data nb2) /\
    block_page_pool s2 = m.
Proof.
  intros Hpl Hfl Hcond Hnb Hpool Hbpp Hrest Hused Hnr.
  assert (Hpll : (pi < length (pools s))%nat) by (eapply lookup_lt_Some; eauto).
  assert (Hbl : (b < length (blocks s))%nat) by (eapply lookup_lt_Some; eauto).
  rewrite (nvm_pool_get_block_run s pi pl b rest nb m is_gc Hpl Hfl Hcond Hnb)
    by (first [rewrite Hpool, Hpl; eauto | exact Hbpp]).
  match goal with
  | |- context [Ok (Some b) ?st = _] => set (s1 := st)
  end.
  eassert (Hb1 : blocks s1 !! b = Some _)
    by (subst s1; setters; apply list_lookup_insert_eq; exact Hbl).
  eassert (Hp1 : pools s1 !! pi = Some _)
    by (subst s1; setters; apply list_lookup_insert_eq; exact Hpll).
  exists s1. eexists. eexists _, _. split; [reflexivity|].
  split.
  { erewrite nvm_pool_put_block_run;
      [reflexivity | exact Hb1 | cbn [blk_pool set_data]; rewrite Hpool;
                                 exact Hp1]. }
  cbn [blk_pool set_data]. rewrite Hpool. subst s1. setters.
  split; [apply list_lookup_insert_eq;
          first [rewrite length_fmap | rewrite length_map];
          rewrite length_insert; exact Hpll|].
  cbn [set_lists free_list used_list nr_free_blocks].
  split; [rewrite list_del_absent by exact Hrest; reflexivity|].
  split.
  { unfold list_del. rewrite List.filter_app. cbn [List.filter].
    rewrite Nat.eqb_refl. cbn [negb]. rewrite app_nil_r.
    apply (list_del_absent b). exact Hused. }
  split.
  { rewrite (u32_small (nr_free_blocks pl - 1)) by lia.
    rewrite u32_small by lia. lia. }
  split; [apply list_lookup_insert_eq; exact Hbl|].
  cbn. repeat split. eauto.
Qed.

Lemma nvm_pool_get_put_block_witness :
  exists s1 s2 pl2 nb2,
    nvm_pool_get_block (Some 0%nat) 0 example_dev = Ok (Some 2%nat) s1 /\
    nvm_pool_put_block (Some 2%nat) s1 = Ok tt s2 /\
    pools s2 !! 0%nat = Some pl2 /\
    free_list pl2 = [3; 2]%nat /\
    used_list pl2 = [0; 1]%nat /\
    nr_free_blocks pl2 = 2 /\
    blocks s2 !! 2%nat = Some nb2 /\
    is_Some (data nb2) /\
    block_page_pool s2 = 3%nat.
Proof.
  destruct (nvm_pool_get_put_block example_dev 0
              (mk_pool 0 [2; 3]%nat [0; 1]%nat [] 2 [] 0 None) 2 [3%nat]
              (fresh_block 2 0) 3 0)
    as (s1 & s2 & pl2 & nb2 & H1 & H2 & H3 & H4 & H5 & H6 & H7 & _ & _ & _
        & H8 & H9).
  all: try reflexivity.
  - intros Hin. apply list_elem_of_In in Hin. cbn in Hin. intuition lia.
  - intros Hin. apply list_elem_of_In in Hin. cbn in Hin. intuition lia.
  - cbn. lia.
  - exists s1, s2, pl2, nb2.
    split; [exact H1|]. split; [exact H2|]. split; [exact H3|].
    split; [exact H4|]. split; [exact H5|]. split; [exact H6|].
    split; [exact H7|]. split; [exact H8|]. exact H9.
Defined.

(** ** The payload of a write *)

(** X22: [nvm_write_init_bio] stages the page of a write and builds the
    request that goes to the device.  The page is copied over the slot of
    the staging buffer that belongs to the physical address, the other
    slots stay, and the count of staged pages goes up by one, whatever it
    was.  The new request is for the first sector of the physical page,
    carries the slots that end at the new count, and leaves the original
    request alone; when the block had staged as many pages as lie before
    the address, the last page of the new request is the slot just
    written. *)
Theorem nvm_write_init_bio_payload (h : lightnvm_h) (s : nvmd) (b : bio)
    (bio : nat) (p : nvm_addr) (bi : nat) (blk : nvm_block)
    (src : page) (more : list bio_vec) (d : list page) (dst : page) :
  let idx := addr p mod nr_host_pages_in_blk s in
  bios s !! bio = Some b ->
  bi_io_vec b = BvPage src :: more ->
  block p = Some bi ->
  blocks s !! bi = Some blk ->
  is_Some (pools s !! blk_pool blk) ->
  0 < nr_host_pages_in_blk s < 2 ^ 31 ->
  0 < NR_HOST_PAGES_IN_FLASH_PAGE h ->
  data blk = Some d ->
  nthZ d idx = Some dst ->
  exists s' ib blk' d',
    nvm_write_init_bio h bio p s = Ok (length (bios s)) s' /\
    bios s' !! length (bios s) = Some ib /\
    bi_sector ib = u64 (addr p * NR_PHY_IN_LOG h) /\
    length (bi_io_vec ib) = Z.to_nat (NR_HOST_PAGES_IN_FLASH_PAGE h) /\
    bi_io_vec ib
    = map (fun i =>
             BvBlockData bi
               (u32 (s32 (data_size blk + 1) - NR_HOST_PAGES_IN_FLASH_PAGE h
                     + Z.of_nat i)))
        (seq 0 (Z.to_nat (NR_HOST_PAGES_IN_FLASH_PAGE h))) /\
    bios s' !! bio = Some b /\
    blocks s' !! bi = Some blk' /\
    data blk' = Some d' /\
    nthZ d' idx = Some (src ++ drop (length src) dst) /\
    (forall j, j <> idx -> nthZ d' j = nthZ d j) /\
    length d' = length d /\
    data_size blk' = s32 (data_size blk + 1) /\
    (data_size blk = idx ->
     last (bi_io_vec ib) = Some (BvBlockData bi idx) /\
     data_size blk' = idx + 1).
Proof.
  intros idx Hb Hvec Hp Hblk Hpool Hn HNR Hd Hdst.
  assert (Hidx : 0 <= idx < nr_host_pages_in_blk s)
    by (apply Z.mod_pos_bound; lia).
  assert (Hbl : (bio < length (bios s))%nat) by (eapply lookup_lt_Some; eauto).
  assert (Hbil : (bi < length (blocks s))%nat)
    by (eapply lookup_lt_Some; eauto).
  destruct Hpool as [pl Hpl].
  destruct s as [np nh na cf nw bl ps ap mp rv bs df adp bpp pbp lk ck kl].
  cbn [nr_pages nr_host_pages_in_blk blocks pools bios] in *.
  unfold nvm_write_init_bio, nvm_bv_copy. kern. cbn.
  rewrite lookup_app_l by exact Hbl. rewrite Hb. cbn. rewrite Hp. cbn.
  rewrite Hblk. cbn. rewrite Hpl. cbn.
  replace (nh =? 0) with false by (symmetry; apply Z.eqb_neq; lia).
  cbn. rewrite Hvec. cbn. rewrite Hd.
  fold idx. rewrite (u32_small idx) by lia. rewrite Hdst. cbn.
  rewrite list_lookup_middle by reflexivity. cbn.
  eexists _, _, _, _. split; [reflexivity|]. setters.
  split; [apply list_lookup_insert_eq; rewrite length_app; cbn; lia|].
  cbn [bi_sector bi_io_vec set_bi_io_vec].
  split; [reflexivity|].
  split; [rewrite length_map, length_seq; reflexivity|].
  split; [reflexivity|].
  split.
  { rewrite list_lookup_insert_ne by lia. rewrite lookup_app_l by exact Hbl.
    exact Hb. }
  split; [apply list_lookup_insert_eq; exact Hbil|].
  cbn [data data_size set_data set_data_size].
  split; [reflexivity|].
  split; [eapply nthZ_insert_eq; exact Hdst|].
  split; [intros j Hj; apply nthZ_insert_ne; lia|].
  split; [apply length_insert|].
  split; [reflexivity|].
  intros Hsize. rewrite Hsize, (s32_small (idx + 1)) by lia.
  split; [|reflexivity].
  destruct (Z.to_nat (NR_HOST_PAGES_IN_FLASH_PAGE h)) as [|k] eqn:Hk;
    [lia|].
  rewrite seq_S, map_app. cbn [map]. rewrite last_snoc. cbn [Nat.add].
  replace (idx + 1 - NR_HOST_PAGES_IN_FLASH_PAGE h + Z.of_nat k) with idx
    by lia.
  rewrite u32_small by lia. reflexivity.
Qed.

Lemma nvm_write_init_bio_payload_witness :
  exists s' ib blk' d',
    nvm_write_init_bio example_h 0 (mk_addr 0 (Some 0%nat) None)
      example_dev_write = Ok 1%nat s' /\
    bios s' !! 1%nat = Some ib /\
    bi_sector ib = 0 /\
    last (bi_io_vec ib) = Some (BvBlockData 0 0) /\
    bios s' !! 0%nat = Some example_write /\
    blocks s' !! 0%nat = Some blk' /\
    data blk' = Some d' /\
    nthZ d' 0 = Some [1; 2; 3] /\
    data_size blk' = 1.
Proof.
  destruct (nvm_write_init_bio_payload example_h example_dev_write
              example_write 0 (mk_addr 0 (Some 0%nat) None) 0
              (open_block 0 0) [1; 2; 3] [] (replicate 8 []) [])
    as (s' & ib & blk' & d' & H1 & H2 & H3 & _ & _ & H5 & H6 & H7 & H8 & _
        & _ & _ & Hlast).
  all: try reflexivity.
  - eexists. reflexivity.
  - cbn. lia.
  - destruct Hlast as [H4 H9]; [reflexivity|].
    exists s', ib, blk', d'.
    split; [exact H1|]. split; [exact H2|]. split; [exact H3|].
    split; [exact H4|]. split; [exact H5|]. split; [exact H6|].
    split; [exact H7|]. split; [exact H8|]. exact H9.
Defined.

(** ** A write from the map to the device *)

#[local] Arguments nvm_write_init_bio : simpl never.
#[local] Arguments nvm_map_ltop_rr : simpl never.


Lemma Ok_inj {A} (a a' : A) (s s' : nvmd) :
  Ok a s = Ok a' s' -> a = a' /\ s = s'.
Proof. intros H. injection H as -> ->. split; reflexivity. Qed.




(** ** What every completion gives back *)

#[local] Arguments wait_longer : simpl never.
#[local] Arguments endio_account : simpl never.
#[local] Arguments endio_pace : simpl never.
#[local] Arguments endio_finish : simpl never.

Lemma endio_account_held (b : bio) (block : option nat) (a : nvm_ap)
    (d : Z) (s s' : nvmd) :
  endio_account b block a s = Ok d s' -> held s' = held s.
Proof.
  intros H. unfold endio_account, mempool_free_block_pages in H. kern.
  invert_run H.
  all: apply Ok_inj in H as [_ <-]; reflexivity.
Qed.

Lemma endio_pace_held (h : lightnvm_h) (bio : nat) (pb : per_bio_data)
    (d : Z) (s s' : nvmd) :
  endio_pace h None bio pb d s = Ok tt s' -> held s' = held s.
Proof.
  intros H. unfold endio_pace in H. kern. cbn in H.
  destruct (_ && _) in H.
  - apply wait_longer_inv in H as (_ & _ & _ & _ & _ & _ & _ & Hrest).
    unfold beside_clock in Hrest. unfold held.
    injection Hrest as _ _ _ _ _ _ _ _ Hm Hr Hb Hd Ha _ Hp Hl.
    congruence.
  - apply Ok_inj in H as [_ <-]. reflexivity.
Qed.

Lemma endio_finish_held (h : lightnvm_h) (bi : nat) (b : bio)
    (pb : per_bio_data) (pool : nat) (err : Z) (s s' : nvmd) :
  endio_finish h bi b pb pool err s = Ok tt s' ->
  exists b0,
    bios s !! bi = Some b0 /\
    held s' =
    (locked_addrs s,
     <[bi := mk_bio (bi_sector b0) (bi_rw b0) (bi_bdev b0) (pb_bi_end_io pb)
               (pb_bi_private pb) (bi_io_vec b0)]> (bios s),
     pb :: per_bio_pool s,
     match pb_event pb with
     | Some _ => if bio_data_dir b =? READ then addr_pool s
                 else S (addr_pool s)
     | None => S (addr_pool s)
     end,
     maps s, rev_trans_map s, deferred_bios s).
Proof.
  intros H.
  unfold endio_finish, exit_pbd, free_pbd, mempool_free_pbd,
    mempool_free_addr, bio_endio in H.
  kern. invert_run H.
  all: apply Ok_inj in H as [_ <-].
  all: eexists; (split; [reflexivity|]); reflexivity.
Qed.

(** X24: whatever way a completion takes through [nvm_endio], a read or a
    write, with or without a device wait, on a serialized pool or not, it
    returns what the request held: the lock on the logical address is
    released, the request has the completion routine and the private
    pointer of its owner back, the wrapper returns to its mempool and so
    does the address handle, unless the request is a read of the garbage
    collector.  The translation maps are not touched. *)
Theorem nvm_endio_gives_back (h : lightnvm_h) (s : nvmd) (b : bio)
    (bio : nat) (err : Z) (pb : per_bio_data) (s' : nvmd) :
  bios s !! bio = Some b ->
  bi_private b = PtrObj pb ->
  nvm_endio h None bio err s = Ok tt s' ->
  locked_addrs s' =
    List.filter (fun x => negb (x =? pb_l_addr pb)) (locked_addrs s) /\
  bios s' = <[bio := mk_bio (bi_sector b) (bi_rw b) (bi_bdev b)
                       (pb_bi_end_io pb) (pb_bi_private pb) (bi_io_vec b)]>
              (bios s) /\
  per_bio_pool s' = pb :: per_bio_pool s /\
  addr_pool s' =
    match pb_event pb with
    | Some _ => if bio_data_dir b =? READ then addr_pool s
                else S (addr_pool s)
    | None => S (addr_pool s)
    end /\
  maps s' = maps s /\ rev_trans_map s' = rev_trans_map s /\
  deferred_bios s' = deferred_bios s.
Proof.
  intros Hb Hpriv H.
  unfold nvm_endio, nvm_unlock_addr in H.
  apply bind_Ok in H as (b' & s0 & Hderef & H).
  unfold deref in Hderef. rewrite Hb in Hderef.
  apply Ok_inj in Hderef as [<- <-].
  rewrite Hpriv in H.
  destruct (pb_addr pb) as [p|]; [|discriminate H].
  apply bind_Ok in H as (a & s0 & Hap & H).
  assert (s0 = s) as ->
    by (unfold deref in Hap; destruct (pb_ap pb); [|discriminate Hap];
        destruct (aps s !! _); [|discriminate Hap];
        apply Ok_inj in Hap as [_ Hs]; congruence).
  apply bind_Ok in H as ([] & s1 & Hunlock & H).
  apply Ok_inj in Hunlock as [_ <-].
  apply bind_Ok in H as (d & s2 & Hacc & H).
  apply bind_Ok in H as ([] & s3 & Hpace & H).
  apply endio_account_held in Hacc.
  apply endio_pace_held in Hpace.
  apply endio_finish_held in H as (b0 & Hb0 & H).
  unfold held in *.
  cbn [locked_addrs bios per_bio_pool addr_pool maps rev_trans_map
       deferred_bios set_locked_addrs] in Hacc.
  injection Hacc as Hl2 Hb2 Hp2 Ha2 Hm2 Hr2 Hd2.
  injection Hpace as Hl3 Hb3 Hp3 Ha3 Hm3 Hr3 Hd3.
  injection H as Hl Hbs Hp Ha Hm Hr Hd.
  rewrite Hb3, Hb2, Hb in Hb0. injection Hb0 as <-.
  rewrite Hl, Hl3, Hl2, Hbs, Hb3, Hb2, Hp, Hp3, Hp2, Ha, Ha3, Ha2, Hm, Hm3,
    Hm2, Hr, Hr3, Hr2, Hd, Hd3, Hd2.
  repeat split.
Qed.

Lemma nvm_endio_gives_back_witness :
  exists s',
    nvm_endio example_h None 0 0 (example_dev_inflight 3 0 [10000; 600000])
    = Ok tt s' /\
    locked_addrs s' = [] /\
    bios s' = [mk_bio 56 1 (Some 0) (Some (EndIoUpstream 7)) (PtrCookie 9)
                 [BvBlockData 0 7]] /\
    per_bio_pool s' = [example_pbd; stale_pbd] /\
    addr_pool s' = 4%nat /\
    maps s' = maps (example_dev_inflight 3 0 [10000; 600000]).
Proof.
  evar (s' : nvmd).
  assert (Hrun : nvm_endio example_h None 0 0
                   (example_dev_inflight 3 0 [10000; 600000]) = Ok tt s')
    by (subst s'; vm_compute; reflexivity).
  destruct (nvm_endio_gives_back example_h
              (example_dev_inflight 3 0 [10000; 600000]) example_issue 0 0
              example_pbd s' eq_refl eq_refl Hrun)
    as (H1 & H2 & H3 & H4 & H5 & _).
  exists s'. split; [exact Hrun|]. split; [exact H1|]. split; [exact H2|].
  split; [exact H3|]. split; [exact H4|]. exact H5.
Defined.

(** ** The reverse map *)

(** What a successful [nvm_update_map] has done to the reverse map. *)
Lemma nvm_update_map_rev_inv (h : lightnvm_h) (s : nvmd) (l_addr : Z)
    (p : nvm_addr) (is_gc : Z) (tm : nat) (s' : nvmd) :
  nvm_update_map h l_addr p is_gc tm s = Ok tt s' ->
  exists fwd gp mid,
    maps s !! tm = Some fwd /\ nthZ fwd l_addr = Some gp /\
    rev_trans_map s' =
      <[Z.to_nat (addr p) := mk_rev l_addr (Some tm)]> mid /\
    0 <= addr p /\
    match block gp with
    | None => mid = rev_trans_map s
    | Some _ =>
        exists r0,
          nthZ (rev_trans_map s) (addr gp) = Some r0 /\
          mid = <[Z.to_nat (addr gp) :=
                    mk_rev (LTOP_POISON h) (rv_trans_map r0)]>
                  (rev_trans_map s)
    end.
Proof.
  intros H.
  destruct s as [np nh na cf nw bl ps ap mp rv bi df adp bpp pbp lk ck kl].
  unfold nvm_update_map, invalidate_block_page, test_and_set_bit in H.
  kern. invert_run H.
  all: apply Ok_inj in H as [_ <-].
  all: setters.
  all: match goal with
       | H1 : Some ?x = Some ?y |- _ => injection H1 as ->
       end.
  all: match goal with
       | H1 : @nthZ nvm_addr ?f _ = Some ?g |- _ => exists f, g
       end.
  all: eexists; split; [assumption|]; split; [assumption|];
    split; [reflexivity|]; split;
    [match goal with
     | H1 : @nthZ nvm_rev_addr _ ?a = Some _ |- 0 <= ?a =>
         exact (proj1 (nthZ_Some _ _ _ H1))
     end|].
  all: match goal with
       | H1 : block _ = _ |- _ => rewrite H1
       end.
  all: first [reflexivity | eexists; split; [eassumption | reflexivity]].
Qed.

(** X25: [nvm_update_map] keeps the reverse map in step with the forward
    map.  If every translation of the forward map to a page of a block is
    mirrored in the reverse map, and the page written is one that no logical
    address is mapped to yet, the same holds after the update: the entry of
    the page overwritten is poisoned without harm to any other
    translation. *)
Theorem nvm_update_map_consistent (h : lightnvm_h) (s : nvmd) (l_addr : Z)
    (p : nvm_addr) (is_gc : Z) (tm : nat) (s' : nvmd) :
  nvm_update_map h l_addr p is_gc tm s = Ok tt s' ->
  maps_consistent s tm ->
  page_unmapped s tm (addr p) ->
  maps_consistent s' tm.
Proof.
  intros H Hcons Hfresh.
  destruct (nvm_update_map_inv _ _ _ _ _ _ _ H)
    as (fwd & gp & Hfwd & Hgp & Hmaps & Hl & _ & _ & _ & Hrevp & _).
  destruct (nvm_update_map_rev_inv _ _ _ _ _ _ _ H)
    as (fwd0 & gp0 & mid & Hfwd0 & Hgp0 & Hrev & Hp0 & Hmid).
  assert (fwd0 = fwd) as -> by congruence.
  assert (gp0 = gp) as -> by congruence.
  assert (Htm : (tm < length (maps s))%nat)
    by (eapply lookup_lt_Some; eauto).
  intros fwd' l2 e2 Hfwd' He2 Hblk2.
  rewrite Hmaps, list_lookup_insert_eq in Hfwd' by exact Htm.
  injection Hfwd' as <-.
  destruct (Z.eq_dec l2 l_addr) as [->|Hne].
  - rewrite (nthZ_insert_eq _ _ _ _ Hgp) in He2. injection He2 as <-.
    exact Hrevp.
  - rewrite nthZ_insert_ne in He2 by lia.
    pose proof (Hcons fwd l2 e2 Hfwd He2 Hblk2) as Hr2.
    pose proof (Hfresh fwd l2 e2 Hfwd He2 Hblk2) as Hn2.
    rewrite Hrev, nthZ_insert_ne by (first [exact Hp0 | congruence]).
    destruct (block gp) as [b0|] eqn:Hb0.
    + destruct Hmid as (r0 & Hr0 & ->).
      pose proof (nthZ_Some _ _ _ Hr0) as [Hg0 _].
      pose proof (Hcons fwd l_addr gp Hfwd Hgp ltac:(rewrite Hb0; eauto))
        as Hrg.
      rewrite nthZ_insert_ne; [exact Hr2 | exact Hg0 |].
      intros Heq. rewrite Heq in Hrg. congruence.
    + subst mid. exact Hr2.
Qed.

Lemma nvm_update_map_consistent_witness :
  exists s',
    nvm_update_map example_h 4 (mk_addr 6 (Some 0%nat) None) 0 trans_map
      example_dev_written = Ok tt s' /\
    maps_consistent s' trans_map.
Proof.
  evar (s' : nvmd).
  assert (Hrun : nvm_update_map example_h 4 (mk_addr 6 (Some 0%nat) None) 0
                   trans_map example_dev_written = Ok tt s')
    by (subst s'; vm_compute; reflexivity).
  assert (Honly : forall fwd l e,
             maps example_dev_written !! trans_map = Some fwd ->
             nthZ fwd l = Some e -> is_Some (block e) ->
             l = 3 /\ e = mk_addr 5 (Some 0%nat) None).
  { intros fwd l e Hfwd He Hblk.
    assert (Hmap : maps example_dev_written !! trans_map =
                   Some (<[Z.to_nat 3 := mk_addr 5 (Some 0%nat) None]>
                           (replicate 64 (mk_addr 0 None None))))
      by reflexivity.
    assert (fwd = <[Z.to_nat 3 := mk_addr 5 (Some 0%nat) None]>
                    (replicate 64 (mk_addr 0 None None))) as ->
      by congruence.
    clear Hfwd Hmap.
    destruct (Z.eq_dec l 3) as [->|Hne].
    - assert (Some e = Some (mk_addr 5 (Some 0%nat) None)) as Heq
        by (rewrite <- He; reflexivity).
      injection Heq as ->. split; reflexivity.
    - pose proof (nthZ_Some _ _ _ He) as [Hl0 _].
      rewrite (nthZ_insert_ne _ 3 l) in He by lia.
      unfold nthZ in He. destruct (l <? 0); [discriminate He|].
      apply lookup_replicate in He as [-> _].
      destruct Hblk as [x Hx]. discriminate Hx. }
  exists s'. split; [exact Hrun|].
  apply (nvm_update_map_consistent example_h example_dev_written 4
           (mk_addr 6 (Some 0%nat) None) 0 trans_map s' Hrun).
  - intros fwd l e Hfwd He Hblk.
    destruct (Honly fwd l e Hfwd He Hblk) as [-> ->]. reflexivity.
  - intros fwd l e Hfwd He Hblk.
    destruct (Honly fwd l e Hfwd He Hblk) as [-> ->]. cbn. lia.
Defined.

(** ** A request without a wrapper *)



(** ** The count of free blocks *)

Lemma nvm_pool_get_block_counted (s : nvmd) (pool : option nat) (is_gc : Z)
    (r : option nat) (s' : nvmd) :
  nvm_pool_get_block pool is_gc s = Ok r s' ->
  counted_pools (pools s) -> counted_pools (pools s').
Proof.
  intros H [Hc Hb].
  destruct (nvm_pool_get_block_inv _ _ _ _ _ H)
    as [(_ & -> & _)|(pi & pl & b & rest & _ & Hpl & Hfl & _ & ->)];
    [split; assumption|].
  pose proof (Forall_lookup_1 _ _ _ _ Hc Hpl) as Hpc.
  pose proof (Forall_lookup_1 _ _ _ _ Hb Hpl) as Hpb.
  unfold pool_counted in Hpc. rewrite Hfl in Hpc. cbn [length] in Hpc.
  cbn beta in Hpb.
  assert (Hu : u32 (nr_free_blocks pl - 1) = nr_free_blocks pl - 1)
    by (apply u32_small; lia).
  split; apply Forall_insert; try assumption.
  - unfold pool_counted. cbn [free_list nr_free_blocks set_lists].
    rewrite Hu. lia.
  - cbn [free_list nr_free_blocks set_lists]. rewrite Hu. lia.
Qed.

(** Chains what the callees do to the pools. *)
Ltac pools_chain Hh :=
  repeat match goal with
    | u : unit |- _ => destruct u
    | H : __nvm_alloc_phys_addr _ _ _ _ _ = Ok _ _ |- _ =>
        apply alloc_phys_addr_frame in H as (_ & _ & _ & ? & _ & _);
        [|exact Hh]
    | H : nvm_set_ap_cur _ _ _ _ = Ok _ _ |- _ =>
        apply nvm_set_ap_cur_frame in H as (_ & ? & _)
    | H : nvm_pool_get_block _ _ _ = Ok _ _ |- _ =>
        pose proof (nvm_pool_get_block_counted _ _ _ _ _ H); clear H
    end;
  setters;
  repeat first
    [ assumption
    | match goal with
      | H : pools ?a = _ |- counted_pools (pools ?a) => rewrite H; setters
      | H : counted_pools _ -> counted_pools (pools ?a)
        |- counted_pools (pools ?a) => apply H; setters
      end ].

Lemma alloc_addr_gc_counted (h : lightnvm_h) (hook : option (nat -> M unit))
    (s : nvmd) (ap : option nat) (ai : nat) (pool : option nat)
    (r : Z * option nat) (s' : nvmd) :
  hook_inert hook ->
  alloc_addr_gc h hook ap ai pool s = Ok r s' ->
  counted_pools (pools s) -> counted_pools (pools s').
Proof.
  intros Hh H Hc.
  unfold alloc_addr_gc, nvm_alloc_phys_addr, show_all_pools in H.
  kern. invert_run H.
  all: apply Ok_inj in H as [_ <-].
  all: pools_chain Hh.
Qed.

(** X27: allocation keeps the books of the pools.  If every pool counts
    its free list in [nr_free_blocks], it still does after any run of
    [nvm_alloc_addr_from_ap], whichever way the run went: from the current
    block, from a block taken off the free list, or from the blocks of the
    garbage collector. *)
Theorem nvm_alloc_addr_from_ap_counted (h : lightnvm_h)
    (hook : option (nat -> M unit)) (s : nvmd) (ap : option nat) (is_gc : Z)
    (r : option nvm_addr) (s' : nvmd) :
  hook_inert hook ->
  pools_counted s ->
  Forall (fun pl => nr_free_blocks pl < 2 ^ 32) (pools s) ->
  nvm_alloc_addr_from_ap h hook ap is_gc s = Ok r s' ->
  pools_counted s' /\
  Forall (fun pl => nr_free_blocks pl < 2 ^ 32) (pools s').
Proof.
  intros Hh Hc Hb H.
  assert (Hcp : counted_pools (pools s)) by (split; assumption).
  change (counted_pools (pools s')).
  unfold nvm_alloc_addr_from_ap, mempool_alloc_addr, mempool_free_addr,
    nvm_alloc_phys_addr in H.
  kern. invert_run H.
  all: apply Ok_inj in H as [_ <-].
  all: try match goal with
         | H : alloc_addr_gc _ _ _ _ _ _ = Ok _ _ |- _ =>
             pose proof (alloc_addr_gc_counted _ _ _ _ _ _ _ _ Hh H); clear H
         end.
  all: pools_chain Hh.
Qed.

Lemma nvm_alloc_addr_from_ap_counted_witness :
  exists r s',
    nvm_alloc_addr_from_ap example_h None (Some 0%nat) 0 example_dev_full0
    = Ok r s' /\
    pools_counted s' /\
    Forall (fun pl => nr_free_blocks pl < 2 ^ 32) (pools s').
Proof.
  evar (r : option nvm_addr). evar (s' : nvmd).
  assert (Hrun : nvm_alloc_addr_from_ap example_h None (Some 0%nat) 0
                   example_dev_full0 = Ok r s')
    by (subst r s'; vm_compute; reflexivity).
  exists r, s'. split; [exact Hrun|].
  apply (nvm_alloc_addr_from_ap_counted example_h None example_dev_full0
           (Some 0%nat) 0 r s' I).
  - repeat constructor.
  - repeat constructor.
  - exact Hrun.
Defined.
